(** * universal-memory-mcp: memory store, similarity engine and protocol bridge

    A shallow embedding of [src/memory-store.ts], [src/ollama-client.ts],
    [src/utils.ts], [src/http-server.ts] and [src/index.ts], followed by the
    properties the specification states about them.

    Conventions of the embedding:
    - a JavaScript string is a [string]; the model is exact on ASCII text
      (lower-casing and the class [\s] are those of the ASCII range);
    - a similarity score, in the source the double [matches / query.length],
      is the exact rational of the two integers ([Q]);
    - the SQLite tables are lists of rows in rowid order; a SQL statement is
      the list function it computes;
    - an [async] method of the store is a computation over the [World]: the
      database handle and a tick that indexes the identifiers and clock
      readings the environment supplies. *)

From Stdlib Require Import String Ascii List Bool Arith ZArith QArith Lia.
From Stdlib Require Import Sorted Permutation.
Import ListNotations.
Local Close Scope Q_scope.
Local Open Scope string_scope.
Local Open Scope nat_scope.

Set Implicit Arguments.
Set Warnings "-register-all".

(** ** JavaScript strings *)

Module Js.

(** The white space class [\s] of a regular expression, ASCII range:
    tab, line feed, vertical tab, form feed, carriage return, space. *)
Definition is_space (c : ascii) : bool :=
  let n := nat_of_ascii c in
  ((9 <=? n) && (n <=? 13)) || (n =? 32).

Definition lower_char (c : ascii) : ascii :=
  let n := nat_of_ascii c in
  if (65 <=? n) && (n <=? 90) then ascii_of_nat (n + 32) else c.

(** [String.prototype.toLowerCase]. *)
Fixpoint toLowerCase (s : string) : string :=
  match s with
  | EmptyString => EmptyString
  | String c s' => String (lower_char c) (toLowerCase s')
  end.

(** [s.split(/\s+/)]: the fields between the maximal runs of white space.
    [cur] is the field being read, [in_ws] tells that the previous
    character belonged to a separator.  The empty string splits into
    [[""]], a leading or trailing separator gives an empty first or last
    field. *)
Fixpoint split_go (in_ws : bool) (cur : string) (s : string) : list string :=
  match s with
  | EmptyString => [cur]
  | String c s' =>
      if is_space c then
        if in_ws then split_go true EmptyString s'
        else cur :: split_go true EmptyString s'
      else split_go false (cur ++ String c EmptyString) s'
  end.

Definition split_ws (s : string) : list string := split_go false EmptyString s.

(** [s.includes(p)]: [p] occurs in [s] as a contiguous substring. *)
Fixpoint includes (s p : string) : bool :=
  if String.prefix p s then true
  else match s with
       | EmptyString => false
       | String _ s' => includes s' p
       end.

(** [s.slice(0, n)]. *)
Fixpoint slice0 (n : nat) (s : string) : string :=
  match n, s with
  | S n', String c s' => String c (slice0 n' s')
  | _, _ => EmptyString
  end.

(** [s.trim().length === 0] *)
Fixpoint all_space (s : string) : bool :=
  match s with
  | EmptyString => true
  | String c s' => is_space c && all_space s'
  end.

(** Truthiness of a string: every string but the empty one. *)
Definition truthy (s : string) : bool :=
  match s with EmptyString => false | _ => true end.

(** [a || b] on optional strings ([undefined], [null] and [""] are falsy). *)
Definition or_else (a : option string) (b : string) : string :=
  match a with
  | Some s => if truthy s then s else b
  | None => b
  end.

(** [Array.prototype.some]. *)
Definition some {A} (f : A -> bool) (l : list A) : bool := existsb f l.

(** [s.split(',')] and the like: the fields between the occurrences of one
    character. *)
Fixpoint split_char_go (sep : ascii) (cur : string) (s : string) : list string :=
  match s with
  | EmptyString => [cur]
  | String c s' =>
      if Ascii.eqb c sep then cur :: split_char_go sep EmptyString s'
      else split_char_go sep (cur ++ String c EmptyString) s'
  end.

Definition split_char (sep : ascii) (s : string) : list string :=
  split_char_go sep EmptyString s.

End Js.

(** ** Similarity engine *)

(** [calculateTextSimilarity] of memory-store.ts.  The [for] loop over the
    words of the query is the recursion of [count_matches]; [matches] is its
    accumulator. *)
Definition word_matches (content : list string) (queryWord : string) : bool :=
  Js.some (fun contentWord =>
             Js.includes contentWord queryWord || Js.includes queryWord contentWord)
          content.

Fixpoint count_matches (content query : list string) (matches : nat) : nat :=
  match query with
  | [] => matches
  | queryWord :: rest =>
      count_matches content rest
        (if word_matches content queryWord then S matches else matches)
  end.

(** The quotient of two counts.  The source computes the double nearest to
    it; rounding is monotone and the thresholds are short decimals, so a
    comparison of the exact quotient with a threshold comes out as the
    comparison of the doubles does. *)
Definition ratio (n d : nat) : Q := Z.of_nat n # Pos.of_nat d.

Definition calculateTextSimilarity (text1 text2 : string) : Q :=
  let query := Js.split_ws (Js.toLowerCase text1) in
  let content := Js.split_ws (Js.toLowerCase text2) in
  let matches := count_matches content query 0 in
  if 0 <? length query then ratio matches (length query) else 0%Q.


(** [new Set(words)]: the distinct words in order of first insertion. *)
Fixpoint set_add (x : string) (s : list string) : list string :=
  match s with
  | [] => [x]
  | y :: s' => if String.eqb x y then s else y :: set_add x s'
  end.

Definition set_of (l : list string) : list string :=
  fold_left (fun s x => set_add x s) l [].

Definition set_has (s : list string) (x : string) : bool :=
  existsb (String.eqb x) s.

(** [simpleTextSimilarity] of ollama-client.ts (the Jaccard fallback).  The
    division is the double division of JavaScript: it raises nothing, and
    [0 / 0] is [NaN]; [None] stands for [NaN]. *)
Definition simpleTextSimilarity (text1 text2 : string) : option Q :=
  let words1 := set_of (Js.split_ws (Js.toLowerCase text1)) in
  let words2 := set_of (Js.split_ws (Js.toLowerCase text2)) in
  let intersection := set_of (filter (set_has words2) words1) in
  let union := set_of (words1 ++ words2) in
  match length union with
  | O => None
  | S _ => Some (ratio (length intersection) (length union))
  end.

(** ** JavaScript values, errors and results *)

(** A JSON-shaped JavaScript value: tool schemas, tag lists and whatever
    [JSON.parse] returns. *)
Inductive JValue : Type :=
| JNull
| JBool (b : bool)
| JNum (z : Z)
| JStr (s : string)
| JArr (items : list JValue)
| JObj (fields : list (string * JValue)).

(** [ErrorCode] of the protocol SDK, as far as index.ts uses it. *)
Inductive ErrorCode := InvalidParams | MethodNotFound | InternalError.


Definition ErrorCode_text (c : ErrorCode) : string :=
  match c with
  | InvalidParams => "-32602"
  | MethodNotFound => "-32601"
  | InternalError => "-32603"
  end.

(** What an operation can throw.  [message] is the [.message] of the
    JavaScript error object. *)
Inductive Error : Type :=
| NotInitialized                    (* new Error('Database not initialized') *)
| SqliteError (msg : string)        (* a rejected db.run / db.all *)
| TypeError (msg : string)          (* a property read on undefined *)
| McpError (code : ErrorCode) (msg : string).

(** [error.message]; the SDK builds the message of an [McpError] as
    [`MCP error ${code}: ${message}`]. *)
Definition message (e : Error) : string :=
  match e with
  | NotInitialized => "Database not initialized"
  | SqliteError msg => msg
  | TypeError msg => msg
  | McpError code msg => "MCP error " ++ ErrorCode_text code ++ ": " ++ msg
  end.

Inductive result (A : Type) : Type :=
| Ok (a : A)
| Throw (e : Error).
Arguments Ok {A} a.
Arguments Throw {A} e.

(** ** The tables of [createTables] *)

Inductive Source := manual | auto_extracted.
Inductive Status := pending | in_progress | completed.
Inductive Priority := low | medium | high.

(** A row of [memories]: one field per column. *)
Record MemoryRow := {
  row_id : string;                       (* id TEXT PRIMARY KEY *)
  row_content : string;                  (* content TEXT NOT NULL *)
  row_original_content : option string;
  row_context : string;                  (* context TEXT NOT NULL DEFAULT 'general' *)
  row_importance : Z;                    (* importance INTEGER DEFAULT 5 *)
  row_timestamp : string;                (* timestamp TEXT NOT NULL *)
  row_source : Source;
  row_project : option string;
  row_category : option string;
  row_tags : option string;              (* JSON text *)
  row_embedding : option string;
  row_created_at : string;
  row_updated_at : string
}.

(** A row of [todos]. *)
Record TodoRow := {
  trow_id : string;
  trow_content : string;
  trow_status : Status;
  trow_priority : Priority;
  trow_project : option string;
  trow_context : option string;
  trow_tags : option string;             (* JSON text *)
  trow_created_at : string;
  trow_updated_at : string
}.

Definition memories_columns : list string :=
  ["id"; "content"; "original_content"; "context"; "importance"; "timestamp";
   "source"; "project"; "category"; "tags"; "embedding"; "created_at";
   "updated_at"].

(** The database handle: both tables, and the tables as they were at
    [BEGIN TRANSACTION] while a transaction is active. *)
Record Database := {
  memories : list MemoryRow;
  todos : list TodoRow;
  transaction : option (list MemoryRow * list TodoRow);
  is_open : bool                         (* false once db.close() has run *)
}.

(** The closure variable [db] of [createMemoryStore] ([None] is [null]) and
    the tick that indexes the readings of the environment. *)
Record World := {
  db : option Database;
  tick : nat
}.

(** What the store does not compute itself. *)
Record RepositoryInfo := {
  repoName : option string;
  branch : option string;
  remoteName : option string;
  remoteUrl : option string;
  isGitRepo : bool;
  repo_tags : list string
}.

Record Env := {
  idOracle : nat -> string;           (* generateId(): Date.now and Math.random *)
  isoClock : nat -> string;           (* new Date().toISOString() *)
  sqlClock : nat -> string;           (* CURRENT_TIMESTAMP *)
  JSON_parse : string -> option JValue;       (* None: it throws *)
  JSON_stringify : list string -> string;     (* on an array of strings *)
  sqlite_datetime : string -> option string;  (* datetime(x), None is NULL *)
  (* ollama.enhanceMemory(content, context): the trimmed answer of the
     model, or [content] itself when the call fails *)
  ollama_enhanceMemory : option string -> option string -> nat -> option string;
  detectRepositoryInfo : RepositoryInfo
}.

(** ** Computations of the store *)

Definition M (A : Type) : Type := World -> result A * World.

Definition ret {A} (a : A) : M A := fun w => (Ok a, w).

Definition bind {A B} (c : M A) (k : A -> M B) : M B :=
  fun w => match c w with
           | (Ok a, w') => k a w'
           | (Throw e, w') => (Throw e, w')
           end.

Definition throw {A} (e : Error) : M A := fun w => (Throw e, w).

(** [try { c } catch (error) { handler(error) }] *)
Definition try_catch {A} (c : M A) (handler : Error -> M A) : M A :=
  fun w => match c w with
           | (Ok a, w') => (Ok a, w')
           | (Throw e, w') => handler e w'
           end.

Declare Scope store_scope.
Delimit Scope store_scope with store.
Notation "x <- c ;; k" := (bind c (fun x => k))
  (at level 61, c at next level, right associativity) : store_scope.
Notation "c ;;; k" := (bind c (fun _ => k))
  (at level 61, right associativity) : store_scope.
Local Open Scope store_scope.

(** [if (!db) throw new Error('Database not initialized')] *)
Definition require_db : M Database :=
  fun w => match db w with
           | Some d => (Ok d, w)
           | None => (Throw NotInitialized, w)
           end.

Definition closed_error : Error :=
  SqliteError "SQLITE_MISUSE: Database is closed".

(** [await db.run(sql, params)]: the statement changes the tables and
    reports [changes]; a statement that fails changes nothing. *)
Definition db_run (stmt : Database -> result (Database * nat)) : M nat :=
  fun w => match db w with
           | None => (Throw NotInitialized, w)
           | Some d =>
               if is_open d then
                 match stmt d with
                 | Ok (d', changes) => (Ok changes, {| db := Some d'; tick := tick w |})
                 | Throw e => (Throw e, w)
                 end
               else (Throw closed_error, w)
           end.

(** [await db.all(sql, params)] and [await db.get(sql, params)]. *)
Definition db_all {A} (query : Database -> A) : M A :=
  fun w => match db w with
           | None => (Throw NotInitialized, w)
           | Some d => if is_open d then (Ok (query d), w)
                       else (Throw closed_error, w)
           end.

Definition next_tick : M nat :=
  fun w => (Ok (tick w), {| db := db w; tick := S (tick w) |}).

(** A stable insertion sort: [before a b] tells that [a] sorts strictly
    before [b]; elements that tie keep their order. *)
Fixpoint insert_sorted {A} (before : A -> A -> bool) (x : A) (l : list A) : list A :=
  match l with
  | [] => [x]
  | y :: l' => if before y x then y :: insert_sorted before x l' else x :: l
  end.

Definition stable_sort {A} (before : A -> A -> bool) (l : list A) : list A :=
  fold_right (insert_sorted before) [] l.

(** ** SQL as list functions *)

Module Sql.

(** [text LIKE pattern]: [%] matches any run of characters, [_] any one
    character, and letters compare without case (SQLite's default for
    ASCII). *)
Fixpoint like (pattern : string) : string -> bool :=
  match pattern with
  | EmptyString => fun text => match text with EmptyString => true | _ => false end
  | String p pattern' =>
      if Ascii.eqb p "%"%char then
        fix star (text : string) : bool :=
          like pattern' text
          || match text with
             | EmptyString => false
             | String _ text' => star text'
             end
      else if Ascii.eqb p "_"%char then
        fun text => match text with
                    | EmptyString => false
                    | String _ text' => like pattern' text'
                    end
      else
        fun text => match text with
                    | EmptyString => false
                    | String c text' =>
                        Ascii.eqb (Js.lower_char p) (Js.lower_char c)
                        && like pattern' text'
                    end
  end.

(** The pattern [`%${word}%`]. *)
Definition contains_pattern (word : string) : string := "%" ++ word ++ "%".

(** [ORDER BY]: a stable sort; [before a b] tells that [a] sorts strictly
    before [b].  Rows that tie keep their rowid order (SQL leaves the order
    of ties open). *)
Definition order_by {A} (before : A -> A -> bool) (l : list A) : list A :=
  stable_sort before l.

(** [LIMIT n]: a negative [n] is no limit. *)
Definition limit {A} (n : Z) (l : list A) : list A :=
  if (n <? 0)%Z then l else firstn (Z.to_nat n) l.

(** Text compares by code unit (BINARY collation). *)
Definition text_gt (a b : string) : bool :=
  match String.compare a b with Gt => true | _ => false end.

Definition opt_eqb (a : option string) (b : string) : bool :=
  match a with Some x => String.eqb x b | None => false end.

End Sql.

(** ** The types of types.ts *)

(** [MemoryData].  The interface makes [context], [importance] and [source]
    mandatory, [addMemory] still supplies defaults when they are
    [undefined]: they are optional here.  An importance is an integer (the
    column has INTEGER affinity). *)
Record MemoryData := {
  md_content : string;
  md_originalContent : option string;
  md_context : option string;
  md_importance : option Z;
  md_timestamp : string;
  md_source : option Source;
  md_project : option string;
  md_category : option string;
  md_tags : option (list string)
}.

(** [StoredMemory].  [sm_tags] is a JavaScript value: the array the caller
    gave, the JSON text of a row read with [SELECT *], or what [JSON.parse]
    made of that text. *)
Record StoredMemory := {
  sm_id : string;
  sm_content : string;
  sm_originalContent : option string;
  sm_context : string;
  sm_importance : Z;
  sm_timestamp : string;
  sm_source : Source;
  sm_project : option string;
  sm_category : option string;
  sm_tags : option JValue;
  sm_createdAt : string;
  sm_updatedAt : string
}.

Record SearchOptions := {
  so_limit : option Z;
  so_context : option string;
  so_threshold : option Q
}.

Record GetMemoriesOptions := {
  go_context : option string;
  go_limit : option Z;
  go_since : option string              (* since.toISOString() *)
}.

Record ProjectMemoryStats := {
  ps_project : string;
  ps_totalMemories : nat;
  ps_categories : list string;
  ps_lastUpdated : string
}.

Inductive Format := json | markdown | csv.

Record MemoryBankExport := {
  ex_project : option string;
  ex_category : option string;
  ex_format : Format;
  ex_exportedAt : string;
  ex_memories : list StoredMemory
}.

(** An element of the [memories] argument of [updateMemoryBank].  The
    content of an element that came without one is [None]. *)
Record BankMemory := {
  bm_content : option string;
  bm_importance : option Z;
  bm_tags : option (list string)
}.

Record TodoData := {
  td_content : string;
  td_status : Status;
  td_priority : Priority;
  td_project : option string;
  td_context : option string;
  td_tags : option (list string);
  td_createdAt : string;
  td_updatedAt : string
}.

(** [Partial<TodoData>], the fields [updateTodo] reads. *)
Record TodoUpdates := {
  tu_content : option string;
  tu_status : option Status;
  tu_priority : option Priority;
  tu_project : option string;
  tu_context : option string;
  tu_tags : option (list string)
}.

Record StoredTodo := {
  st_id : string;
  st_content : string;
  st_status : Status;
  st_priority : Priority;
  st_project : option string;
  st_context : option string;
  st_tags : option JValue;
  st_createdAt : string;
  st_updatedAt : string
}.

Record ListTodosArgs := {
  lt_status : option Status;
  lt_priority : option Priority;
  lt_project : option string;
  lt_context : option string;
  lt_limit : option Z
}.

(** [StorageConfig]. *)
Record StorageConfig := {
  path : string;
  deduplication : option bool
}.

Definition Source_eqb (a b : Source) : bool :=
  match a, b with
  | manual, manual | auto_extracted, auto_extracted => true
  | _, _ => false
  end.

Definition Status_eqb (a b : Status) : bool :=
  match a, b with
  | pending, pending | in_progress, in_progress | completed, completed => true
  | _, _ => false
  end.

Definition Priority_eqb (a b : Priority) : bool :=
  match a, b with
  | low, low | medium, medium | high, high => true
  | _, _ => false
  end.

Definition Status_text (s : Status) : string :=
  match s with
  | pending => "pending"
  | in_progress => "in_progress"
  | completed => "completed"
  end.

Definition Priority_text (p : Priority) : string :=
  match p with
  | low => "low"
  | medium => "medium"
  | high => "high"
  end.

(** [x > y] and [x >= y] on scores. *)
Definition Qgtb (x y : Q) : bool := negb (Qle_bool x y).
Definition Qgeb (x y : Q) : bool := Qle_bool y x.

(** A value of a bound parameter of [updateMemory]. *)
Inductive SqlValue :=
| SqlNull
| SqlText (s : string)
| SqlInt (z : Z).

(** ** memory-store.ts *)

Section MemoryStore.

Variable E : Env.
Variable config : StorageConfig.

Definition generateId : M string :=
  n <- next_tick ;; ret (idOracle E n).

(** [new Date().toISOString()] *)
Definition newDateISO : M string :=
  n <- next_tick ;; ret (isoClock E n).

(** The value of [CURRENT_TIMESTAMP] for the statement about to run. *)
Definition CURRENT_TIMESTAMP : M string :=
  fun w => (Ok (sqlClock E (tick w)), w).

(** [initialize]: opens the file at [config.path], whose tables are [file]
    (both empty for a new file); [CREATE TABLE IF NOT EXISTS] keeps them. *)
Definition initialize (file : list MemoryRow * list TodoRow) : M unit :=
  fun w => (Ok tt,
            {| db := Some {| memories := fst file; todos := snd file;
                             transaction := None; is_open := true |};
               tick := tick w |}).

(** A row as the JavaScript object [SELECT *] yields, read at the type
    [StoredMemory] with [createdAt: memory.createdAt || memory.timestamp]
    (and the same for [updatedAt]): the row has the columns [created_at] and
    [updated_at] but no property [createdAt], so both fall back to
    [timestamp]; it has no property [originalContent] either, and [tags] is
    the JSON text of the column. *)
Definition storedOfRow (memory : MemoryRow) : StoredMemory :=
  {| sm_id := row_id memory;
     sm_content := row_content memory;
     sm_originalContent := None;
     sm_context := row_context memory;
     sm_importance := row_importance memory;
     sm_timestamp := row_timestamp memory;
     sm_source := row_source memory;
     sm_project := row_project memory;
     sm_category := row_category memory;
     sm_tags := option_map JStr (row_tags memory);
     sm_createdAt := row_timestamp memory;
     sm_updatedAt := row_timestamp memory |}.

Definition created_desc (a b : MemoryRow) : bool :=
  Sql.text_gt (row_created_at a) (row_created_at b).

(** The [SELECT] of [findSimilarMemory]:
    [WHERE context = ? AND content LIKE ? ORDER BY created_at DESC LIMIT 5]
    with the parameters [context] and [`%${content.slice(0, 50)}%`]. *)
Definition similar_candidates (content context : string) (d : Database)
  : list MemoryRow :=
  Sql.limit 5
    (Sql.order_by created_desc
       (filter (fun r => String.eqb (row_context r) context
                         && Sql.like (Sql.contains_pattern (Js.slice0 50 content))
                                     (row_content r))
               (memories d))).

Definition default_dedup_threshold : Q := 9 # 10.

Definition findSimilarMemory (content context : string) (threshold : Q)
  : M (option StoredMemory) :=
  memories <- db_all (similar_candidates content context) ;;
  ret (option_map storedOfRow
         (find (fun memory =>
                  Qgtb (calculateTextSimilarity content (row_content memory)) threshold)
               memories)).

(** [SET key = ?] on one row, at the type of the column; [None] when the
    typed row cannot hold the value (NULL in a NOT NULL column included). *)
Definition set_column (key : string) (v : SqlValue) (r : MemoryRow) : option MemoryRow :=
  let '(Build_MemoryRow i c oc cx imp ts src p cat tg emb ca ua) := r in
  let text_or_null : option (option string) :=
    match v with
    | SqlNull => Some None
    | SqlText s => Some (Some s)
    | SqlInt _ => None
    end in
  let text : option string :=
    match v with SqlText s => Some s | _ => None end in
  match key with
  | "id" => option_map (fun s => Build_MemoryRow s c oc cx imp ts src p cat tg emb ca ua) text
  | "content" => option_map (fun s => Build_MemoryRow i s oc cx imp ts src p cat tg emb ca ua) text
  | "original_content" =>
      option_map (fun o => Build_MemoryRow i c o cx imp ts src p cat tg emb ca ua) text_or_null
  | "context" => option_map (fun s => Build_MemoryRow i c oc s imp ts src p cat tg emb ca ua) text
  | "importance" =>
      match v with
      | SqlInt z => Some (Build_MemoryRow i c oc cx z ts src p cat tg emb ca ua)
      | _ => None
      end
  | "timestamp" => option_map (fun s => Build_MemoryRow i c oc cx imp s src p cat tg emb ca ua) text
  | "source" =>
      match v with
      | SqlText "manual" => Some (Build_MemoryRow i c oc cx imp ts manual p cat tg emb ca ua)
      | SqlText "auto-extracted" =>
          Some (Build_MemoryRow i c oc cx imp ts auto_extracted p cat tg emb ca ua)
      | _ => None
      end
  | "project" => option_map (fun o => Build_MemoryRow i c oc cx imp ts src o cat tg emb ca ua) text_or_null
  | "category" => option_map (fun o => Build_MemoryRow i c oc cx imp ts src p o tg emb ca ua) text_or_null
  | "tags" => option_map (fun o => Build_MemoryRow i c oc cx imp ts src p cat o emb ca ua) text_or_null
  | "embedding" => option_map (fun o => Build_MemoryRow i c oc cx imp ts src p cat tg o ca ua) text_or_null
  | "created_at" => option_map (fun s => Build_MemoryRow i c oc cx imp ts src p cat tg emb s ua) text
  | "updated_at" => option_map (fun s => Build_MemoryRow i c oc cx imp ts src p cat tg emb ca s) text
  | _ => None
  end.

Definition set_updated_at (now : string) (r : MemoryRow) : MemoryRow :=
  {| row_id := row_id r; row_content := row_content r;
     row_original_content := row_original_content r;
     row_context := row_context r; row_importance := row_importance r;
     row_timestamp := row_timestamp r; row_source := row_source r;
     row_project := row_project r; row_category := row_category r;
     row_tags := row_tags r; row_embedding := row_embedding r;
     row_created_at := row_created_at r; row_updated_at := now |}.

Fixpoint set_columns (updates : list (string * SqlValue)) (r : MemoryRow)
  : option MemoryRow :=
  match updates with
  | [] => Some r
  | (key, v) :: rest =>
      match set_column key v r with
      | Some r' => set_columns rest r'
      | None => None
      end
  end.

Fixpoint update_rows (id : string) (updates : list (string * SqlValue))
         (now : string) (rows : list MemoryRow) : option (list MemoryRow * nat) :=
  match rows with
  | [] => Some ([], 0)
  | r :: rows' =>
      match update_rows id updates now rows' with
      | None => None
      | Some (rest, n) =>
          if String.eqb (row_id r) id then
            match set_columns updates r with
            | Some r' => Some (set_updated_at now r' :: rest, S n)
            | None => None
            end
          else Some (r :: rest, n)
      end
  end.

(** The statement of [updateMemory]:
    [UPDATE memories SET ${setClause}, updated_at = CURRENT_TIMESTAMP WHERE id = ?]
    where [setClause] names one column per key of [updates].  SQLite
    refuses the statement when a name is not a column of the table. *)
Definition update_memories_stmt (id : string) (updates : list (string * SqlValue))
           (now : string) (d : Database) : result (Database * nat) :=
  match find (fun key => negb (existsb (String.eqb key) memories_columns))
             (map fst updates) with
  | Some key => Throw (SqliteError ("SQLITE_ERROR: no such column: " ++ key))
  | None =>
      match update_rows id updates now (memories d) with
      | Some (rows, n) =>
          Ok ({| memories := rows; todos := todos d;
                 transaction := transaction d; is_open := is_open d |}, n)
      | None => Throw (SqliteError "SQLITE_MISMATCH: datatype mismatch")
      end
  end.

Definition updateMemory (id : string) (updates : list (string * SqlValue)) : M unit :=
  now <- CURRENT_TIMESTAMP ;;
  _ <- db_run (update_memories_stmt id updates now) ;;
  ret tt.

(** [INSERT INTO memories]: the primary key is unique. *)
Definition insert_memory_stmt (r : MemoryRow) (d : Database) : result (Database * nat) :=
  if existsb (fun r' => String.eqb (row_id r') (row_id r)) (memories d) then
    Throw (SqliteError "SQLITE_CONSTRAINT: UNIQUE constraint failed: memories.id")
  else
    Ok ({| memories := memories d ++ [r]; todos := todos d;
           transaction := transaction d; is_open := is_open d |}, 1).

Definition default {A} (d : A) (o : option A) : A :=
  match o with Some a => a | None => d end.

Definition addMemory (memoryData : MemoryData) : M StoredMemory :=
  _ <- require_db ;;
  id <- generateId ;;
  let content := md_content memoryData in
  let originalContent := md_originalContent memoryData in
  let context := default "general" (md_context memoryData) in
  let importance := default 5%Z (md_importance memoryData) in
  let timestamp := md_timestamp memoryData in
  let source := default manual (md_source memoryData) in
  let project := md_project memoryData in
  let category := md_category memoryData in
  let tags := md_tags memoryData in
  let insert_new : M StoredMemory :=
    now <- newDateISO ;;
    let tagsJson := option_map (JSON_stringify E) tags in
    stamp <- CURRENT_TIMESTAMP ;;
    _ <- db_run (insert_memory_stmt
                   {| row_id := id; row_content := content;
                      row_original_content := originalContent;
                      row_context := context; row_importance := importance;
                      row_timestamp := timestamp; row_source := source;
                      row_project := project; row_category := category;
                      row_tags := tagsJson; row_embedding := None;
                      row_created_at := stamp; row_updated_at := stamp |}) ;;
    ret {| sm_id := id; sm_content := content;
           sm_originalContent := originalContent; sm_context := context;
           sm_importance := importance; sm_timestamp := timestamp;
           sm_source := source; sm_project := project; sm_category := category;
           sm_tags := option_map (fun l => JArr (map JStr l)) tags;
           sm_createdAt := now; sm_updatedAt := now |} in
  (* Check for duplicates if deduplication is enabled *)
  if negb (match deduplication config with Some false => true | _ => false end) then
    existing <- findSimilarMemory content context default_dedup_threshold ;;
    match existing with
    | Some existing =>
        (* Update the existing memory instead of creating a duplicate *)
        updatedAt <- newDateISO ;;
        updateMemory (sm_id existing)
          [("content", SqlText content);
           ("importance", SqlInt (Z.max (sm_importance existing) importance));
           ("updatedAt", SqlText updatedAt)] ;;;
        updatedAt' <- newDateISO ;;
        ret {| sm_id := sm_id existing; sm_content := content;
               sm_originalContent := sm_originalContent existing;
               sm_context := sm_context existing;
               sm_importance := importance;
               sm_timestamp := sm_timestamp existing;
               sm_source := sm_source existing;
               sm_project := sm_project existing;
               sm_category := sm_category existing;
               sm_tags := sm_tags existing;
               sm_createdAt := Js.or_else (Some (sm_createdAt existing))
                                          (sm_timestamp existing);
               sm_updatedAt := updatedAt' |}
    | None => insert_new
    end
  else insert_new.

(** [addMemory] on a [memoryData] whose [content] is [undefined] (a caller
    that passed its arguments on unchecked): with deduplication,
    [content.slice] in [findSimilarMemory] is a read on [undefined]; without,
    the [INSERT] binds [NULL] to a [NOT NULL] column. *)
Definition addMemory_undefined_content : M StoredMemory :=
  _ <- require_db ;;
  _ <- generateId ;;
  if negb (match deduplication config with Some false => true | _ => false end) then
    throw (TypeError "Cannot read properties of undefined (reading 'slice')")
  else
    _ <- newDateISO ;;
    _ <- db_run (fun _ => Throw (SqliteError
           "SQLITE_CONSTRAINT: NOT NULL constraint failed: memories.content")) ;;
    throw (SqliteError "SQLITE_CONSTRAINT: NOT NULL constraint failed: memories.content").

(** [StoredMemory & { similarity: number }] *)
Record ScoredMemory := {
  memory : StoredMemory;
  similarity : Q
}.

(** [if (context) sql += ' AND context = ?'] *)
Definition context_filter (context : option string) (r : MemoryRow) : bool :=
  match context with
  | Some c => if Js.truthy c then String.eqb (row_context r) c else true
  | None => true
  end.

Definition importance_created_desc (a b : MemoryRow) : bool :=
  (row_importance b <? row_importance a)%Z
  || ((row_importance a =? row_importance b)%Z && created_desc a b).

(** The [SELECT] of [searchMemories]: one [content LIKE ?] per word of the
    lower-cased query, joined by [OR], then
    [ORDER BY importance DESC, created_at DESC LIMIT ?]. *)
Definition search_candidates (query : string) (context : option string)
           (limit : Z) (d : Database) : list MemoryRow :=
  let queryWords := Js.split_ws (Js.toLowerCase query) in
  Sql.limit limit
    (Sql.order_by importance_created_desc
       (filter (fun r => context_filter context r
                         && existsb (fun word =>
                                       Sql.like (Sql.contains_pattern word) (row_content r))
                                    queryWords)
               (memories d))).

Definition default_search_threshold : Q := 1 # 10.

Definition searchMemories (query : string) (options : SearchOptions)
  : M (list ScoredMemory) :=
  _ <- require_db ;;
  let limit := default 5%Z (so_limit options) in
  let context := so_context options in
  let threshold := default default_search_threshold (so_threshold options) in
  memories <- db_all (search_candidates query context limit) ;;
  ret (stable_sort (fun a b => Qgtb (similarity a) (similarity b))
         (filter (fun m => Qgeb (similarity m) threshold)
            (map (fun r => {| memory := storedOfRow r;
                              similarity := calculateTextSimilarity query (row_content r) |})
                 memories))).

(** [datetime(timestamp) >= datetime(?)]; a [NULL] on either side selects
    nothing. *)
Definition since_filter (since : option string) (r : MemoryRow) : bool :=
  match since with
  | None => true
  | Some s =>
      match sqlite_datetime E (row_timestamp r), sqlite_datetime E s with
      | Some a, Some b => negb (Sql.text_gt b a)
      | _, _ => false
      end
  end.

Definition getMemories (options : GetMemoriesOptions) : M (list StoredMemory) :=
  _ <- require_db ;;
  let limit := default 10%Z (go_limit options) in
  memories <- db_all (fun d =>
    Sql.limit limit
      (Sql.order_by created_desc
         (filter (fun r => context_filter (go_context options) r
                           && since_filter (go_since options) r)
                 (memories d)))) ;;
  ret (map storedOfRow memories).

(** [DELETE FROM memories WHERE id = ?] *)
Definition delete_memory_stmt (id : string) (d : Database) : result (Database * nat) :=
  let kept := filter (fun r => negb (String.eqb (row_id r) id)) (memories d) in
  Ok ({| memories := kept; todos := todos d;
         transaction := transaction d; is_open := is_open d |},
      length (memories d) - length kept).

Definition deleteMemory (id : string) : M bool :=
  _ <- require_db ;;
  changes <- db_run (delete_memory_stmt id) ;;
  ret (0 <? changes).

(** [deleteMemory(undefined)]: the parameter binds as [NULL], and
    [id = NULL] selects no row. *)
Definition deleteMemory_undefined : M bool :=
  _ <- require_db ;;
  changes <- db_run (fun d => Ok (d, 0)) ;;
  ret (0 <? changes).

Definition getMemoryById (id : string) : M (option StoredMemory) :=
  _ <- require_db ;;
  memory <- db_all (fun d => find (fun r => String.eqb (row_id r) id) (memories d)) ;;
  ret (option_map storedOfRow memory).

Fixpoint distinct (l : list string) : list string :=
  match l with
  | [] => []
  | x :: l' => x :: filter (fun y => negb (String.eqb x y)) (distinct l')
  end.

Fixpoint somes {A} (l : list (option A)) : list A :=
  match l with
  | [] => []
  | Some a :: l' => a :: somes l'
  | None :: l' => somes l'
  end.

Definition text_asc (a b : string) : bool := Sql.text_gt b a.

Definition text_max (l : list string) : string :=
  fold_left (fun m x => if Sql.text_gt x m then x else m) l "".

(** One group of
    [SELECT project, COUNT( * ), GROUP_CONCAT(DISTINCT category), MAX(updated_at)
     FROM memories WHERE project IS NOT NULL GROUP BY project]. *)
Record ProjectGroup := {
  pg_project : string;
  pg_total_memories : nat;
  pg_categories : option string;
  pg_last_updated : string
}.

Definition project_group (rows : list MemoryRow) (p : string) : ProjectGroup :=
  let mine := filter (fun r => Sql.opt_eqb (row_project r) p) rows in
  let cats := distinct (somes (map row_category mine)) in
  {| pg_project := p;
     pg_total_memories := length mine;
     pg_categories := match cats with [] => None | _ => Some (String.concat "," cats) end;
     pg_last_updated := text_max (map row_updated_at mine) |}.

Definition listProjects : M (list ProjectMemoryStats) :=
  _ <- require_db ;;
  projects <- db_all (fun d =>
    let names := Sql.order_by text_asc (distinct (somes (map row_project (memories d)))) in
    Sql.order_by (fun a b => Sql.text_gt (pg_last_updated a) (pg_last_updated b))
                 (map (project_group (memories d)) names)) ;;
  ret (map (fun p =>
              {| ps_project := pg_project p;
                 ps_totalMemories := pg_total_memories p;
                 ps_categories :=
                   match pg_categories p with
                   | Some c => if Js.truthy c
                               then filter Js.truthy (Js.split_char "," c)
                               else []
                   | None => []
                   end;
                 ps_lastUpdated := pg_last_updated p |})
           projects).

Definition listProjectFiles (project : string) : M (list string) :=
  _ <- require_db ;;
  db_all (fun d =>
    Sql.order_by text_asc
      (distinct (somes (map row_category
                            (filter (fun r => Sql.opt_eqb (row_project r) project)
                                    (memories d)))))).

(** [BEGIN TRANSACTION], [COMMIT] and [ROLLBACK]. *)
Definition begin_stmt (d : Database) : result (Database * nat) :=
  match transaction d with
  | Some _ =>
      Throw (SqliteError "SQLITE_ERROR: cannot start a transaction within a transaction")
  | None =>
      Ok ({| memories := memories d; todos := todos d;
             transaction := Some (memories d, todos d); is_open := is_open d |}, 0)
  end.

Definition commit_stmt (d : Database) : result (Database * nat) :=
  match transaction d with
  | Some _ =>
      Ok ({| memories := memories d; todos := todos d;
             transaction := None; is_open := is_open d |}, 0)
  | None => Throw (SqliteError "SQLITE_ERROR: cannot commit - no transaction is active")
  end.

Definition rollback_stmt (d : Database) : result (Database * nat) :=
  match transaction d with
  | Some (ms, ts) =>
      Ok ({| memories := ms; todos := ts;
             transaction := None; is_open := is_open d |}, 0)
  | None => Throw (SqliteError "SQLITE_ERROR: cannot rollback - no transaction is active")
  end.

(** The [INSERT] of [updateMemoryBank]; [content] is [NOT NULL]. *)
Definition insert_bank_stmt (id : string) (content : option string)
           (context : string) (importance : Z) (now : string)
           (project : string) (category : option string)
           (tagsJson : option string) (d : Database) : result (Database * nat) :=
  match content with
  | None =>
      Throw (SqliteError "SQLITE_CONSTRAINT: NOT NULL constraint failed: memories.content")
  | Some c =>
      insert_memory_stmt
        {| row_id := id; row_content := c; row_original_content := None;
           row_context := context; row_importance := importance;
           row_timestamp := now; row_source := manual;
           row_project := Some project; row_category := category;
           row_tags := tagsJson; row_embedding := None;
           row_created_at := now; row_updated_at := now |} d
  end.

(** [memory.importance || 5] *)
Definition importance_or_5 (i : option Z) : Z :=
  match i with
  | Some z => if (z =? 0)%Z then 5%Z else z
  | None => 5%Z
  end.

(** The body of [for (const memory of memories)]. *)
Fixpoint insert_bank_memories (project : string) (category : option string)
         (memories : list BankMemory) : M unit :=
  match memories with
  | [] => ret tt
  | memory :: rest =>
      id <- generateId ;;
      now <- newDateISO ;;
      let tagsJson := option_map (JSON_stringify E) (bm_tags memory) in
      _ <- db_run (insert_bank_stmt id (bm_content memory)
                     (Js.or_else category "general")
                     (importance_or_5 (bm_importance memory))
                     now project category tagsJson) ;;
      insert_bank_memories project category rest
  end.

Definition updateMemoryBank (project : string) (category : option string)
           (memories : list BankMemory) : M unit :=
  _ <- require_db ;;
  (* Begin transaction *)
  _ <- db_run begin_stmt ;;
  try_catch
    (insert_bank_memories project category memories ;;;
     _ <- db_run commit_stmt ;;
     ret tt)
    (fun error =>
       _ <- db_run rollback_stmt ;;
       throw error).

(** [m.tags ? (() => { try { return JSON.parse(m.tags) } catch { return undefined } })() : undefined] *)
Definition parse_tags (tags : option string) : option JValue :=
  match tags with
  | Some t => if Js.truthy t then JSON_parse E t else None
  | None => None
  end.

(** [if (project) sql += ' AND project = ?'] and the same for [category]. *)
Definition optional_eq (wanted : option string) (column : option string) : bool :=
  match wanted with
  | Some v => if Js.truthy v then Sql.opt_eqb column v else true
  | None => true
  end.

Definition exportedOfRow (m : MemoryRow) : StoredMemory :=
  {| sm_id := row_id m;
     sm_content := row_content m;
     sm_originalContent := row_original_content m;
     sm_context := row_context m;
     sm_importance := row_importance m;
     sm_timestamp := row_timestamp m;
     sm_source := row_source m;
     sm_project := row_project m;
     sm_category := row_category m;
     sm_tags := parse_tags (row_tags m);
     sm_createdAt := row_created_at m;
     sm_updatedAt := row_updated_at m |}.

Definition export_rows (project category : option string) (d : Database)
  : list MemoryRow :=
  Sql.order_by created_desc
    (filter (fun r => optional_eq project (row_project r)
                      && optional_eq category (row_category r))
            (memories d)).

Definition exportMemoryBank (project category : option string)
           (format : option Format) : M MemoryBankExport :=
  _ <- require_db ;;
  rawMemories <- db_all (export_rows project category) ;;
  let memories := map exportedOfRow rawMemories in
  exportedAt <- newDateISO ;;
  ret {| ex_project := project;
         ex_category := category;
         ex_format := default json format;
         ex_exportedAt := exportedAt;
         ex_memories := memories |}.

(** *** Todo operations *)

(** [x || null]: an empty string is stored as [NULL]. *)
Definition or_null (x : option string) : option string :=
  match x with
  | Some s => if Js.truthy s then Some s else None
  | None => None
  end.

(** [INSERT INTO todos]: the primary key is unique. *)
Definition insert_todo_stmt (t : TodoRow) (d : Database) : result (Database * nat) :=
  if existsb (fun t' => String.eqb (trow_id t') (trow_id t)) (todos d) then
    Throw (SqliteError "SQLITE_CONSTRAINT: UNIQUE constraint failed: todos.id")
  else
    Ok ({| memories := memories d; todos := todos d ++ [t];
           transaction := transaction d; is_open := is_open d |}, 1).

(** [todoData.status || 'pending'] and [todoData.priority || 'medium'] are
    the status and the priority themselves: no value of the two unions is
    falsy. *)
Definition addTodo (todoData : TodoData) : M StoredTodo :=
  _ <- require_db ;;
  id <- generateId ;;
  now <- newDateISO ;;
  _ <- db_run (insert_todo_stmt
                 {| trow_id := id;
                    trow_content := td_content todoData;
                    trow_status := td_status todoData;
                    trow_priority := td_priority todoData;
                    trow_project := or_null (td_project todoData);
                    trow_context := or_null (td_context todoData);
                    trow_tags := option_map (JSON_stringify E) (td_tags todoData);
                    trow_created_at := now;
                    trow_updated_at := now |}) ;;
  ret {| st_id := id;
         st_content := td_content todoData;
         st_status := td_status todoData;
         st_priority := td_priority todoData;
         st_project := td_project todoData;
         st_context := td_context todoData;
         st_tags := option_map (fun l => JArr (map JStr l)) (td_tags todoData);
         st_createdAt := now;
         st_updatedAt := now |}.

(** The object [listTodos] and [getTodoById] build from a raw row. *)
Definition todoOfRow (t : TodoRow) : StoredTodo :=
  {| st_id := trow_id t;
     st_content := trow_content t;
     st_status := trow_status t;
     st_priority := trow_priority t;
     st_project := or_null (trow_project t);
     st_context := or_null (trow_context t);
     st_tags := parse_tags (trow_tags t);
     st_createdAt := trow_created_at t;
     st_updatedAt := trow_updated_at t |}.

Definition todo_filter (options : ListTodosArgs) (t : TodoRow) : bool :=
  match lt_status options with
  | Some s => Status_eqb (trow_status t) s
  | None => true
  end
  && match lt_priority options with
     | Some p => Priority_eqb (trow_priority t) p
     | None => true
     end
  && optional_eq (lt_project options) (trow_project t)
  && optional_eq (lt_context options) (trow_context t).

(** [if (options.limit) sql += ' LIMIT ?'] *)
Definition optional_limit {A} (limit : option Z) (l : list A) : list A :=
  match limit with
  | Some n => if (n =? 0)%Z then l else Sql.limit n l
  | None => l
  end.

Definition list_todos_rows (options : ListTodosArgs) (d : Database) : list TodoRow :=
  optional_limit (lt_limit options)
    (Sql.order_by (fun a b => Sql.text_gt (trow_created_at a) (trow_created_at b))
       (filter (todo_filter options) (todos d))).

Definition listTodos (options : ListTodosArgs) : M (list StoredTodo) :=
  _ <- require_db ;;
  rawTodos <- db_all (list_todos_rows options) ;;
  ret (map todoOfRow rawTodos).

Definition getTodoById (id : string) : M (option StoredTodo) :=
  _ <- require_db ;;
  rawTodo <- db_all (fun d => find (fun t => String.eqb (trow_id t) id) (todos d)) ;;
  match rawTodo with
  | None => ret None
  | Some rawTodo => ret (Some (todoOfRow rawTodo))
  end.

(** The [SET] list [updateTodo] builds: one assignment per field of
    [updates] that is not [undefined], then [updated_at = ?]. *)
Definition apply_todo_updates (updates : TodoUpdates) (updatedAt : string)
           (t : TodoRow) : TodoRow :=
  {| trow_id := trow_id t;
     trow_content := default (trow_content t) (tu_content updates);
     trow_status := default (trow_status t) (tu_status updates);
     trow_priority := default (trow_priority t) (tu_priority updates);
     trow_project := match tu_project updates with
                     | Some p => or_null (Some p)
                     | None => trow_project t
                     end;
     trow_context := match tu_context updates with
                     | Some c => or_null (Some c)
                     | None => trow_context t
                     end;
     trow_tags := match tu_tags updates with
                  | Some tags => Some (JSON_stringify E tags)
                  | None => trow_tags t
                  end;
     trow_created_at := trow_created_at t;
     trow_updated_at := updatedAt |}.

(** [UPDATE todos SET ... WHERE id = ?] *)
Definition update_todo_stmt (id : string) (updates : TodoUpdates)
           (updatedAt : string) (d : Database) : result (Database * nat) :=
  Ok ({| memories := memories d;
         todos := map (fun t => if String.eqb (trow_id t) id
                                then apply_todo_updates updates updatedAt t
                                else t)
                      (todos d);
         transaction := transaction d; is_open := is_open d |},
      length (filter (fun t => String.eqb (trow_id t) id) (todos d))).

Definition updateTodo (id : string) (updates : TodoUpdates) : M (option StoredTodo) :=
  _ <- require_db ;;
  existing <- getTodoById id ;;
  match existing with
  | None => ret None
  | Some _ =>
      updatedAt <- newDateISO ;;
      _ <- db_run (update_todo_stmt id updates updatedAt) ;;
      getTodoById id
  end.

(** [DELETE FROM todos WHERE id = ?] *)
Definition delete_todo_stmt (id : string) (d : Database) : result (Database * nat) :=
  let kept := filter (fun t => negb (String.eqb (trow_id t) id)) (todos d) in
  Ok ({| memories := memories d; todos := kept;
         transaction := transaction d; is_open := is_open d |},
      length (todos d) - length kept).

Definition deleteTodo (id : string) : M bool :=
  _ <- require_db ;;
  changes <- db_run (delete_todo_stmt id) ;;
  ret (0 <? changes).

(** [updateTodo(undefined, updates)] and [deleteTodo(undefined)]: [id = NULL]
    selects no row. *)
Definition updateTodo_undefined : M (option StoredTodo) :=
  _ <- require_db ;;
  _ <- require_db ;;
  rawTodo <- db_all (fun _ => @None TodoRow) ;;
  ret (option_map todoOfRow rawTodo).

Definition deleteTodo_undefined : M bool :=
  _ <- require_db ;;
  changes <- db_run (fun d => Ok (d, 0)) ;;
  ret (0 <? changes).

(** [close]: [if (db) { await db.close() }].  Without a handle it does
    nothing and returns. *)
Definition close : M unit :=
  fun w => match db w with
           | Some d =>
               if is_open d then
                 (Ok tt, {| db := Some {| memories := memories d; todos := todos d;
                                          transaction := transaction d;
                                          is_open := false |};
                            tick := tick w |})
               else (Throw closed_error, w)
           | None => (Ok tt, w)
           end.

End MemoryStore.

(** ** utils.ts *)

Record ValidationResult := {
  isValid : bool;
  errors : list string
}.

(** [validateMemoryData] on a [Partial<MemoryData>] read at its type: the
    content, when present, is a string, the importance a number, the
    context a string. *)
Definition validateMemoryData (content : option string) (importance : option Z)
  : ValidationResult :=
  let errors1 :=
    match content with
    | Some c => if negb (Js.truthy c) || Js.all_space c
                then ["Content is required and must be a non-empty string"]
                else []
    | None => ["Content is required and must be a non-empty string"]
    end in
  let errors2 :=
    match importance with
    | Some i => if (i <? 1)%Z || (10 <? i)%Z
                then ["Importance must be a number between 1 and 10"]
                else []
    | None => []
    end in
  let errors := (errors1 ++ errors2)%list in
  {| isValid := match errors with [] => true | _ => false end;
     errors := errors |}.

(** [s.replace('/', '-')]: the first occurrence only. *)
Fixpoint replace_first_slash (s : string) : string :=
  match s with
  | EmptyString => EmptyString
  | String c s' =>
      if Ascii.eqb c "/"%char then String "-"%char s'
      else String c (replace_first_slash s')
  end.

(** [enhanceMemoryWithRepoInfo], on the [repoInfo] that
    [detectRepositoryInfo] found. *)
Definition enhanceMemoryWithRepoInfo (repoInfo : RepositoryInfo)
           (memoryData : MemoryData) : MemoryData :=
  (* Add repository tags *)
  let tags :=
    if isGitRepo repoInfo && (0 <? length (repo_tags repoInfo))
    then Some (default [] (md_tags memoryData) ++ repo_tags repoInfo)%list
    else md_tags memoryData in
  let has_repoName :=
    match repoName repoInfo with Some n => Js.truthy n | None => false end in
  (* Set project name from repo if not already set *)
  let project :=
    match or_null (md_project memoryData) with
    | None => if has_repoName then repoName repoInfo else md_project memoryData
    | Some _ => md_project memoryData
    end in
  (* Add repository context if not already specified *)
  let context :=
    match or_null (md_context memoryData), repoName repoInfo with
    | None, Some n =>
        if Js.truthy n then Some ("repo-" ++ replace_first_slash n)
        else md_context memoryData
    | Some c, Some n =>
        if String.eqb c "general" && Js.truthy n
        then Some ("repo-" ++ replace_first_slash n)
        else md_context memoryData
    | _, None => md_context memoryData
    end in
  {| md_content := md_content memoryData;
     md_originalContent := md_originalContent memoryData;
     md_context := context;
     md_importance := md_importance memoryData;
     md_timestamp := md_timestamp memoryData;
     md_source := md_source memoryData;
     md_project := project;
     md_category := md_category memoryData;
     md_tags := tags |}.

(** ** The protocol bridge: index.ts and http-server.ts *)

(** The [processing] section of [Config] and the storage section. *)
Record ProcessingConfig := {
  autoExtract : bool;
  processing_deduplication : bool;
  maxMemoriesPerQuery : Z;
  similarityThreshold : Q
}.

Record Config := {
  ollamaModel : string;
  ollamaUrl : string;
  memoryStorage : StorageConfig;
  processing : ProcessingConfig
}.

(** The result envelope [{ content: [{ type: 'text', text }] }]. *)
Record ContentItem := {
  type : string;
  text : string
}.

Record ToolResult := {
  content : list ContentItem
}.

Definition text_result (t : string) : ToolResult :=
  {| content := [ {| type := "text"; text := t |} ] |}.

(** The [arguments] of a call: an object, as a list of properties. *)
Definition JArgs : Type := list (string * JValue).

Fixpoint field (key : string) (args : JArgs) : option JValue :=
  match args with
  | [] => None
  | (k, v) :: rest => if String.eqb k key then Some v else field key rest
  end.

(** ['key' in args] *)
Definition has_key (key : string) (args : JArgs) : bool :=
  match field key args with Some _ => true | None => false end.

(** A property read at the type types.ts declares for it; a property that
    is absent reads as [undefined]. *)
Definition str_field (key : string) (args : JArgs) : option string :=
  match field key args with Some (JStr s) => Some s | _ => None end.

Definition num_field (key : string) (args : JArgs) : option Z :=
  match field key args with Some (JNum z) => Some z | _ => None end.

Fixpoint strings_of (items : list JValue) : option (list string) :=
  match items with
  | [] => Some []
  | JStr s :: rest => option_map (cons s) (strings_of rest)
  | _ :: _ => None
  end.

Definition str_list_field (key : string) (args : JArgs) : option (list string) :=
  match field key args with Some (JArr items) => strings_of items | _ => None end.

Definition status_field (key : string) (args : JArgs) : option Status :=
  match str_field key args with
  | Some "pending" => Some pending
  | Some "in_progress" => Some in_progress
  | Some "completed" => Some completed
  | _ => None
  end.

Definition priority_field (key : string) (args : JArgs) : option Priority :=
  match str_field key args with
  | Some "low" => Some low
  | Some "medium" => Some medium
  | Some "high" => Some high
  | _ => None
  end.

Definition nl : string := String (ascii_of_nat 10) EmptyString.
Definition dquote : string := String (ascii_of_nat 34) EmptyString.

(** [`${x}`] of a string that may be [undefined]. *)
Definition show (x : option string) : string := default "undefined" x.

Definition destructure_undefined {A} (property : string) : M A :=
  throw (TypeError ("Cannot destructure property '" ++ property
                    ++ "' of 'args' as it is undefined.")).

(** The object [createToolHandlers] returns: one handler per tool. *)
Module Tool.
Record Handlers := {
  handleAddMemory : option JArgs -> M ToolResult;
  handleSearchMemories : option JArgs -> M ToolResult;
  handleGetMemories : option JArgs -> M ToolResult;
  handleExtractMemories : option JArgs -> M ToolResult;
  handleDeleteMemory : option JArgs -> M ToolResult;
  handleListProjects : M ToolResult;
  handleListProjectFiles : option JArgs -> M ToolResult;
  handleMemoryBankUpdate : option JArgs -> M ToolResult;
  handleExportMemoryBank : option JArgs -> M ToolResult;
  handleAddTodo : option JArgs -> M ToolResult;
  handleListTodos : option JArgs -> M ToolResult;
  handleUpdateTodo : option JArgs -> M ToolResult;
  handleDeleteTodo : option JArgs -> M ToolResult
}.
End Tool.

(** [const { id, ...updates } = args] read as [Partial<TodoData>]. *)
Definition todo_updates_of (args : JArgs) : TodoUpdates :=
  {| tu_content := str_field "content" args;
     tu_status := status_field "status" args;
     tu_priority := priority_field "priority" args;
     tu_project := str_field "project" args;
     tu_context := str_field "context" args;
     tu_tags := str_list_field "tags" args |}.

Definition todo_updated_text (updatedTodo : StoredTodo) : string :=
  "Todo updated successfully:" ++ nl
  ++ "ID: " ++ st_id updatedTodo ++ nl
  ++ "Content: " ++ st_content updatedTodo ++ nl
  ++ "Status: " ++ Status_text (st_status updatedTodo) ++ nl
  ++ "Priority: " ++ Priority_text (st_priority updatedTodo).

(** *** index.ts: the direct transport *)

Module Index.
Section Index.

Variable E : Env.
Variable config : Config.

(** The handlers that write memories or answer for an absent identifier
    are modelled; [others] supplies the handlers that only format what the
    store returned. *)
Variable others : Tool.Handlers.

Definition handleAddMemory (args : option JArgs) : M ToolResult :=
  match args with
  | None => destructure_undefined "content"
  | Some args =>
      let content := str_field "content" args in
      let context := str_field "context" args in
      let importance := default 5%Z (num_field "importance" args) in
      let project := str_field "project" args in
      let category := str_field "category" args in
      let tags := str_list_field "tags" args in
      (* Use Ollama to enhance the memory if configured *)
      enhancedContent <-
        (if autoExtract (processing config)
         then n <- next_tick ;; ret (ollama_enhanceMemory E content context n)
         else ret content) ;;
      timestamp <- newDateISO E ;;
      memory <-
        match enhancedContent with
        | Some enhanced =>
            addMemory E (memoryStorage config)
              {| md_content := enhanced;
                 md_originalContent := content;
                 md_context := Some (Js.or_else context "general");
                 md_importance := Some importance;
                 md_timestamp := timestamp;
                 md_source := Some manual;
                 md_project := project;
                 md_category := category;
                 md_tags := tags |}
        | None => addMemory_undefined_content E (memoryStorage config)
        end ;;
      ret (text_result ("Memory stored successfully with ID: " ++ sm_id memory
                        ++ nl ++ "Content: " ++ show enhancedContent))
  end.

Definition handleDeleteMemory (args : option JArgs) : M ToolResult :=
  match args with
  | None => destructure_undefined "id"
  | Some args =>
      let id := str_field "id" args in
      deleted <- match id with
                 | Some id => deleteMemory id
                 | None => deleteMemory_undefined
                 end ;;
      if negb deleted then
        ret (text_result ("Memory with ID " ++ dquote ++ show id ++ dquote
                          ++ " not found"))
      else
        ret (text_result ("Memory with ID " ++ dquote ++ show id ++ dquote
                          ++ " deleted successfully"))
  end.

Definition handleUpdateTodo (args : option JArgs) : M ToolResult :=
  match args with
  | None => destructure_undefined "id"
  | Some args =>
      let id := str_field "id" args in
      let updates := todo_updates_of args in
      updatedTodo <- match id with
                     | Some id => updateTodo E id updates
                     | None => updateTodo_undefined E
                     end ;;
      match updatedTodo with
      | None => ret (text_result ("Todo with ID " ++ show id ++ " not found."))
      | Some updatedTodo => ret (text_result (todo_updated_text updatedTodo))
      end
  end.

Definition handleDeleteTodo (args : option JArgs) : M ToolResult :=
  match args with
  | None => destructure_undefined "id"
  | Some args =>
      let id := str_field "id" args in
      deleted <- match id with
                 | Some id => deleteTodo id
                 | None => deleteTodo_undefined
                 end ;;
      if negb deleted then
        ret (text_result ("Todo with ID " ++ show id ++ " not found."))
      else
        ret (text_result ("Todo with ID " ++ show id ++ " deleted successfully."))
  end.

Definition createToolHandlers : Tool.Handlers :=
  {| Tool.handleAddMemory := handleAddMemory;
     Tool.handleSearchMemories := Tool.handleSearchMemories others;
     Tool.handleGetMemories := Tool.handleGetMemories others;
     Tool.handleExtractMemories := Tool.handleExtractMemories others;
     Tool.handleDeleteMemory := handleDeleteMemory;
     Tool.handleListProjects := Tool.handleListProjects others;
     Tool.handleListProjectFiles := Tool.handleListProjectFiles others;
     Tool.handleMemoryBankUpdate := Tool.handleMemoryBankUpdate others;
     Tool.handleExportMemoryBank := Tool.handleExportMemoryBank others;
     Tool.handleAddTodo := Tool.handleAddTodo others;
     Tool.handleListTodos := Tool.handleListTodos others;
     Tool.handleUpdateTodo := handleUpdateTodo;
     Tool.handleDeleteTodo := handleDeleteTodo |}.

(** [!args || typeof args !== 'object' || !('key' in args)], for each
    required key. *)
Definition missing (args : option JArgs) (keys : list string) : bool :=
  match args with
  | None => true
  | Some args => negb (forallb (fun key => has_key key args) keys)
  end.

(** The handler of [CallToolRequestSchema]: the [switch] inside [try], and
    the [catch] that rethrows whatever was thrown as an internal error. *)
Definition callTool (handlers : Tool.Handlers) (name : string)
           (args : option JArgs) : M ToolResult :=
  try_catch
    (match name with
     | "add_memory" =>
         if missing args ["content"]
         then throw (McpError InvalidParams "Missing required parameter: content")
         else Tool.handleAddMemory handlers args
     | "search_memories" =>
         if missing args ["query"]
         then throw (McpError InvalidParams "Missing required parameter: query")
         else Tool.handleSearchMemories handlers args
     | "get_memories" => Tool.handleGetMemories handlers (Some (default [] args))
     | "extract_memories" =>
         if missing args ["text"]
         then throw (McpError InvalidParams "Missing required parameter: text")
         else Tool.handleExtractMemories handlers args
     | "delete_memory" =>
         if missing args ["id"]
         then throw (McpError InvalidParams "Missing required parameter: id")
         else Tool.handleDeleteMemory handlers args
     | "list_projects" => Tool.handleListProjects handlers
     | "list_project_files" =>
         if missing args ["project"]
         then throw (McpError InvalidParams "Missing required parameter: project")
         else Tool.handleListProjectFiles handlers args
     | "memory_bank_update" =>
         if missing args ["project"; "memories"]
         then throw (McpError InvalidParams
                       "Missing required parameters: project, memories")
         else Tool.handleMemoryBankUpdate handlers args
     | "export_memory_bank" =>
         if missing args ["format"]
         then throw (McpError InvalidParams "Missing required parameter: format")
         else Tool.handleExportMemoryBank handlers args
     | "add_todo" =>
         if missing args ["content"]
         then throw (McpError InvalidParams "Missing required parameter: content")
         else Tool.handleAddTodo handlers args
     | "list_todos" => Tool.handleListTodos handlers (Some (default [] args))
     | "update_todo" =>
         if missing args ["id"]
         then throw (McpError InvalidParams "Missing required parameter: id")
         else Tool.handleUpdateTodo handlers args
     | "delete_todo" =>
         if missing args ["id"]
         then throw (McpError InvalidParams "Missing required parameter: id")
         else Tool.handleDeleteTodo handlers args
     | _ => throw (McpError MethodNotFound ("Unknown tool: " ++ name))
     end)
    (fun error =>
       throw (McpError InternalError
                ("Error executing tool " ++ name ++ ": " ++ message error))).

End Index.

(** The catalogue the handler of [ListToolsRequestSchema] returns. *)
Definition tools : list JValue :=
  [JObj
     [("name", JStr "add_memory");
      ("description", JStr "Store a new memory or fact for future reference");
      ("inputSchema", JObj
       [("type", JStr "object");
        ("properties", JObj
         [("content", JObj
           [("type", JStr "string");
            ("description", JStr "The content or fact to remember")]);
          ("context", JObj
           [("type", JStr "string");
            ("description", JStr "Optional context about this memory (project, topic, etc.)")]);
          ("importance", JObj
           [("type", JStr "number");
            ("description", JStr "Importance level from 1-10 (optional, default: 5)");
            ("minimum", JNum 1);
            ("maximum", JNum 10)]);
          ("project", JObj
           [("type", JStr "string");
            ("description", JStr "Optional project name for organization")]);
          ("category", JObj
           [("type", JStr "string");
            ("description", JStr "Optional category for organizing memories within a project")]);
          ("tags", JObj
           [("type", JStr "array");
            ("description", JStr "Optional tags for categorization");
            ("items", JObj [("type", JStr "string")])])]);
        ("required", JArr [JStr "content"])])];
   JObj
     [("name", JStr "search_memories");
      ("description", JStr "Search for relevant memories based on query");
      ("inputSchema", JObj
       [("type", JStr "object");
        ("properties", JObj
         [("query", JObj
           [("type", JStr "string");
            ("description", JStr "What to search for in memories")]);
          ("limit", JObj
           [("type", JStr "number");
            ("description", JStr "Maximum number of memories to return (default: 5)");
            ("minimum", JNum 1);
            ("maximum", JNum 20)]);
          ("context", JObj
           [("type", JStr "string");
            ("description", JStr "Optional context to filter memories (project, topic, etc.)")])]);
        ("required", JArr [JStr "query"])])];
   JObj
     [("name", JStr "get_memories");
      ("description", JStr "Get recent memories or all memories for a context");
      ("inputSchema", JObj
       [("type", JStr "object");
        ("properties", JObj
         [("context", JObj
           [("type", JStr "string");
            ("description", JStr "Optional context to filter memories")]);
          ("limit", JObj
           [("type", JStr "number");
            ("description", JStr "Maximum number of memories to return (default: 10)");
            ("minimum", JNum 1);
            ("maximum", JNum 50)]);
          ("since", JObj
           [("type", JStr "string");
            ("description", JStr "ISO date string to get memories since this date")])])])];
   JObj
     [("name", JStr "extract_memories");
      ("description", JStr "Extract and store important facts from a conversation or text");
      ("inputSchema", JObj
       [("type", JStr "object");
        ("properties", JObj
         [("text", JObj
           [("type", JStr "string");
            ("description", JStr "The text to extract memories from")]);
          ("context", JObj
           [("type", JStr "string");
            ("description", JStr "Context about this text (project, meeting, etc.)")])]);
        ("required", JArr [JStr "text"])])];
   JObj
     [("name", JStr "delete_memory");
      ("description", JStr "Delete a specific memory by ID");
      ("inputSchema", JObj
       [("type", JStr "object");
        ("properties", JObj
         [("id", JObj
           [("type", JStr "string");
            ("description", JStr "The ID of the memory to delete")])]);
        ("required", JArr [JStr "id"])])];
   JObj
     [("name", JStr "list_projects");
      ("description", JStr "Show all projects with memories");
      ("inputSchema", JObj [("type", JStr "object"); ("properties", JObj [])])];
   JObj
     [("name", JStr "list_project_files");
      ("description", JStr "Show memory categories for a project");
      ("inputSchema", JObj
       [("type", JStr "object");
        ("properties", JObj
         [("project", JObj
           [("type", JStr "string");
            ("description", JStr "The project name to list categories for")])]);
        ("required", JArr [JStr "project"])])];
   JObj
     [("name", JStr "memory_bank_update");
      ("description", JStr "Structured updates to project memories");
      ("inputSchema", JObj
       [("type", JStr "object");
        ("properties", JObj
         [("project", JObj
           [("type", JStr "string");
            ("description", JStr "The project name")]);
          ("category", JObj
           [("type", JStr "string");
            ("description", JStr "Optional category for organizing memories")]);
          ("memories", JObj
           [("type", JStr "array");
            ("description", JStr "Array of memories to add");
            ("items", JObj
             [("type", JStr "object");
              ("properties", JObj
               [("content", JObj
                 [("type", JStr "string");
                  ("description", JStr "The memory content")]);
                ("importance", JObj
                 [("type", JStr "number");
                  ("description", JStr "Importance level from 1-10 (default: 5)");
                  ("minimum", JNum 1);
                  ("maximum", JNum 10)]);
                ("tags", JObj
                 [("type", JStr "array");
                  ("description", JStr "Optional tags for categorization");
                  ("items", JObj [("type", JStr "string")])])]);
              ("required", JArr [JStr "content"])])])]);
        ("required", JArr [JStr "project"; JStr "memories"])])];
   JObj
     [("name", JStr "export_memory_bank");
      ("description", JStr "Export memories in different formats");
      ("inputSchema", JObj
       [("type", JStr "object");
        ("properties", JObj
         [("project", JObj
           [("type", JStr "string");
            ("description", JStr "Optional project name to filter exports")]);
          ("category", JObj
           [("type", JStr "string");
            ("description", JStr "Optional category to filter exports")]);
          ("format", JObj
           [("type", JStr "string");
            ("description", JStr "Export format");
            ("enum", JArr [JStr "json"; JStr "markdown"; JStr "csv"])])]);
        ("required", JArr [JStr "format"])])];
   JObj
     [("name", JStr "add_todo");
      ("description", JStr "Add a new todo item");
      ("inputSchema", JObj
       [("type", JStr "object");
        ("properties", JObj
         [("content", JObj
           [("type", JStr "string");
            ("description", JStr "The todo content")]);
          ("status", JObj
           [("type", JStr "string");
            ("description", JStr "Todo status");
            ("enum", JArr [JStr "pending"; JStr "in_progress"; JStr "completed"])]);
          ("priority", JObj
           [("type", JStr "string");
            ("description", JStr "Todo priority");
            ("enum", JArr [JStr "low"; JStr "medium"; JStr "high"])]);
          ("project", JObj
           [("type", JStr "string");
            ("description", JStr "Optional project name")]);
          ("context", JObj
           [("type", JStr "string");
            ("description", JStr "Optional context")]);
          ("tags", JObj
           [("type", JStr "array");
            ("description", JStr "Optional tags");
            ("items", JObj [("type", JStr "string")])])]);
        ("required", JArr [JStr "content"])])];
   JObj
     [("name", JStr "list_todos");
      ("description", JStr "List todos with optional filters");
      ("inputSchema", JObj
       [("type", JStr "object");
        ("properties", JObj
         [("status", JObj
           [("type", JStr "string");
            ("description", JStr "Filter by status");
            ("enum", JArr [JStr "pending"; JStr "in_progress"; JStr "completed"])]);
          ("priority", JObj
           [("type", JStr "string");
            ("description", JStr "Filter by priority");
            ("enum", JArr [JStr "low"; JStr "medium"; JStr "high"])]);
          ("project", JObj
           [("type", JStr "string");
            ("description", JStr "Filter by project")]);
          ("context", JObj
           [("type", JStr "string");
            ("description", JStr "Filter by context")]);
          ("limit", JObj
           [("type", JStr "number");
            ("description", JStr "Maximum number of todos to return");
            ("minimum", JNum 1);
            ("maximum", JNum 50)])])])];
   JObj
     [("name", JStr "update_todo");
      ("description", JStr "Update an existing todo");
      ("inputSchema", JObj
       [("type", JStr "object");
        ("properties", JObj
         [("id", JObj [("type", JStr "string"); ("description", JStr "Todo ID")]);
          ("content", JObj
           [("type", JStr "string");
            ("description", JStr "Updated content")]);
          ("status", JObj
           [("type", JStr "string");
            ("description", JStr "Updated status");
            ("enum", JArr [JStr "pending"; JStr "in_progress"; JStr "completed"])]);
          ("priority", JObj
           [("type", JStr "string");
            ("description", JStr "Updated priority");
            ("enum", JArr [JStr "low"; JStr "medium"; JStr "high"])]);
          ("project", JObj
           [("type", JStr "string");
            ("description", JStr "Updated project")]);
          ("context", JObj
           [("type", JStr "string");
            ("description", JStr "Updated context")]);
          ("tags", JObj
           [("type", JStr "array");
            ("description", JStr "Updated tags");
            ("items", JObj [("type", JStr "string")])])]);
        ("required", JArr [JStr "id"])])];
   JObj
     [("name", JStr "delete_todo");
      ("description", JStr "Delete a todo");
      ("inputSchema", JObj
       [("type", JStr "object");
        ("properties", JObj
         [("id", JObj
           [("type", JStr "string");
            ("description", JStr "Todo ID to delete")])]);
        ("required", JArr [JStr "id"])])]].

End Index.

(** *** http-server.ts: the HTTP transport *)

(** [MCPRequest] and [MCPResponse]. *)
Record Params := {
  name : option string;
  arguments : option JArgs
}.

Record MCPRequest := {
  method : string;
  params : option Params
}.

Inductive MCPResponse :=
| Tools (tools : list JValue)
| Content (result : ToolResult)
| ErrorBody (code : Z) (msg : string).

(** [res.status(code).json(body)] *)
Record HttpResponse := {
  status : Z;
  body : MCPResponse
}.

Module HttpServer.
Section HttpServer.

Variable E : Env.
Variable config : Config.
Variable others : Tool.Handlers.

Definition handleAddMemory (args : option JArgs) : M ToolResult :=
  match args with
  | None => destructure_undefined "content"
  | Some args =>
      let content := str_field "content" args in
      let context := str_field "context" args in
      let importance := default 5%Z (num_field "importance" args) in
      let project := str_field "project" args in
      let category := str_field "category" args in
      let tags := str_list_field "tags" args in
      enhancedContent <-
        (if autoExtract (processing config)
         then n <- next_tick ;; ret (ollama_enhanceMemory E content context n)
         else ret content) ;;
      timestamp <- newDateISO E ;;
      memory <-
        match enhancedContent with
        | Some enhanced =>
            let memoryData :=
              {| md_content := enhanced;
                 md_originalContent := content;
                 md_context := Some (Js.or_else context "general");
                 md_importance := Some importance;
                 md_timestamp := timestamp;
                 md_source := Some manual;
                 md_project := project;
                 md_category := category;
                 md_tags := tags |} in
            (* Enhance with repository information *)
            let memoryData :=
              enhanceMemoryWithRepoInfo (detectRepositoryInfo E) memoryData in
            addMemory E (memoryStorage config) memoryData
        | None => addMemory_undefined_content E (memoryStorage config)
        end ;;
      ret (text_result ("Memory stored successfully with ID: " ++ sm_id memory
                        ++ nl ++ "Content: " ++ show enhancedContent))
  end.

Definition handleDeleteMemory (args : option JArgs) : M ToolResult :=
  match args with
  | None => destructure_undefined "id"
  | Some args =>
      let id := str_field "id" args in
      deleted <- match id with
                 | Some id => deleteMemory id
                 | None => deleteMemory_undefined
                 end ;;
      if negb deleted then
        ret (text_result ("Memory with ID " ++ show id ++ " not found."))
      else
        ret (text_result ("Memory with ID " ++ show id ++ " deleted successfully."))
  end.

Definition handleUpdateTodo (args : option JArgs) : M ToolResult :=
  match args with
  | None => destructure_undefined "id"
  | Some args =>
      let id := str_field "id" args in
      let updates := todo_updates_of args in
      updatedTodo <- match id with
                     | Some id => updateTodo E id updates
                     | None => updateTodo_undefined E
                     end ;;
      match updatedTodo with
      | None => ret (text_result ("Todo with ID " ++ show id ++ " not found."))
      | Some updatedTodo => ret (text_result (todo_updated_text updatedTodo))
      end
  end.

Definition handleDeleteTodo (args : option JArgs) : M ToolResult :=
  match args with
  | None => destructure_undefined "id"
  | Some args =>
      let id := str_field "id" args in
      deleted <- match id with
                 | Some id => deleteTodo id
                 | None => deleteTodo_undefined
                 end ;;
      if negb deleted then
        ret (text_result ("Todo with ID " ++ show id ++ " not found."))
      else
        ret (text_result ("Todo with ID " ++ show id ++ " deleted successfully."))
  end.

Definition createToolHandlers : Tool.Handlers :=
  {| Tool.handleAddMemory := handleAddMemory;
     Tool.handleSearchMemories := Tool.handleSearchMemories others;
     Tool.handleGetMemories := Tool.handleGetMemories others;
     Tool.handleExtractMemories := Tool.handleExtractMemories others;
     Tool.handleDeleteMemory := handleDeleteMemory;
     Tool.handleListProjects := Tool.handleListProjects others;
     Tool.handleListProjectFiles := Tool.handleListProjectFiles others;
     Tool.handleMemoryBankUpdate := Tool.handleMemoryBankUpdate others;
     Tool.handleExportMemoryBank := Tool.handleExportMemoryBank others;
     Tool.handleAddTodo := Tool.handleAddTodo others;
     Tool.handleListTodos := Tool.handleListTodos others;
     Tool.handleUpdateTodo := handleUpdateTodo;
     Tool.handleDeleteTodo := handleDeleteTodo |}.

End HttpServer.

(** The array [tools], returned for [tools/list]. *)
Definition tools : list JValue :=
  [JObj
     [("name", JStr "add_memory");
      ("description", JStr "Store a new memory or fact for future reference");
      ("inputSchema", JObj
       [("type", JStr "object");
        ("properties", JObj
         [("content", JObj
           [("type", JStr "string");
            ("description", JStr "The content to remember")]);
          ("context", JObj
           [("type", JStr "string");
            ("description", JStr "Optional context about this memory")]);
          ("importance", JObj
           [("type", JStr "number");
            ("description", JStr "Importance level from 1-10");
            ("minimum", JNum 1);
            ("maximum", JNum 10)]);
          ("project", JObj
           [("type", JStr "string");
            ("description", JStr "Optional project name for organization")]);
          ("category", JObj
           [("type", JStr "string");
            ("description", JStr "Optional category for organizing memories within a project")]);
          ("tags", JObj
           [("type", JStr "array");
            ("description", JStr "Optional tags for categorization");
            ("items", JObj [("type", JStr "string")])])]);
        ("required", JArr [JStr "content"])])];
   JObj
     [("name", JStr "search_memories");
      ("description", JStr "Search for relevant memories based on query");
      ("inputSchema", JObj
       [("type", JStr "object");
        ("properties", JObj
         [("query", JObj
           [("type", JStr "string");
            ("description", JStr "What to search for in memories")]);
          ("limit", JObj
           [("type", JStr "number");
            ("description", JStr "Maximum number of memories to return (default: 5)");
            ("minimum", JNum 1);
            ("maximum", JNum 20)]);
          ("context", JObj
           [("type", JStr "string");
            ("description", JStr "Optional context to filter memories")])]);
        ("required", JArr [JStr "query"])])];
   JObj
     [("name", JStr "get_memories");
      ("description", JStr "Get recent memories or all memories for a context");
      ("inputSchema", JObj
       [("type", JStr "object");
        ("properties", JObj
         [("context", JObj
           [("type", JStr "string");
            ("description", JStr "Optional context to filter memories")]);
          ("limit", JObj
           [("type", JStr "number");
            ("description", JStr "Maximum number of memories to return");
            ("minimum", JNum 1);
            ("maximum", JNum 50)]);
          ("since", JObj
           [("type", JStr "string");
            ("description", JStr "ISO date string to get memories since this date")])])])];
   JObj
     [("name", JStr "extract_memories");
      ("description", JStr "Extract and store important facts from conversation/text");
      ("inputSchema", JObj
       [("type", JStr "object");
        ("properties", JObj
         [("text", JObj
           [("type", JStr "string");
            ("description", JStr "The text to extract memories from")]);
          ("context", JObj
           [("type", JStr "string");
            ("description", JStr "Context about this text")])]);
        ("required", JArr [JStr "text"])])];
   JObj
     [("name", JStr "delete_memory");
      ("description", JStr "Delete a specific memory by ID");
      ("inputSchema", JObj
       [("type", JStr "object");
        ("properties", JObj
         [("id", JObj
           [("type", JStr "string");
            ("description", JStr "The ID of the memory to delete")])]);
        ("required", JArr [JStr "id"])])];
   JObj
     [("name", JStr "list_projects");
      ("description", JStr "Show all projects with memories");
      ("inputSchema", JObj [("type", JStr "object"); ("properties", JObj [])])];
   JObj
     [("name", JStr "list_project_files");
      ("description", JStr "Show memory categories for a project");
      ("inputSchema", JObj
       [("type", JStr "object");
        ("properties", JObj
         [("project", JObj
           [("type", JStr "string");
            ("description", JStr "The project name to list categories for")])]);
        ("required", JArr [JStr "project"])])];
   JObj
     [("name", JStr "memory_bank_update");
      ("description", JStr "Structured updates to project memories");
      ("inputSchema", JObj
       [("type", JStr "object");
        ("properties", JObj
         [("project", JObj
           [("type", JStr "string");
            ("description", JStr "The project name")]);
          ("category", JObj
           [("type", JStr "string");
            ("description", JStr "Optional category for organizing memories")]);
          ("memories", JObj
           [("type", JStr "array");
            ("description", JStr "Array of memories to add");
            ("items", JObj
             [("type", JStr "object");
              ("properties", JObj
               [("content", JObj
                 [("type", JStr "string");
                  ("description", JStr "The memory content")]);
                ("importance", JObj
                 [("type", JStr "number");
                  ("description", JStr "Importance level from 1-10");
                  ("minimum", JNum 1);
                  ("maximum", JNum 10)]);
                ("tags", JObj
                 [("type", JStr "array");
                  ("description", JStr "Optional tags for categorization");
                  ("items", JObj [("type", JStr "string")])])]);
              ("required", JArr [JStr "content"])])])]);
        ("required", JArr [JStr "project"; JStr "memories"])])];
   JObj
     [("name", JStr "export_memory_bank");
      ("description", JStr "Export memories in different formats");
      ("inputSchema", JObj
       [("type", JStr "object");
        ("properties", JObj
         [("project", JObj
           [("type", JStr "string");
            ("description", JStr "Optional project name to filter exports")]);
          ("category", JObj
           [("type", JStr "string");
            ("description", JStr "Optional category to filter exports")]);
          ("format", JObj
           [("type", JStr "string");
            ("description", JStr "Export format");
            ("enum", JArr [JStr "json"; JStr "markdown"; JStr "csv"])])]);
        ("required", JArr [JStr "format"])])];
   JObj
     [("name", JStr "add_todo");
      ("description", JStr "Add a new todo item");
      ("inputSchema", JObj
       [("type", JStr "object");
        ("properties", JObj
         [("content", JObj
           [("type", JStr "string");
            ("description", JStr "The todo content")]);
          ("status", JObj
           [("type", JStr "string");
            ("description", JStr "Todo status");
            ("enum", JArr [JStr "pending"; JStr "in_progress"; JStr "completed"])]);
          ("priority", JObj
           [("type", JStr "string");
            ("description", JStr "Todo priority");
            ("enum", JArr [JStr "low"; JStr "medium"; JStr "high"])]);
          ("project", JObj
           [("type", JStr "string");
            ("description", JStr "Optional project name")]);
          ("context", JObj
           [("type", JStr "string");
            ("description", JStr "Optional context")]);
          ("tags", JObj
           [("type", JStr "array");
            ("description", JStr "Optional tags");
            ("items", JObj [("type", JStr "string")])])]);
        ("required", JArr [JStr "content"])])];
   JObj
     [("name", JStr "list_todos");
      ("description", JStr "List todos with optional filters");
      ("inputSchema", JObj
       [("type", JStr "object");
        ("properties", JObj
         [("status", JObj
           [("type", JStr "string");
            ("description", JStr "Filter by status");
            ("enum", JArr [JStr "pending"; JStr "in_progress"; JStr "completed"])]);
          ("priority", JObj
           [("type", JStr "string");
            ("description", JStr "Filter by priority");
            ("enum", JArr [JStr "low"; JStr "medium"; JStr "high"])]);
          ("project", JObj
           [("type", JStr "string");
            ("description", JStr "Filter by project")]);
          ("context", JObj
           [("type", JStr "string");
            ("description", JStr "Filter by context")]);
          ("limit", JObj
           [("type", JStr "number");
            ("description", JStr "Maximum number of todos to return");
            ("minimum", JNum 1);
            ("maximum", JNum 50)])])])];
   JObj
     [("name", JStr "update_todo");
      ("description", JStr "Update an existing todo");
      ("inputSchema", JObj
       [("type", JStr "object");
        ("properties", JObj
         [("id", JObj [("type", JStr "string"); ("description", JStr "Todo ID")]);
          ("content", JObj
           [("type", JStr "string");
            ("description", JStr "Updated content")]);
          ("status", JObj
           [("type", JStr "string");
            ("description", JStr "Updated status");
            ("enum", JArr [JStr "pending"; JStr "in_progress"; JStr "completed"])]);
          ("priority", JObj
           [("type", JStr "string");
            ("description", JStr "Updated priority");
            ("enum", JArr [JStr "low"; JStr "medium"; JStr "high"])]);
          ("project", JObj
           [("type", JStr "string");
            ("description", JStr "Updated project")]);
          ("context", JObj
           [("type", JStr "string");
            ("description", JStr "Updated context")]);
          ("tags", JObj
           [("type", JStr "array");
            ("description", JStr "Updated tags");
            ("items", JObj [("type", JStr "string")])])]);
        ("required", JArr [JStr "id"])])];
   JObj
     [("name", JStr "delete_todo");
      ("description", JStr "Delete a todo");
      ("inputSchema", JObj
       [("type", JStr "object");
        ("properties", JObj
         [("id", JObj
           [("type", JStr "string");
            ("description", JStr "Todo ID to delete")])]);
        ("required", JArr [JStr "id"])])]].

(** The [switch] of the bridge endpoint: the handler a tool name routes
    to, [None] for the [default] branch. *)
Definition route (handlers : Tool.Handlers) (name : string)
           (args : option JArgs) : option (M ToolResult) :=
  match name with
  | "add_memory" => Some (Tool.handleAddMemory handlers args)
  | "search_memories" => Some (Tool.handleSearchMemories handlers args)
  | "get_memories" => Some (Tool.handleGetMemories handlers args)
  | "extract_memories" => Some (Tool.handleExtractMemories handlers args)
  | "delete_memory" => Some (Tool.handleDeleteMemory handlers args)
  | "list_projects" => Some (Tool.handleListProjects handlers)
  | "list_project_files" => Some (Tool.handleListProjectFiles handlers args)
  | "memory_bank_update" => Some (Tool.handleMemoryBankUpdate handlers args)
  | "export_memory_bank" => Some (Tool.handleExportMemoryBank handlers args)
  | "add_todo" => Some (Tool.handleAddTodo handlers args)
  | "list_todos" => Some (Tool.handleListTodos handlers args)
  | "update_todo" => Some (Tool.handleUpdateTodo handlers args)
  | "delete_todo" => Some (Tool.handleDeleteTodo handlers args)
  | _ => None
  end.

(** [app.post('/mcp', ...)]: every exception ends in the [catch] that
    answers 500. *)
Definition post_mcp (handlers : Tool.Handlers) (mcpRequest : MCPRequest)
  : World -> HttpResponse * World :=
  fun w =>
    if String.eqb (method mcpRequest) "tools/list" then
      ({| status := 200; body := Tools tools |}, w)
    else if String.eqb (method mcpRequest) "tools/call" then
      let name := match params mcpRequest with Some p => name p | None => None end in
      let args := match params mcpRequest with Some p => arguments p | None => None end in
      match or_null name with
      | None => ({| status := 400; body := ErrorBody 400 "Missing tool name" |}, w)
      | Some name =>
          match route handlers name args with
          | None =>
              ({| status := 404; body := ErrorBody 404 ("Unknown tool: " ++ name) |}, w)
          | Some handler =>
              match handler w with
              | (Ok result, w') => ({| status := 200; body := Content result |}, w')
              | (Throw error, w') =>
                  ({| status := 500;
                      body := ErrorBody 500 ("Internal server error: " ++ message error) |},
                   w')
              end
          end
      end
    else ({| status := 400; body := ErrorBody 400 "Invalid MCP method" |}, w).

End HttpServer.

(** ** Notions the properties are stated with *)

(** The query-coverage score as the specification words it: the number of
    query words that are a substring of some content word, or the other way
    round, divided by the number of query words. *)
Definition words (text : string) : list string :=
  Js.split_ws (Js.toLowerCase text).

Definition covered (content : list string) (queryWord : string) : bool :=
  existsb (fun contentWord =>
             Js.includes contentWord queryWord || Js.includes queryWord contentWord)
          content.

Definition coverage_score (query content : string) : Q :=
  ratio (length (filter (covered (words content)) (words query)))
        (length (words query)).




(** The request [{ method: 'tools/call', params: { name, arguments } }]. *)
Definition tools_call (tool : string) (args : option JArgs) : MCPRequest :=
  {| method := "tools/call";
     params := Some {| name := Some tool; arguments := args |} |}.

(** The [name] of a catalogue entry, and an entry without its
    [description] texts. *)
Definition tool_name (tool : JValue) : option string :=
  match tool with
  | JObj fields => str_field "name" fields
  | _ => None
  end.


(** Results in descending order of score. *)
Definition score_desc (a b : ScoredMemory) : Prop :=
  (similarity b <= similarity a)%Q.

(** What [searchMemories] guarantees of each result: it is a stored row,
    of the context asked for, whose content contains ([LIKE]) a word of the
    lower-cased query, scored against the query. *)
Definition search_hit (query : string) (context : option string)
           (d : Database) (m : ScoredMemory) : Prop :=
  exists r,
    In r (memories d)
    /\ memory m = storedOfRow r
    /\ similarity m = calculateTextSimilarity query (row_content r)
    /\ context_filter context r = true
    /\ exists word, In word (words query)
                    /\ Sql.like (Sql.contains_pattern word) (row_content r) = true.

(** The store is initialised and its handle open. *)
Definition ready (w : World) : Prop :=
  exists d, db w = Some d /\ is_open d = true.

Definition deduplication_enabled (config : StorageConfig) : Prop :=
  deduplication config <> Some false.


(** The row [updateMemoryBank] writes for an element of its batch. *)
Definition bank_row (project : string) (category : option string)
           (m : BankMemory) (r : MemoryRow) : Prop :=
  bm_content m = Some (row_content r)
  /\ row_project r = Some project
  /\ row_category r = category
  /\ row_context r = Js.or_else category "general"
  /\ row_importance r = importance_or_5 (bm_importance m)
  /\ row_source r = manual.

(** *** An environment to evaluate the model on examples

    Identifiers and clock readings are numbered by the tick; the JSON
    functions cover the arrays of plain strings that the store writes for
    tag lists; the enhancement call fails over to the content; no
    repository is detected. *)
Module Demo.

Fixpoint decimal_go (fuel n : nat) (acc : string) : string :=
  match fuel with
  | O => acc
  | S fuel' =>
      let acc' := String (ascii_of_nat (48 + n mod 10)) acc in
      if n / 10 =? 0 then acc' else decimal_go fuel' (n / 10) acc'
  end.

Definition decimal (n : nat) : string := decimal_go (S n) n EmptyString.

Definition stringify (l : list string) : string :=
  "[" ++ String.concat "," (map (fun s => dquote ++ s ++ dquote) l) ++ "]".

(** The characters of a plain string up to its closing quote, and the rest. *)
Fixpoint plain_string (s : string) (acc : string) : option (string * string) :=
  match s with
  | EmptyString => None
  | String c s' =>
      if Ascii.eqb c (ascii_of_nat 34) then Some (acc, s')
      else if Ascii.eqb c (ascii_of_nat 92) then None
      else plain_string s' (acc ++ String c EmptyString)
  end.

Fixpoint elements (fuel : nat) (s : string) : option (list JValue) :=
  match fuel with
  | O => None
  | S fuel' =>
      match s with
      | String q s1 =>
          if Ascii.eqb q (ascii_of_nat 34) then
            match plain_string s1 EmptyString with
            | Some (str, String "," s2) =>
                option_map (cons (JStr str)) (elements fuel' s2)
            | Some (str, "]") => Some [JStr str]
            | _ => None
            end
          else None
      | EmptyString => None
      end
  end.

Definition parse (s : string) : option JValue :=
  match s with
  | "[]" => Some (JArr [])
  | String "[" s' => option_map JArr (elements (String.length s) s')
  | _ => None
  end.

Definition no_repository : RepositoryInfo :=
  {| repoName := None; branch := None; remoteName := None; remoteUrl := None;
     isGitRepo := false; repo_tags := [] |}.

Definition env : Env :=
  {| idOracle := fun n => "id" ++ decimal n;
     isoClock := fun n => "2026-01-01T00:00:00.000Z+" ++ decimal n;
     sqlClock := fun n => "2026-01-01 00:00:00+" ++ decimal n;
     JSON_parse := parse;
     JSON_stringify := stringify;
     sqlite_datetime := fun s => Some s;
     ollama_enhanceMemory := fun content _ _ => content;
     detectRepositoryInfo := no_repository |}.

Definition storage : StorageConfig :=
  {| path := "~/universal-memories.db"; deduplication := None |}.

Definition config : Config :=
  {| ollamaModel := "llama3.1:8b";
     ollamaUrl := "http://localhost:11434";
     memoryStorage := storage;
     processing := {| autoExtract := false; processing_deduplication := true;
                      maxMemoriesPerQuery := 10; similarityThreshold := 8 # 10 |} |}.

(** Handlers that answer with a fixed text, for the tools the model leaves
    open. *)
Definition others : Tool.Handlers :=
  let h := fun _ : option JArgs => ret (text_result "") in
  {| Tool.handleAddMemory := h; Tool.handleSearchMemories := h;
     Tool.handleGetMemories := h; Tool.handleExtractMemories := h;
     Tool.handleDeleteMemory := h; Tool.handleListProjects := ret (text_result "");
     Tool.handleListProjectFiles := h; Tool.handleMemoryBankUpdate := h;
     Tool.handleExportMemoryBank := h; Tool.handleAddTodo := h;
     Tool.handleListTodos := h; Tool.handleUpdateTodo := h;
     Tool.handleDeleteTodo := h |}.

(** A world before [initialize], and a new database file. *)
Definition start : World := {| db := None; tick := 0 |}.
Definition new_file : list MemoryRow * list TodoRow := ([], []).

Definition empty_db : Database :=
  {| memories := []; todos := []; transaction := None; is_open := true |}.

Definition ready_world : World := {| db := Some empty_db; tick := 0 |}.

(** A database with a memory and a todo whose tags are not JSON. *)
Definition bad_tags_memory : MemoryRow :=
  {| row_id := "m1"; row_content := "Use PostgreSQL";
     row_original_content := None; row_context := "db"; row_importance := 9;
     row_timestamp := "2026-01-01T00:00:00.000Z"; row_source := manual;
     row_project := Some "alpha"; row_category := None;
     row_tags := Some "not json"; row_embedding := None;
     row_created_at := "2026-01-01 00:00:00";
     row_updated_at := "2026-01-01 00:00:00" |}.

Definition bad_tags_todo : TodoRow :=
  {| trow_id := "t1"; trow_content := "Write tests";
     trow_status := pending; trow_priority := high;
     trow_project := None; trow_context := None;
     trow_tags := Some "[oops"; 
     trow_created_at := "2026-01-01T00:00:00.000Z";
     trow_updated_at := "2026-01-01T00:00:00.000Z" |}.

Definition bad_tags_db : Database :=
  {| memories := [bad_tags_memory]; todos := [bad_tags_todo];
     transaction := None; is_open := true |}.

Definition bad_tags_world : World := {| db := Some bad_tags_db; tick := 0 |}.

(** A store with the memory "alpha beta" in context "c", and two new
    memories for that context: the same words in the other order, and the
    same text. *)
Definition alpha_beta : MemoryRow :=
  {| row_id := "m0"; row_content := "alpha beta";
     row_original_content := None; row_context := "c"; row_importance := 5;
     row_timestamp := "2026-01-01T00:00:00.000Z"; row_source := manual;
     row_project := None; row_category := None;
     row_tags := None; row_embedding := None;
     row_created_at := "2026-01-01 00:00:00";
     row_updated_at := "2026-01-01 00:00:00" |}.

Definition alpha_world : World :=
  {| db := Some {| memories := [alpha_beta]; todos := [];
                   transaction := None; is_open := true |};
     tick := 0 |}.

Definition new_memory (content : string) (importance : Z) : MemoryData :=
  {| md_content := content; md_originalContent := None;
     md_context := Some "c"; md_importance := Some importance;
     md_timestamp := "2026-01-02T00:00:00.000Z"; md_source := Some manual;
     md_project := None; md_category := None; md_tags := None |}.

(** Two batches for [updateMemoryBank]: the second element of the first
    one came without a content. *)
Definition broken_batch : list BankMemory :=
  [ {| bm_content := Some "first"; bm_importance := None; bm_tags := None |};
    {| bm_content := None; bm_importance := None; bm_tags := None |} ].

Definition good_batch : list BankMemory :=
  [ {| bm_content := Some "first"; bm_importance := Some 100%Z; bm_tags := None |};
    {| bm_content := Some "second"; bm_importance := None; bm_tags := Some ["x"] |} ].

End Demo.

(** ** Further functions of the sources *)

(** *** More of JavaScript strings and numbers *)

Module JsText.

(** [s.trimStart()], [s.trimEnd()] and [s.trim()]. *)
Fixpoint trimStart (s : string) : string :=
  match s with
  | EmptyString => EmptyString
  | String c s' => if Js.is_space c then trimStart s' else s
  end.

Fixpoint trimEnd (s : string) : string :=
  match s with
  | EmptyString => EmptyString
  | String c s' =>
      match trimEnd s' with
      | EmptyString => if Js.is_space c then EmptyString else String c EmptyString
      | rest => String c rest
      end
  end.

Definition trim (s : string) : string := trimEnd (trimStart s).

(** [s.slice(0, end)]: a negative [end] counts from the end of [s]. *)
Definition slice_to (e : Z) (s : string) : string :=
  if (e <? 0)%Z then Js.slice0 (String.length s - Z.to_nat (- e)) s
  else Js.slice0 (Z.to_nat e) s.

(** The decimal text of an integer, as [`${n}`] and [n.toString()] give it. *)
Fixpoint digits (fuel n : nat) (acc : string) : string :=
  match fuel with
  | O => acc
  | S fuel' =>
      let acc' := String (ascii_of_nat (48 + n mod 10)) acc in
      if n / 10 =? 0 then acc' else digits fuel' (n / 10) acc'
  end.

Definition nat_text (n : nat) : string := digits (S n) n EmptyString.

Definition number_text (z : Z) : string :=
  if (z <? 0)%Z then "-" ++ nat_text (Z.to_nat (- z)) else nat_text (Z.to_nat z).

(** [items.join(sep)]. *)
Definition join (sep : string) (items : list string) : string :=
  String.concat sep items.

(** [s.replace] of every double quote character by two of them (the
    pattern carries the flag [g]). *)
Fixpoint double_quotes (s : string) : string :=
  match s with
  | EmptyString => EmptyString
  | String c s' =>
      if Ascii.eqb c (ascii_of_nat 34)
      then String c (String c (double_quotes s'))
      else String c (double_quotes s')
  end.

End JsText.

(** *** utils.ts: [truncateText] and [sanitizeContext] *)

(** [truncateText(text, maxLength = 100)] *)
Definition truncateText (text : string) (maxLength : option Z) : string :=
  let maxLength := default 100%Z maxLength in
  if negb (Js.truthy text) || (Z.of_nat (String.length text) <=? maxLength)%Z
  then text
  else JsText.slice_to (maxLength - 3) text ++ "...".

(** The characters outside the class [[^a-z0-9\s-_]]: lower-case letters,
    digits, white space, the hyphen and the underscore. *)
Definition context_char (c : ascii) : bool :=
  let n := nat_of_ascii c in
  ((97 <=? n) && (n <=? 122)) || ((48 <=? n) && (n <=? 57))
  || Js.is_space c || (n =? 45) || (n =? 95).

(** [s.replace(/[^a-z0-9\s-_]/g, '')] *)
Fixpoint strip_context (s : string) : string :=
  match s with
  | EmptyString => EmptyString
  | String c s' =>
      if context_char c then String c (strip_context s') else strip_context s'
  end.

(** [s.replace(/\\s+/g, '-')]: the pattern, as it is written, is a
    backslash followed by one or more letters [s]; [in_match] tells that
    such a match is being consumed. *)
Fixpoint replace_backslash_s (in_match : bool) (s : string) : string :=
  match s with
  | EmptyString => EmptyString
  | String c s' =>
      if in_match && Ascii.eqb c "s"%char then replace_backslash_s true s'
      else if Ascii.eqb c (ascii_of_nat 92) then
        match s' with
        | String c' _ =>
            if Ascii.eqb c' "s"%char then String "-"%char (replace_backslash_s true s')
            else String c (replace_backslash_s false s')
        | EmptyString => String c EmptyString
        end
      else String c (replace_backslash_s false s')
  end.

Definition sanitizeContext (context : option string) : string :=
  match context with
  | None => "general"
  | Some context =>
      if negb (Js.truthy context) then "general"
      else JsText.trim
             (replace_backslash_s false
                (strip_context (Js.toLowerCase context)))
  end.

(** *** memory-store.ts: [getStats] *)

Record MemoryStats := {
  ms_totalMemories : nat;
  ms_uniqueContexts : nat;
  ms_avgImportance : option Q;          (* AVG over no row is NULL *)
  ms_latestMemory : option string;      (* MAX over no row is NULL *)
  ms_contexts : list (string * nat)
}.

(** [SELECT COUNT( * ), COUNT(DISTINCT context), AVG(importance), MAX(created_at)]
    and [SELECT context, COUNT( * ) ... GROUP BY context ORDER BY count DESC];
    the average is the exact quotient. *)
Definition context_counts (rows : list MemoryRow) : list (string * nat) :=
  Sql.order_by (fun a b => snd b <? snd a)
    (map (fun c => (c, length (filter (fun r => String.eqb (row_context r) c) rows)))
         (Sql.order_by text_asc (distinct (map row_context rows)))).

Definition stats_of (rows : list MemoryRow) : MemoryStats :=
  {| ms_totalMemories := length rows;
     ms_uniqueContexts := length (distinct (map row_context rows));
     ms_avgImportance :=
       match rows with
       | [] => None
       | _ => Some (Qmake (fold_right Z.add 0%Z (map row_importance rows))
                          (Pos.of_nat (length rows)))
       end;
     ms_latestMemory :=
       match rows with
       | [] => None
       | _ => Some (text_max (map row_created_at rows))
       end;
     ms_contexts := context_counts rows |}.

Definition getStats : M MemoryStats :=
  _ <- require_db ;;
  stats <- db_all (fun d => stats_of (memories d)) ;;
  ret stats.

(** *** ollama-client.ts: extraction and ranking *)

(** [ExtractedMemory], as an element of the array the model answered: each
    property may be missing. *)
Record ExtractedMemory := {
  em_content : option string;
  em_context : option string;
  em_importance : option Z
}.

(** [Math.min(Math.max(memory.importance || 5, 1), 10)] *)
Definition clamp_importance (importance : option Z) : Z :=
  Z.min (Z.max (importance_or_5 importance) 1) 10.

(** The test of [filter] in [extractMemories]. *)
Definition has_content (memory : ExtractedMemory) : bool :=
  match em_content memory with
  | Some c => Js.truthy c && (0 <? String.length (JsText.trim c))
  | None => false
  end.

Definition clean_memory (context : string) (memory : ExtractedMemory)
  : ExtractedMemory :=
  {| em_content := option_map JsText.trim (em_content memory);
     em_context := Some (Js.or_else (em_context memory) context);
     em_importance := Some (clamp_importance (em_importance memory)) |}.

(** [extractMemories(text, context)] once the answer of the model is known:
    [response] is the array [parseJsonFromResponse] returned, [None] when
    the call, the parse or the array test threw and the [catch] block runs. *)
Definition extractMemories (response : option (list ExtractedMemory))
           (text : option string) (context : string)
  : result (list ExtractedMemory) :=
  match response with
  | Some memories => Ok (map (clean_memory context) (filter has_content memories))
  | None =>
      (* Fallback: create a single memory from the text *)
      match text with
      | None => Throw (TypeError "Cannot read properties of undefined (reading 'trim')")
      | Some text =>
          if 20 <? String.length (JsText.trim text) then
            Ok [ {| em_content :=
                      Some (Js.slice0 200 text
                            ++ (if 200 <? String.length text then "..." else ""));
                    em_context := Some context;
                    em_importance := Some 5%Z |} ]
          else Ok []
      end
  end.

(** [memories.map((memory, index) => ...)] with the index. *)
Fixpoint map_indexed {A B} (f : A -> nat -> B) (index : nat) (l : list A) : list B :=
  match l with
  | [] => []
  | a :: l' => f a index :: map_indexed f (S index) l'
  end.

(** [findSimilarMemories(query, memories, threshold = 0.7)] once the answer
    is known: [scores] is the parsed array of scores, [None] when the call
    or the parse threw and the fallback to [simpleTextSimilarity] runs.  A
    missing score counts as 0 ([scores[index] || 0]); a [NaN] score passes
    no threshold. *)
Definition findSimilarMemories (scores : option (list Q)) (query : string)
           (memories : list StoredMemory) (threshold : option Q)
  : list ScoredMemory :=
  let threshold := default (7 # 10)%Q threshold in
  match memories with
  | [] => []
  | _ =>
      let scored :=
        match scores with
        | Some scores =>
            map_indexed (fun memory index =>
                           Some {| memory := memory;
                                   similarity := nth index scores 0%Q |})
                        0 memories
        | None =>
            map (fun memory =>
                   option_map (fun s => {| memory := memory; similarity := s |})
                              (simpleTextSimilarity query (sm_content memory)))
                memories
        end in
      stable_sort (fun a b => Qgtb (similarity a) (similarity b))
        (filter (fun m => Qgeb (similarity m) threshold) (somes scored))
  end.

(** *** http-server.ts: the CSV export *)

Definition csv_header : string := "ID,Content,Context,Importance,Created".

(** One line per memory: the id, the content between double quotes with
    its own double quotes doubled, the context, the importance and
    [createdAt], separated by commas. *)
Definition csv_line (m : StoredMemory) : string :=
  sm_id m ++ "," ++ dquote ++ JsText.double_quotes (sm_content m) ++ dquote
  ++ "," ++ sm_context m ++ "," ++ JsText.number_text (sm_importance m)
  ++ "," ++ sm_createdAt m.

(** The [csv] case of [handleExportMemoryBank]. *)
Definition csv_export (exportData : MemoryBankExport) : string :=
  JsText.join nl (csv_header :: map csv_line (ex_memories exportData)).

(** *** index.ts and http-server.ts: [handleExtractMemories]

    The handler is the same text in both files.  [response] is what the
    model answered to this call (see [extractMemories]). *)
Section ExtractHandler.

Variable E : Env.
Variable config : Config.
Variable response : option (list ExtractedMemory).

(** The body of [for (const fact of extractedFacts)]. *)
Fixpoint store_facts (context : string) (facts : list ExtractedMemory)
  : M (list StoredMemory) :=
  match facts with
  | [] => ret []
  | fact :: rest =>
      timestamp <- newDateISO E ;;
      memory <-
        match em_content fact with
        | Some content =>
            addMemory E (memoryStorage config)
              {| md_content := content;
                 md_originalContent := None;
                 md_context := Some (Js.or_else (em_context fact) context);
                 md_importance := Some (importance_or_5 (em_importance fact));
                 md_timestamp := timestamp;
                 md_source := Some auto_extracted;
                 md_project := None;
                 md_category := None;
                 md_tags := None |}
        | None => addMemory_undefined_content E (memoryStorage config)
        end ;;
      memories <- store_facts context rest ;;
      ret (memory :: memories)
  end.

Definition handleExtractMemories (args : option JArgs) : M ToolResult :=
  match args with
  | None => destructure_undefined "text"
  | Some args =>
      let text := str_field "text" args in
      let context := default "conversation" (str_field "context" args) in
      match extractMemories response text context with
      | Throw e => throw e
      | Ok extractedFacts =>
          memories <- store_facts context extractedFacts ;;
          let summary :=
            JsText.join nl (map (fun m => "- " ++ sm_content m) memories) in
          ret (text_result ("Extracted and stored "
                            ++ JsText.nat_text (length memories)
                            ++ " memories:" ++ nl ++ nl ++ summary))
      end
  end.

End ExtractHandler.

(** *** Notions for the further properties *)

(** The row [addMemory] inserts for [memoryData] under the identifier
    [id]. *)
Definition inserted_row (memoryData : MemoryData) (id : string) (r : MemoryRow)
  : Prop :=
  row_id r = id
  /\ row_content r = md_content memoryData
  /\ row_context r = default "general" (md_context memoryData)
  /\ row_importance r = default 5%Z (md_importance memoryData)
  /\ row_source r = default manual (md_source memoryData)
  /\ row_project r = md_project memoryData
  /\ row_category r = md_category memoryData.

(** The lookup of [addMemory] is off, or finds no candidate. *)
Definition no_duplicate_found (config : StorageConfig) (memoryData : MemoryData)
           (d : Database) : Prop :=
  deduplication config = Some false
  \/ find (fun memory =>
             Qgtb (calculateTextSimilarity (md_content memoryData) (row_content memory))
                  default_dedup_threshold)
          (similar_candidates (md_content memoryData)
             (default "general" (md_context memoryData)) d) = None.

(** Rows in descending order of [created_at]. *)
Definition newest_first (a b : MemoryRow) : Prop :=
  Sql.text_gt (row_created_at b) (row_created_at a) = false.

(** The number of rows of a project, of a context. *)
Definition rows_of_project (p : string) (rows : list MemoryRow) : nat :=
  length (filter (fun r => Sql.opt_eqb (row_project r) p) rows).

Definition sum_counts (l : list (string * nat)) : nat :=
  fold_right (fun x acc => snd x + acc) 0 l.

(** The [required] list of the input schema of a catalogue entry, empty
    when the schema has none. *)
Definition required_of (tool : JValue) : list string :=
  match tool with
  | JObj fields =>
      match field "inputSchema" fields with
      | Some (JObj schema) => default [] (str_list_field "required" schema)
      | _ => []
      end
  | _ => []
  end.

(** The computation throws the error of a closed database and leaves the
    database as it is. *)
Definition refused {A} (c : M A) (w : World) : Prop :=
  exists w', c w = (Throw closed_error, w') /\ db w' = db w.

(** The identifiers the loop of [updateMemoryBank] generates for [k]
    memories when it starts at the clock position [n]: each turn reads the
    identifier and then the date. *)
Fixpoint bank_ids (E : Env) (n k : nat) : list string :=
  match k with
  | O => []
  | S k' => idOracle E n :: bank_ids E (S (S n)) k'
  end.

(** *** Data for examples *)

Module Sample.

Definition memory_row (id content context : string) (importance : Z)
           (project category : option string) (created : string) : MemoryRow :=
  {| row_id := id; row_content := content; row_original_content := None;
     row_context := context; row_importance := importance;
     row_timestamp := created; row_source := manual;
     row_project := project; row_category := category;
     row_tags := None; row_embedding := None;
     row_created_at := created; row_updated_at := created |}.

Definition todo_row (id content : string) (status : Status) (created : string)
  : TodoRow :=
  {| trow_id := id; trow_content := content; trow_status := status;
     trow_priority := medium; trow_project := None; trow_context := None;
     trow_tags := None; trow_created_at := created; trow_updated_at := created |}.

Definition rows : list MemoryRow :=
  [ memory_row "a1" "Use PostgreSQL" "db" 9 (Some "alpha") (Some "decisions")
      "2026-01-01 00:00:01";
    memory_row "a2" "Deploy on ECS" "ops" 7 (Some "alpha") (Some "infra")
      "2026-01-01 00:00:02";
    memory_row "a3" "Index the id column" "db" 4 (Some "beta") None
      "2026-01-01 00:00:03" ].

Definition todo_rows : list TodoRow :=
  [ todo_row "t1" "Write tests" pending "2026-01-01 00:00:01";
    todo_row "t2" "Ship" in_progress "2026-01-01 00:00:02" ].

Definition database : Database :=
  {| memories := rows; todos := todo_rows; transaction := None; is_open := true |}.

Definition world : World := {| db := Some database; tick := 7 |}.

(** A configuration with deduplication switched off. *)
Definition plain_storage : StorageConfig :=
  {| path := "~/universal-memories.db"; deduplication := Some false |}.

Definition memoryData : MemoryData :=
  {| md_content := "Use PostgreSQL"; md_originalContent := None;
     md_context := Some "db"; md_importance := Some 9%Z;
     md_timestamp := "2026-01-02T00:00:00.000Z"; md_source := Some manual;
     md_project := None; md_category := None; md_tags := None |}.

Definition todoData : TodoData :=
  {| td_content := "Review"; td_status := pending; td_priority := high;
     td_project := None; td_context := None; td_tags := None;
     td_createdAt := "2026-01-02T00:00:00.000Z";
     td_updatedAt := "2026-01-02T00:00:00.000Z" |}.



Definition repository : RepositoryInfo :=
  {| repoName := Some "oozeorb/universal-memory-mcp"; branch := Some "main";
     remoteName := Some "origin"; remoteUrl := None; isGitRepo := true;
     repo_tags := ["repo:oozeorb-universal-memory-mcp"; "branch:main"; "git-repo"] |}.

End Sample.

(* ------------------------------------------------------------------ *)
(** * Properties *)

Unset Implicit Arguments.

Example split_empty : Js.split_ws "" = [""].
Proof. reflexivity. Qed.

Example split_spaces : Js.split_ws " a  b " = [""; "a"; "b"; ""].
Proof. reflexivity. Qed.

Example split_tabs_and_newlines :
  Js.split_ws ("one" ++ String (ascii_of_nat 9) "two" ++ nl ++ nl ++ "three")
  = ["one"; "two"; "three"].
Proof. reflexivity. Qed.

Example like_examples :
  Sql.like (Sql.contains_pattern "postgresql") "Use PostgreSQL" = true
  /\ Sql.like (Sql.contains_pattern "mysql") "Use PostgreSQL" = false
  /\ Sql.like (Sql.contains_pattern "p_st%sql") "Use PostgreSQL" = true
  /\ Sql.like (Sql.contains_pattern "") "anything" = true
  /\ Sql.like "abc" "ABC" = true
  /\ Sql.like "abc" "abcd" = false.
Proof. repeat split; reflexivity. Qed.

Example includes_examples :
  Js.includes "postgresql" "gres" = true
  /\ Js.includes "gres" "postgresql" = false
  /\ Js.includes "" "" = true
  /\ Js.slice0 3 "abcdef" = "abc"
  /\ Js.slice0 50 "short" = "short".
Proof. repeat split; reflexivity. Qed.

Example sort_is_stable :
  stable_sort (fun a b => fst b <? fst a) [(1, "a"); (3, "b"); (1, "c"); (3, "d"); (2, "e")]
  = [(3, "b"); (3, "d"); (2, "e"); (1, "a"); (1, "c")].
Proof. reflexivity. Qed.

Example demo_parse_tags :
  Demo.parse (Demo.stringify ["a"; "b"]) = Some (JArr [JStr "a"; JStr "b"])
  /\ Demo.parse "not json" = None.
Proof. split; reflexivity. Qed.

Example demo_decimal : Demo.decimal 120 = "120" /\ Demo.decimal 0 = "0".
Proof. split; reflexivity. Qed.

(** ** The similarity engine *)

Section Similarity.

Lemma split_go_length (s : string) : forall in_ws cur,
  1 <= length (Js.split_go in_ws cur s).
Proof.
  induction s as [|c s IH]; intros in_ws cur; simpl.
  - lia.
  - destruct (Js.is_space c).
    + destruct in_ws; simpl; [apply IH | specialize (IH true EmptyString); lia].
    + apply IH.
Qed.

Lemma words_length (text : string) : 1 <= length (words text).
Proof. apply split_go_length. Qed.

Lemma prefix_refl (s : string) : String.prefix s s = true.
Proof.
  induction s as [|c s IH]; simpl; [reflexivity|].
  destruct (ascii_dec c c) as [_|n]; [exact IH | now elim n].
Qed.

Lemma includes_refl (s : string) : Js.includes s s = true.
Proof.
  destruct s as [|c s]; [reflexivity|].
  cbn [Js.includes]. now rewrite prefix_refl.
Qed.

Lemma includes_empty (s : string) : Js.includes s "" = true.
Proof. destruct s; reflexivity. Qed.

Lemma covered_self (l : list string) (w : string) : In w l -> covered l w = true.
Proof.
  intros Hin. apply existsb_exists. exists w. split; [exact Hin|].
  now rewrite includes_refl.
Qed.

(** The loop of [calculateTextSimilarity] counts the covered query words. *)
Lemma count_matches_filter (content query : list string) : forall matches,
  count_matches content query matches
  = matches + length (filter (covered content) query).
Proof.
  induction query as [|w query IH]; intros matches; simpl.
  - lia.
  - rewrite IH. unfold word_matches, Js.some, covered.
    destruct (existsb _ content); simpl; lia.
Qed.

Lemma filter_length_le {A} (f : A -> bool) (l : list A) :
  length (filter f l) <= length l.
Proof. induction l as [|a l IH]; simpl; [lia | destruct (f a); simpl; lia]. Qed.

Lemma ratio_bounds (n d : nat) : 1 <= d -> n <= d -> (0 <= ratio n d <= 1)%Q.
Proof.
  intros Hd Hn. unfold ratio, Qle; simpl. split.
  - lia.
  - destruct d as [|d]; [lia|].
    rewrite <- (Nat2Pos.id (S d)) in Hn by lia. lia.
Qed.

Lemma ratio_full (n : nat) : 1 <= n -> (ratio n n == 1)%Q.
Proof.
  intros Hn. unfold ratio, Qeq; simpl.
  destruct n as [|n]; [lia|].
  rewrite <- (Nat2Pos.id (S n)) at 1 by lia. lia.
Qed.

Lemma similarity_is_coverage (text1 text2 : string) :
  calculateTextSimilarity text1 text2 = coverage_score text1 text2.
Proof.
  unfold calculateTextSimilarity, coverage_score.
  fold (words text1); fold (words text2).
  rewrite count_matches_filter; simpl.
  pose proof (words_length text1) as Hlen.
  destruct (Nat.ltb_spec 0 (length (words text1))); [reflexivity | lia].
Qed.

Lemma filter_all {A} (f : A -> bool) (l : list A) :
  (forall a, In a l -> f a = true) -> filter f l = l.
Proof.
  induction l as [|a l IH]; intros H; simpl; [reflexivity|].
  rewrite (H a (or_introl eq_refl)). f_equal. apply IH.
  intros b Hb. apply H. now right.
Qed.

(** C6.  The score [calculateTextSimilarity] returns is the number of
    query words covered by a content word (one is a substring of the other,
    after lower-casing and splitting on white space) over the number of
    query words; it lies between 0 and 1; a text scored against itself
    gets 1. *)
Theorem C6_query_coverage_score :
  (forall query content,
      calculateTextSimilarity query content = coverage_score query content
      /\ (0 <= calculateTextSimilarity query content <= 1)%Q)
  /\ (forall q, (calculateTextSimilarity q q == 1)%Q).
Proof.
  split.
  - intros query content. split; [apply similarity_is_coverage|].
    rewrite similarity_is_coverage. unfold coverage_score.
    apply ratio_bounds; [apply words_length | apply filter_length_le].
  - intros q. rewrite similarity_is_coverage. unfold coverage_score.
    rewrite filter_all by (intros w Hw; now apply covered_self).
    apply ratio_full, words_length.
Qed.

Example similarity_examples :
  calculateTextSimilarity "PostgreSQL" "Use PostgreSQL" = (1 # 1)%Q
  /\ calculateTextSimilarity "Use PostgreSQL" "PostgreSQL" = (1 # 2)%Q
  /\ calculateTextSimilarity "post" "PostgreSQL" = (1 # 1)%Q
  /\ calculateTextSimilarity "use mysql" "Use PostgreSQL" = (1 # 2)%Q
  /\ calculateTextSimilarity "red" "blue green" = (0 # 1)%Q.
Proof. repeat split; reflexivity. Qed.

(** The empty word is a substring of every word, and no text splits into
    no word at all: an empty query is fully covered. *)
Lemma empty_query_scores_one (content : string) :
  calculateTextSimilarity "" content = 1%Q.
Proof.
  unfold calculateTextSimilarity. simpl.
  unfold word_matches, Js.some.
  pose proof (words_length content) as Hlen. unfold words in Hlen.
  destruct (Js.split_ws (Js.toLowerCase content)) as [|w ws]; [simpl in Hlen; lia|].
  simpl. now rewrite includes_empty.
Qed.

(** [search_memories] with an empty query: the pattern is [%%], every row
    is a candidate and every row scores 1. *)
Example empty_query_matches_everything :
  fst (searchMemories "" {| so_limit := None; so_context := None;
                            so_threshold := Some (8 # 10)%Q |} Demo.alpha_world)
  = Ok [ {| memory := storedOfRow Demo.alpha_beta; similarity := 1%Q |} ].
Proof. vm_compute; reflexivity. Qed.

(** The set of words of a text is never empty, so the Jaccard quotient is
    never [0 / 0]. *)
Lemma set_add_length (x : string) (s : list string) : 1 <= length (set_add x s).
Proof. induction s as [|y s IH]; simpl; [lia | destruct (String.eqb x y); simpl; lia]. Qed.

Lemma set_add_incl_length (x : string) (s : list string) :
  length s <= length (set_add x s).
Proof. induction s as [|y s IH]; simpl; [lia | destruct (String.eqb x y); simpl; lia]. Qed.

Lemma fold_set_add_length (l : list string) : forall s,
  length s <= length (fold_left (fun s x => set_add x s) l s).
Proof.
  induction l as [|x l IH]; intros s; simpl; [lia|].
  specialize (IH (set_add x s)). pose proof (set_add_incl_length x s). lia.
Qed.

Lemma set_of_length (l : list string) : 1 <= length l -> 1 <= length (set_of l).
Proof.
  destruct l as [|x l]; simpl; [lia|]. intros _. unfold set_of; simpl.
  pose proof (fold_set_add_length l [x]). simpl in *. lia.
Qed.

Lemma simpleTextSimilarity_total (text1 text2 : string) :
  exists score, simpleTextSimilarity text1 text2 = Some score.
Proof.
  unfold simpleTextSimilarity.
  assert (H : 1 <= length (set_of (set_of (words text1) ++ set_of (words text2)))).
  { apply set_of_length. rewrite length_app.
    pose proof (set_of_length (words text1) (words_length text1)). lia. }
  unfold words in H.
  destruct (length (set_of (_ ++ _))); [lia | eauto].
Qed.

(** C5.  Both scoring functions return on every pair of strings, but the
    score of an empty query is 1, not 0: [""] splits into the one word [""],
    which every word includes, and the guard [query.length > 0] never
    fails.  The same holds for an empty content, and the Jaccard score of
    two empty texts is 1 as well. *)
Theorem C5_empty_query_scores_one :
  calculateTextSimilarity "" "anything" = 1%Q
  /\ calculateTextSimilarity "anything" "" = 1%Q
  /\ simpleTextSimilarity "" "" = Some 1%Q
  /\ simpleTextSimilarity "" "anything" = Some (0 # 2)%Q.
Proof. repeat split; reflexivity. Qed.

End Similarity.

(** ** The store before [initialize] *)

Section Uninitialized.

Variable E : Env.
Variable config : StorageConfig.

Lemma require_db_none {A} (k : Database -> M A) (w : World) :
  db w = None -> bind require_db k w = (Throw NotInitialized, w).
Proof. intros H. unfold bind, require_db. now rewrite H. Qed.

(** C8 (counterexample).  [close] on a store that was never initialised
    returns normally: it throws nothing. *)
Lemma C8_close_returns_before_initialize :
  close Demo.start = (Ok tt, Demo.start)
  /\ ~ (exists e, fst (close Demo.start) = Throw e).
Proof.
  split; [reflexivity|]. intros [e H]. discriminate H.
Qed.

(** C8 (amended).  Before [initialize] every operation of the store but
    [close] throws the error whose message is 'Database not initialized'
    and leaves the world as it was; [close] returns and also changes
    nothing. *)
Theorem C8_uninitialized_store_fails_fast (w : World) :
  db w = None ->
  message NotInitialized = "Database not initialized"
  /\ (forall memoryData, addMemory E config memoryData w = (Throw NotInitialized, w))
  /\ (forall query options, searchMemories query options w = (Throw NotInitialized, w))
  /\ (forall options, getMemories E options w = (Throw NotInitialized, w))
  /\ (forall id, deleteMemory id w = (Throw NotInitialized, w))
  /\ (forall id, getMemoryById id w = (Throw NotInitialized, w))
  /\ listProjects w = (Throw NotInitialized, w)
  /\ (forall project, listProjectFiles project w = (Throw NotInitialized, w))
  /\ (forall project category memories,
        updateMemoryBank E project category memories w = (Throw NotInitialized, w))
  /\ (forall project category format,
        exportMemoryBank E project category format w = (Throw NotInitialized, w))
  /\ (forall todoData, addTodo E todoData w = (Throw NotInitialized, w))
  /\ (forall options, listTodos E options w = (Throw NotInitialized, w))
  /\ (forall id updates, updateTodo E id updates w = (Throw NotInitialized, w))
  /\ (forall id, deleteTodo id w = (Throw NotInitialized, w))
  /\ (forall id, getTodoById E id w = (Throw NotInitialized, w))
  /\ close w = (Ok tt, w).
Proof.
  intros Hdb.
  split; [reflexivity|].
  repeat split; intros;
    try (apply require_db_none; exact Hdb).
  unfold close. now rewrite Hdb.
Qed.

End Uninitialized.

Lemma C8_uninitialized_store_fails_fast_witness :
  db Demo.start = None
  /\ deleteMemory "some-id" Demo.start = (Throw NotInitialized, Demo.start)
  /\ close Demo.start = (Ok tt, Demo.start).
Proof.
  split; [reflexivity|].
  pose proof (C8_uninitialized_store_fails_fast Demo.env Demo.storage
                Demo.start eq_refl) as H.
  split; [apply H | apply H].
Defined.

(** ** Running computations of the store *)

Section Running.

Lemma bind_ok {A B} (c : M A) (k : A -> M B) (w w' : World) (a : A) :
  c w = (Ok a, w') -> bind c k w = k a w'.
Proof. intros H. unfold bind. now rewrite H. Qed.

Lemma bind_throw {A B} (c : M A) (k : A -> M B) (w w' : World) (e : Error) :
  c w = (Throw e, w') -> bind c k w = (Throw e, w').
Proof. intros H. unfold bind. now rewrite H. Qed.


Lemma require_db_ready (w : World) (d : Database) :
  db w = Some d -> require_db w = (Ok d, w).
Proof. intros H. unfold require_db. now rewrite H. Qed.

Lemma db_all_ready {A} (query : Database -> A) (w : World) (d : Database) :
  db w = Some d -> is_open d = true -> db_all query w = (Ok (query d), w).
Proof. intros H Ho. unfold db_all. now rewrite H, Ho. Qed.

Lemma db_run_ready stmt (w : World) (d d' : Database) (changes : nat) :
  db w = Some d -> is_open d = true -> stmt d = Ok (d', changes) ->
  db_run stmt w = (Ok changes, {| db := Some d'; tick := tick w |}).
Proof. intros H Ho Hs. unfold db_run. now rewrite H, Ho, Hs. Qed.

Lemma db_run_fails stmt (w : World) (d : Database) (e : Error) :
  db w = Some d -> is_open d = true -> stmt d = Throw e ->
  db_run stmt w = (Throw e, w).
Proof. intros H Ho Hs. unfold db_run. now rewrite H, Ho, Hs. Qed.

Lemma world_same (w : World) (d : Database) :
  db w = Some d -> {| db := Some d; tick := tick w |} = w.
Proof. destruct w as [dbw n]; simpl; intros ->. reflexivity. Qed.

Lemma find_absent {A} (f : A -> bool) (l : list A) :
  (forall a, In a l -> f a = false) -> find f l = None.
Proof.
  induction l as [|a l IH]; intros H; simpl; [reflexivity|].
  rewrite (H a (or_introl eq_refl)). apply IH. intros b Hb. apply H. now right.
Qed.

Lemma eqb_absent (x y : string) : x <> y -> String.eqb x y = false.
Proof. intros H. now apply String.eqb_neq. Qed.

End Running.

Ltac step_ok H := rewrite (bind_ok _ _ _ _ _ H).

(** ** Identifiers no row carries *)

Section AbsentId.

Variable E : Env.
Variable config : Config.
Variable others : Tool.Handlers.
Variable w : World.
Variable d : Database.
Variable id : string.

Hypothesis Hdb : db w = Some d.
Hypothesis Hopen : is_open d = true.

Lemma deleteMemory_absent :
  (forall r, In r (memories d) -> row_id r <> id) ->
  deleteMemory id w = (Ok false, w).
Proof.
  intros Habs. unfold deleteMemory.
  step_ok (require_db_ready w d Hdb).
  assert (Hstmt : delete_memory_stmt id d = Ok (d, 0)).
  { unfold delete_memory_stmt. rewrite filter_all.
    - rewrite Nat.sub_diag. now destruct d.
    - intros r Hr. now rewrite eqb_absent by (now apply Habs). }
  step_ok (db_run_ready _ w d _ _ Hdb Hopen Hstmt).
  unfold ret; simpl. now rewrite (world_same w d Hdb).
Qed.

Lemma getTodoById_absent :
  (forall t, In t (todos d) -> trow_id t <> id) ->
  getTodoById E id w = (Ok None, w).
Proof using Hdb Hopen.
  intros Habs. unfold getTodoById.
  step_ok (require_db_ready w d Hdb).
  step_ok (db_all_ready (fun d0 => find (fun t => String.eqb (trow_id t) id) (todos d0))
             w d Hdb Hopen).
  rewrite find_absent; [reflexivity|].
  intros t Ht. now rewrite eqb_absent by (now apply Habs).
Qed.

Lemma updateTodo_absent (updates : TodoUpdates) :
  (forall t, In t (todos d) -> trow_id t <> id) ->
  updateTodo E id updates w = (Ok None, w).
Proof using Hdb Hopen.
  intros Habs. unfold updateTodo.
  step_ok (require_db_ready w d Hdb).
  step_ok (getTodoById_absent Habs).
  reflexivity.
Qed.

Lemma has_key_of_str_field (key : string) (args : JArgs) (v : string) :
  str_field key args = Some v -> has_key key args = true.
Proof.
  unfold str_field, has_key. destruct (field key args); [reflexivity | discriminate].
Qed.

End AbsentId.

(** C9.  On an initialised store, for an identifier no row carries:
    [deleteMemory] returns [false] and [updateTodo] returns [null], neither
    throws, the world is unchanged, and both transports answer with a plain
    text result ("not found"), not with an error. *)
Theorem C9_absent_id_is_reported_not_thrown
        (E : Env) (config : Config) (others : Tool.Handlers)
        (w : World) (d : Database) (id : string) (args : JArgs)
        (updates : TodoUpdates) :
  db w = Some d -> is_open d = true ->
  (forall r, In r (memories d) -> row_id r <> id) ->
  (forall t, In t (todos d) -> trow_id t <> id) ->
  str_field "id" args = Some id ->
  deleteMemory id w = (Ok false, w)
  /\ updateTodo E id updates w = (Ok None, w)
  /\ Index.callTool (Index.createToolHandlers E config others)
       "delete_memory" (Some args) w
     = (Ok (text_result ("Memory with ID " ++ dquote ++ id ++ dquote ++ " not found")), w)
  /\ HttpServer.post_mcp (HttpServer.createToolHandlers E config others)
       (tools_call "delete_memory" (Some args)) w
     = ({| status := 200;
           body := Content (text_result ("Memory with ID " ++ id ++ " not found.")) |}, w)
  /\ Index.callTool (Index.createToolHandlers E config others)
       "update_todo" (Some args) w
     = (Ok (text_result ("Todo with ID " ++ id ++ " not found.")), w)
  /\ HttpServer.post_mcp (HttpServer.createToolHandlers E config others)
       (tools_call "update_todo" (Some args)) w
     = ({| status := 200;
           body := Content (text_result ("Todo with ID " ++ id ++ " not found.")) |}, w).
Proof.
  intros Hdb Hopen Hmem Htodo Hid.
  pose proof (deleteMemory_absent w d id Hdb Hopen Hmem) as Hdel.
  pose proof (fun u => updateTodo_absent E w d id Hdb Hopen u Htodo) as Hupd.
  pose proof (has_key_of_str_field _ _ _ Hid) as Hkey.
  repeat split.
  - exact Hdel.
  - apply Hupd.
  - unfold Index.callTool, try_catch, Index.missing; simpl.
    rewrite Hkey; simpl.
    unfold Index.handleDeleteMemory. rewrite Hid.
    step_ok Hdel. reflexivity.
  - unfold HttpServer.post_mcp; simpl.
    unfold HttpServer.handleDeleteMemory. rewrite Hid.
    step_ok Hdel. reflexivity.
  - unfold Index.callTool, try_catch, Index.missing; simpl.
    rewrite Hkey; simpl.
    unfold Index.handleUpdateTodo. rewrite Hid.
    step_ok (Hupd (todo_updates_of args)). reflexivity.
  - unfold HttpServer.post_mcp; simpl.
    unfold HttpServer.handleUpdateTodo. rewrite Hid.
    step_ok (Hupd (todo_updates_of args)). reflexivity.
Qed.

Lemma C9_absent_id_is_reported_not_thrown_witness :
  (db Demo.ready_world = Some Demo.empty_db /\ is_open Demo.empty_db = true)
  /\ deleteMemory "nonexistent-id" Demo.ready_world = (Ok false, Demo.ready_world)
  /\ HttpServer.post_mcp (HttpServer.createToolHandlers Demo.env Demo.config Demo.others)
       (tools_call "update_todo" (Some [("id", JStr "nonexistent-id")]))
       Demo.ready_world
     = ({| status := 200;
           body := Content (text_result "Todo with ID nonexistent-id not found.") |},
        Demo.ready_world).
Proof.
  pose proof (C9_absent_id_is_reported_not_thrown Demo.env Demo.config Demo.others
                Demo.ready_world Demo.empty_db "nonexistent-id"
                [("id", JStr "nonexistent-id")]
                (todo_updates_of []) eq_refl eq_refl
                (fun r (H : In r []) => False_ind _ H)
                (fun t (H : In t []) => False_ind _ H) eq_refl) as H.
  split; [split; reflexivity|].
  split; [apply H | apply H].
Defined.

(** ** Sorting *)

Section Sorting.

Context {A : Type} (before : A -> A -> bool).

Lemma In_insert_sorted (x a : A) (l : list A) :
  In x (insert_sorted before a l) <-> x = a \/ In x l.
Proof.
  induction l as [|y l IH]; simpl.
  - intuition.
  - destruct (before y a); simpl; [rewrite IH|]; intuition.
Qed.

Lemma In_stable_sort (x : A) (l : list A) :
  In x (stable_sort before l) <-> In x l.
Proof.
  induction l as [|a l IH]; simpl; [reflexivity|].
  rewrite In_insert_sorted, IH. intuition.
Qed.

Lemma stable_sort_length (l : list A) :
  length (stable_sort before l) = length l.
Proof.
  induction l as [|a l IH]; simpl; [reflexivity|].
  rewrite <- IH. generalize (stable_sort before l) as s.
  induction s as [|y s IHs]; simpl; [reflexivity|].
  destruct (before y a); simpl; [now rewrite IHs | reflexivity].
Qed.

End Sorting.

Lemma In_firstn {A} (x : A) : forall (n : nat) (l : list A),
  In x (firstn n l) -> In x l.
Proof.
  induction n as [|n IH]; intros [|a l]; simpl; try tauto.
  intros [H|H]; [now left | right; now apply IH].
Qed.

Lemma In_limit {A} (n : Z) (l : list A) (x : A) : In x (Sql.limit n l) -> In x l.
Proof.
  unfold Sql.limit. destruct (n <? 0)%Z; [trivial|]. apply In_firstn.
Qed.

(** ** Tags that are not JSON *)

Section InvalidTags.

Variable E : Env.




End InvalidTags.


(** ** The bulk update is one transaction *)

Section MemoryBank.

Variable E : Env.
Variable project : string.
Variable category : option string.

Lemma database_eta (d : Database) :
  {| memories := memories d; todos := todos d;
     transaction := transaction d; is_open := is_open d |} = d.
Proof. now destruct d. Qed.



End MemoryBank.

(** A batch whose second element has no content: the first row is inserted,
    the second [INSERT] fails (two memories are in the table at that point),
    and the rollback removes the first row again. *)
Example updateMemoryBank_rolls_back :
  fst (updateMemoryBank Demo.env "alpha" None Demo.broken_batch Demo.bad_tags_world)
  = Throw (SqliteError "SQLITE_CONSTRAINT: NOT NULL constraint failed: memories.content")
  /\ db (snd (updateMemoryBank Demo.env "alpha" None Demo.broken_batch
                Demo.bad_tags_world))
     = db Demo.bad_tags_world
  /\ option_map (fun d => length (memories d))
       (db (snd (insert_bank_memories Demo.env "alpha" None Demo.broken_batch
                   {| db := Some {| memories := [Demo.bad_tags_memory];
                                    todos := [Demo.bad_tags_todo];
                                    transaction := Some ([Demo.bad_tags_memory],
                                                         [Demo.bad_tags_todo]);
                                    is_open := true |};
                      tick := 0 |})))
     = Some 2.
Proof. repeat split; vm_compute; reflexivity. Qed.

Example updateMemoryBank_commits :
  option_map (fun d => map (fun r => (row_content r, row_importance r, row_tags r))
                           (memories d))
             (db (snd (updateMemoryBank Demo.env "alpha" (Some "notes")
                         Demo.good_batch Demo.ready_world)))
  = Some [("first", 100%Z, None); ("second", 5%Z, Some (Demo.stringify ["x"]))].
Proof. vm_compute; reflexivity. Qed.

(** ** Search *)

Section StableSortSorted.

Context {A : Type} (before : A -> A -> bool) (R : A -> A -> Prop).

Hypothesis before_sound : forall a b, before a b = true -> R a b.
Hypothesis before_total : forall a b, before a b = false -> R b a.
Hypothesis R_trans : forall a b c, R a b -> R b c -> R a c.

Lemma insert_sorted_sorted (x : A) (l : list A) :
  StronglySorted R l -> StronglySorted R (insert_sorted before x l).
Proof.
  induction 1 as [|y l Hl IH Hy]; simpl.
  - constructor; constructor.
  - destruct (before y x) eqn:Hyx.
    + constructor; [exact IH|].
      apply Forall_forall. intros z Hz.
      apply In_insert_sorted in Hz. destruct Hz as [->|Hz].
      * now apply before_sound.
      * rewrite Forall_forall in Hy. now apply Hy.
    + constructor; [now constructor|].
      constructor; [now apply before_total|].
      apply Forall_forall. intros z Hz. rewrite Forall_forall in Hy.
      apply R_trans with y; [now apply before_total | now apply Hy].
Qed.

Lemma stable_sort_sorted (l : list A) : StronglySorted R (stable_sort before l).
Proof.
  induction l as [|a l IH]; simpl; [constructor | now apply insert_sorted_sorted].
Qed.

End StableSortSorted.

Lemma search_sort_sorted (l : list ScoredMemory) :
  StronglySorted score_desc
    (stable_sort (fun a b => Qgtb (similarity a) (similarity b)) l).
Proof.
  apply stable_sort_sorted; unfold score_desc, Qgtb.
  - intros a b H. apply Qlt_le_weak, Qnot_le_lt. intros Hle.
    apply Qle_bool_iff in Hle. now rewrite Hle in H.
  - intros a b H. apply Qle_bool_iff. now destruct (Qle_bool _ _).
  - intros a b c Hab Hbc. now apply Qle_trans with (similarity b).
Qed.

Lemma search_candidates_hit (query : string) (context : option string)
      (limit : Z) (d : Database) (r : MemoryRow) :
  In r (search_candidates query context limit d) ->
  In r (memories d)
  /\ context_filter context r = true
  /\ exists word, In word (words query)
                  /\ Sql.like (Sql.contains_pattern word) (row_content r) = true.
Proof.
  unfold search_candidates. intros H.
  apply In_limit in H. unfold Sql.order_by in H.
  apply In_stable_sort in H. apply filter_In in H. destruct H as [Hin H].
  apply andb_true_iff in H. destruct H as [Hctx Hlike].
  apply existsb_exists in Hlike. destruct Hlike as [word [Hw Hl]].
  split; [exact Hin|]. split; [exact Hctx|]. now exists word.
Qed.

(** C2.  On an initialised store [searchMemories] returns; every result
    scores at least the threshold (0.1 when none is given), the results are
    in descending order of score, and each is a stored row selected by the
    [LIKE] pre-filter on the words of the lower-cased query and by the
    context, when one is given.  After adding "Use PostgreSQL" (context
    "db", importance 9) to a new store, searching "PostgreSQL" with
    threshold 0.1 returns that one memory, with score 1. *)
Theorem C2_search_is_filtered_and_ranked :
  (forall query options w d,
      db w = Some d -> is_open d = true ->
      exists results,
        searchMemories query options w = (Ok results, w)
        /\ Forall (fun m => (default default_search_threshold (so_threshold options)
                             <= similarity m)%Q) results
        /\ StronglySorted score_desc results
        /\ Forall (search_hit query (so_context options) d) results)
  /\ (forall E config n timestamp source,
        exists m w1 hit,
          bind (initialize Demo.new_file)
               (fun _ => addMemory E config
                  {| md_content := "Use PostgreSQL"; md_originalContent := None;
                     md_context := Some "db"; md_importance := Some 9%Z;
                     md_timestamp := timestamp; md_source := source;
                     md_project := None; md_category := None; md_tags := None |})
               {| db := None; tick := n |}
          = (Ok m, w1)
          /\ searchMemories "PostgreSQL"
               {| so_limit := None; so_context := None;
                  so_threshold := Some (1 # 10)%Q |} w1
             = (Ok [hit], w1)
          /\ sm_id (memory hit) = sm_id m
          /\ sm_content (memory hit) = "Use PostgreSQL"
          /\ sm_context (memory hit) = "db"
          /\ sm_importance (memory hit) = 9%Z
          /\ similarity hit = 1%Q).
Proof.
  split.
  - intros query options w d Hdb Hopen. unfold searchMemories.
    step_ok (require_db_ready w d Hdb).
    step_ok (db_all_ready (search_candidates query (so_context options)
                             (default 5%Z (so_limit options))) w d Hdb Hopen).
    eexists. split; [reflexivity|].
    split; [|split].
    + apply Forall_forall. intros m Hm.
      apply In_stable_sort in Hm. apply filter_In in Hm.
      destruct Hm as [_ Hm]. unfold Qgeb in Hm. now apply Qle_bool_iff.
    + apply search_sort_sorted.
    + apply Forall_forall. intros m Hm.
      apply In_stable_sort in Hm. apply filter_In in Hm.
      destruct Hm as [Hm _]. apply in_map_iff in Hm.
      destruct Hm as [r [<- Hr]].
      apply search_candidates_hit in Hr. destruct Hr as [Hin [Hctx Hword]].
      exists r. simpl. auto.
  - intros E config n timestamp source.
    unfold bind at 1. unfold initialize. cbn [fst snd Demo.new_file tick].
    unfold addMemory.
    destruct (deduplication config) as [[|]|]; cbn;
      (eexists; eexists; eexists; split; [reflexivity|];
       split; [vm_compute; reflexivity|]; repeat split; reflexivity).
Qed.

Lemma C2_search_is_filtered_and_ranked_witness :
  (db Demo.bad_tags_world = Some Demo.bad_tags_db
   /\ is_open Demo.bad_tags_db = true)
  /\ exists results,
       searchMemories "postgres" {| so_limit := None; so_context := Some "db";
                                    so_threshold := None |} Demo.bad_tags_world
       = (Ok results, Demo.bad_tags_world)
       /\ Forall (fun m => (default_search_threshold <= similarity m)%Q) results
       /\ StronglySorted score_desc results
       /\ Forall (search_hit "postgres" (Some "db") Demo.bad_tags_db) results.
Proof.
  split; [split; reflexivity|].
  exact (proj1 C2_search_is_filtered_and_ranked "postgres"
           {| so_limit := None; so_context := Some "db"; so_threshold := None |}
           Demo.bad_tags_world Demo.bad_tags_db eq_refl eq_refl).
Defined.

Example search_scenario_on_demo :
  fst (bind (bind (initialize Demo.new_file)
               (fun _ => addMemory Demo.env Demo.storage
                  {| md_content := "Use PostgreSQL"; md_originalContent := None;
                     md_context := Some "db"; md_importance := Some 9%Z;
                     md_timestamp := "2026-01-01T00:00:00.000Z";
                     md_source := Some manual;
                     md_project := None; md_category := None; md_tags := None |}))
            (fun _ => searchMemories "PostgreSQL"
                        {| so_limit := None; so_context := None;
                           so_threshold := Some (1 # 10)%Q |})
            Demo.start)
  = Ok [ {| memory :=
              {| sm_id := "id0"; sm_content := "Use PostgreSQL";
                 sm_originalContent := None; sm_context := "db";
                 sm_importance := 9%Z;
                 sm_timestamp := "2026-01-01T00:00:00.000Z";
                 sm_source := manual; sm_project := None; sm_category := None;
                 sm_tags := None;
                 sm_createdAt := "2026-01-01T00:00:00.000Z";
                 sm_updatedAt := "2026-01-01T00:00:00.000Z" |};
            similarity := 1%Q |} ].
Proof. vm_compute; reflexivity. Qed.

(** ** Deduplication *)

(** C1 (counterexample).  "beta alpha" scores 1 against the stored
    "alpha beta" of the same context, above the threshold 0.9, but the stored
    content does not contain the new text, so the lookup does not see it:
    [addMemory] inserts a second row. *)
Lemma C1_similar_memory_outside_the_prefilter :
  deduplication_enabled Demo.storage
  /\ (default_dedup_threshold
      < calculateTextSimilarity "beta alpha" (row_content Demo.alpha_beta))%Q
  /\ row_context Demo.alpha_beta = "c"
  /\ option_map (fun d => map row_content (memories d)) (db Demo.alpha_world)
     = Some ["alpha beta"]
  /\ option_map (fun d => map row_content (memories d))
       (db (snd (addMemory Demo.env Demo.storage (Demo.new_memory "beta alpha" 3)
                   Demo.alpha_world)))
     = Some ["alpha beta"; "beta alpha"]
  /\ ~ (forall d d',
          db Demo.alpha_world = Some d ->
          db (snd (addMemory Demo.env Demo.storage (Demo.new_memory "beta alpha" 3)
                     Demo.alpha_world)) = Some d' ->
          length (memories d') <= length (memories d)).
Proof.
  split; [discriminate|].
  split; [vm_compute; reflexivity|].
  split; [reflexivity|].
  split; [reflexivity|].
  split; [vm_compute; reflexivity|].
  intros H. specialize (H _ _ eq_refl eq_refl). vm_compute in H. lia.
Qed.

Section Dedup.

Variable E : Env.
Variable config : StorageConfig.
Variable memoryData : MemoryData.
Variable w : World.
Variable d : Database.
Variable candidate : MemoryRow.

Let content := md_content memoryData.
Let context := default "general" (md_context memoryData).

Hypothesis Hdb : db w = Some d.
Hypothesis Hopen : is_open d = true.
Hypothesis Hdedup : deduplication_enabled config.
Hypothesis Hfound :
  find (fun memory =>
          Qgtb (calculateTextSimilarity content (row_content memory))
               default_dedup_threshold)
       (similar_candidates content context d) = Some candidate.

(** The statement [updateMemory] sends on the merge path assigns to
    [updatedAt]; the table has [updated_at], and SQLite refuses the
    statement.  [addMemory] throws with the database untouched. *)
Lemma addMemory_merge_is_refused :
  exists w',
    addMemory E config memoryData w
    = (Throw (SqliteError "SQLITE_ERROR: no such column: updatedAt"), w')
    /\ db w' = Some d.
Proof using Hdb Hopen Hdedup Hfound.
  unfold addMemory.
  step_ok (require_db_ready w d Hdb).
  unfold bind at 1. unfold generateId, bind at 1, next_tick, ret.
  assert (Hflag : negb match deduplication config with
                       | Some false => true | _ => false end = true).
  { unfold deduplication_enabled in Hdedup.
    destruct (deduplication config) as [[|]|]; try reflexivity. now elim Hdedup. }
  rewrite Hflag.
  unfold bind at 1. unfold findSimilarMemory, bind at 1, db_all.
  cbn [db tick]. rewrite Hdb, Hopen. unfold ret at 1.
  fold content context. rewrite Hfound. cbn [option_map].
  unfold bind at 1. unfold newDateISO, bind at 1, next_tick, ret.
  unfold bind at 1. unfold updateMemory, bind at 1, CURRENT_TIMESTAMP.
  unfold bind at 1. unfold db_run. cbn [db tick]. rewrite Hopen.
  eexists. split; [reflexivity | reflexivity].
Qed.

End Dedup.

(** C1 (amended).  With deduplication enabled, when the lookup of
    [addMemory] finds a candidate (one of the five most recently created
    rows of the same context whose content contains the first 50 characters
    of the new content, with a score above 0.9), no row is inserted: the
    table holds the same identifiers, in the same number, as before. *)
Theorem C1_found_duplicate_adds_no_row
        (E : Env) (config : StorageConfig) (memoryData : MemoryData)
        (w : World) (d : Database) (candidate : MemoryRow) :
  db w = Some d -> is_open d = true ->
  deduplication_enabled config ->
  find (fun memory =>
          Qgtb (calculateTextSimilarity (md_content memoryData) (row_content memory))
               default_dedup_threshold)
       (similar_candidates (md_content memoryData)
          (default "general" (md_context memoryData)) d) = Some candidate ->
  exists outcome w' d',
    addMemory E config memoryData w = (outcome, w')
    /\ db w' = Some d'
    /\ map row_id (memories d') = map row_id (memories d)
    /\ length (memories d') = length (memories d).
Proof.
  intros Hdb Hopen Hdedup Hfound.
  destruct (addMemory_merge_is_refused E config memoryData w d candidate
              Hdb Hopen Hdedup Hfound) as [w' [Hrun Hdb']].
  exists (Throw (SqliteError "SQLITE_ERROR: no such column: updatedAt")), w', d.
  auto.
Qed.

Lemma C1_found_duplicate_adds_no_row_witness :
  (db Demo.alpha_world
   = Some {| memories := [Demo.alpha_beta]; todos := [];
             transaction := None; is_open := true |}
   /\ deduplication_enabled Demo.storage)
  /\ exists outcome w' d',
       addMemory Demo.env Demo.storage (Demo.new_memory "alpha beta" 9)
         Demo.alpha_world = (outcome, w')
       /\ db w' = Some d'
       /\ map row_id (memories d') = ["m0"]
       /\ length (memories d') = 1.
Proof.
  assert (Hd : deduplication_enabled Demo.storage) by discriminate.
  split; [split; [reflexivity | exact Hd]|].
  exact (C1_found_duplicate_adds_no_row Demo.env Demo.storage
           (Demo.new_memory "alpha beta" 9) Demo.alpha_world _ Demo.alpha_beta
           eq_refl eq_refl Hd eq_refl).
Defined.

Example dedup_lookup_finds_the_same_text :
  fst (findSimilarMemory "alpha beta" "c" default_dedup_threshold Demo.alpha_world)
  = Ok (Some (storedOfRow Demo.alpha_beta))
  /\ fst (findSimilarMemory "beta alpha" "c" default_dedup_threshold Demo.alpha_world)
     = Ok None
  /\ fst (findSimilarMemory "alpha beta" "other" default_dedup_threshold Demo.alpha_world)
     = Ok None.
Proof. repeat split; vm_compute; reflexivity. Qed.

(** ** Importance and context of stored rows *)

(** C4.  Nothing on the way from [add_memory] or [updateMemoryBank] to the
    table clamps the importance: [validateMemoryData] rejects 42 but no
    handler calls it, and both transports store the row with importance 42;
    [updateMemoryBank] stores 100; [addMemory] stores an empty context as
    it is given. *)
Theorem C4_importance_is_stored_unclamped :
  isValid (validateMemoryData (Some "x") (Some 42%Z)) = false
  /\ option_map (fun d => map (fun r => (row_content r, row_context r, row_importance r))
                              (memories d))
       (db (snd (Index.callTool
                   (Index.createToolHandlers Demo.env Demo.config Demo.others)
                   "add_memory"
                   (Some [("content", JStr "x"); ("importance", JNum 42)])
                   Demo.ready_world)))
     = Some [("x", "general", 42%Z)]
  /\ option_map (fun d => map (fun r => (row_content r, row_context r, row_importance r))
                              (memories d))
       (db (snd (HttpServer.post_mcp
                   (HttpServer.createToolHandlers Demo.env Demo.config Demo.others)
                   (tools_call "add_memory"
                      (Some [("content", JStr "x"); ("importance", JNum 42)]))
                   Demo.ready_world)))
     = Some [("x", "general", 42%Z)]
  /\ option_map (fun d => map (fun r => (row_content r, row_context r, row_importance r))
                              (memories d))
       (db (snd (updateMemoryBank Demo.env "alpha" (Some "notes") Demo.good_batch
                   Demo.ready_world)))
     = Some [("first", "notes", 100%Z); ("second", "notes", 5%Z)]
  /\ option_map (fun d => map (fun r => (row_content r, row_context r, row_importance r))
                              (memories d))
       (db (snd (addMemory Demo.env Demo.storage
                   {| md_content := "x"; md_originalContent := None;
                      md_context := Some ""; md_importance := Some (-3)%Z;
                      md_timestamp := "2026-01-02T00:00:00.000Z";
                      md_source := Some auto_extracted;
                      md_project := None; md_category := None; md_tags := None |}
                   Demo.ready_world)))
     = Some [("x", "", (-3)%Z)].
Proof. repeat split; vm_compute; reflexivity. Qed.

(** ** The two transports *)


Section SameAddMemory.

Variable E : Env.
Variable config : Config.

Hypothesis no_repository : isGitRepo (detectRepositoryInfo E) = false.
Hypothesis no_repoName : repoName (detectRepositoryInfo E) = None.



End SameAddMemory.



Example add_memory_envelopes_on_demo :
  fst (Index.callTool (Index.createToolHandlers Demo.env Demo.config Demo.others)
         "add_memory" (Some [("content", JStr "Use PostgreSQL")]) Demo.ready_world)
  = Ok (text_result ("Memory stored successfully with ID: id1" ++ nl
                     ++ "Content: Use PostgreSQL"))
  /\ fst (HttpServer.post_mcp
            (HttpServer.createToolHandlers Demo.env Demo.config Demo.others)
            (tools_call "add_memory" (Some [("content", JStr "Use PostgreSQL")]))
            Demo.ready_world)
     = {| status := 200;
          body := Content (text_result ("Memory stored successfully with ID: id1" ++ nl
                                        ++ "Content: Use PostgreSQL")) |}.
Proof. split; vm_compute; reflexivity. Qed.

(* ------------------------------------------------------------------ *)
(** * Further properties *)

(** ** Lists, sorting and counting *)

Section ListFacts.

Lemma insert_sorted_perm {A} (before : A -> A -> bool) (x : A) (l : list A) :
  Permutation (x :: l) (insert_sorted before x l).
Proof.
  induction l as [|y l IH]; simpl; [reflexivity|].
  destruct (before y x); [|reflexivity].
  rewrite perm_swap. now constructor.
Qed.

Lemma stable_sort_perm {A} (before : A -> A -> bool) (l : list A) :
  Permutation l (stable_sort before l).
Proof.
  induction l as [|a l IH]; simpl; [constructor|].
  rewrite <- insert_sorted_perm. now constructor.
Qed.

Lemma limit_length {A} (n : Z) (l : list A) :
  (0 <= n)%Z -> length (Sql.limit n l) <= Z.to_nat n.
Proof.
  intros Hn. unfold Sql.limit.
  destruct (Z.ltb_spec n 0); [lia|]. rewrite length_firstn. lia.
Qed.

Lemma limit_length_le {A} (n : Z) (l : list A) :
  length (Sql.limit n l) <= length l.
Proof.
  unfold Sql.limit. destruct (n <? 0)%Z; [lia|]. rewrite length_firstn. lia.
Qed.

Lemma In_distinct (x : string) (l : list string) : In x (distinct l) <-> In x l.
Proof.
  induction l as [|a l IH]; simpl; [reflexivity|].
  rewrite filter_In, IH. split.
  - intros [H|[H _]]; auto.
  - intros [H|H]; [now left|].
    destruct (String.eqb_spec a x) as [->|Hne]; [now left|].
    right. split; [exact H | reflexivity].
Qed.

Lemma NoDup_filter {A} (f : A -> bool) (l : list A) : NoDup l -> NoDup (filter f l).
Proof.
  induction 1 as [|a l Ha Hl IH]; simpl; [constructor|].
  destruct (f a); [|exact IH]. constructor; [|exact IH].
  intros H. apply filter_In in H. now apply Ha.
Qed.

Lemma NoDup_distinct (l : list string) : NoDup (distinct l).
Proof.
  induction l as [|a l IH]; simpl; constructor.
  - intros H. apply filter_In in H. destruct H as [_ H].
    now rewrite String.eqb_refl in H.
  - now apply NoDup_filter.
Qed.

Lemma In_somes {A B} (f : A -> option B) (l : list A) (b : B) :
  In b (somes (map f l)) <-> exists a, In a l /\ f a = Some b.
Proof.
  induction l as [|a l IH]; simpl.
  - split; [tauto | intros [a [[] _]]].
  - destruct (f a) as [b'|] eqn:Hfa; simpl; rewrite IH; split.
    + intros [Hb|[a' [Ha' Hf]]].
      * exists a. subst b'. auto.
      * exists a'. auto.
    + intros [a' [[Ha'|Ha'] Hf]].
      * left. subst a'. rewrite Hfa in Hf. now inversion Hf.
      * right. now exists a'.
    + intros [a' [Ha' Hf]]. exists a'. auto.
    + intros [a' [[Ha'|Ha'] Hf]].
      * subst a'. rewrite Hfa in Hf. discriminate Hf.
      * now exists a'.
Qed.

(** Sorting by a key that compares with [String.compare]. *)
Lemma text_gt_asym (a b : string) : Sql.text_gt a b = true -> Sql.text_gt b a = false.
Proof.
  unfold Sql.text_gt. rewrite (String.compare_antisym a b).
  destruct (String.compare b a); simpl; congruence.
Qed.

Lemma insert_sorted_Sorted {A} (before : A -> A -> bool) (R : A -> A -> Prop) :
  (forall a b, before a b = true -> R a b) ->
  (forall a b, before a b = false -> R b a) ->
  forall x l, Sorted R l -> Sorted R (insert_sorted before x l).
Proof.
  intros Hsound Htotal x l Hl.
  induction Hl as [|y l Hl IH Hy]; simpl.
  - repeat constructor.
  - destruct (before y x) eqn:Hyx.
    + constructor; [exact IH|].
      destruct l as [|z l]; simpl.
      * constructor. now apply Hsound.
      * destruct (before z x); constructor.
        -- now inversion Hy.
        -- now apply Hsound.
    + constructor; [now constructor|]. constructor. now apply Htotal.
Qed.

Lemma stable_sort_Sorted {A} (before : A -> A -> bool) (R : A -> A -> Prop) :
  (forall a b, before a b = true -> R a b) ->
  (forall a b, before a b = false -> R b a) ->
  forall l, Sorted R (stable_sort before l).
Proof.
  intros Hsound Htotal l.
  induction l as [|a l IH]; simpl; [constructor|].
  now apply insert_sorted_Sorted.
Qed.

Lemma firstn_Sorted {A} (R : A -> A -> Prop) : forall n l,
  Sorted R l -> Sorted R (firstn n l).
Proof.
  induction n as [|n IH]; intros l Hl; simpl; [constructor|].
  destruct Hl as [|a l Hl Ha]; [constructor|].
  constructor; [now apply IH|].
  destruct Ha as [|b l Hab]; [destruct n; constructor|].
  destruct n; constructor. exact Hab.
Qed.

Lemma limit_Sorted {A} (R : A -> A -> Prop) (n : Z) (l : list A) :
  Sorted R l -> Sorted R (Sql.limit n l).
Proof.
  intros H. unfold Sql.limit. destruct (n <? 0)%Z; [exact H|].
  now apply firstn_Sorted.
Qed.

Lemma created_desc_sorted (l : list MemoryRow) :
  Sorted newest_first (Sql.order_by created_desc l).
Proof.
  apply stable_sort_Sorted; unfold newest_first, created_desc.
  - intros a b. apply text_gt_asym.
  - trivial.
Qed.

End ListFacts.

(** ** What the store operations change *)

Section StoreEffects.

Variable E : Env.
Variable config : StorageConfig.

Lemma generateId_run (w : World) :
  generateId E w = (Ok (idOracle E (tick w)), {| db := db w; tick := S (tick w) |}).
Proof. reflexivity. Qed.

Lemma newDateISO_run (w : World) :
  newDateISO E w = (Ok (isoClock E (tick w)), {| db := db w; tick := S (tick w) |}).
Proof. reflexivity. Qed.

Lemma CURRENT_TIMESTAMP_run (w : World) :
  CURRENT_TIMESTAMP E w = (Ok (sqlClock E (tick w)), w).
Proof. reflexivity. Qed.

Lemma db_run_effect stmt (w : World) (d : Database) :
  db w = Some d ->
  (exists d' n, stmt d = Ok (d', n) /\ is_open d = true
                /\ db_run stmt w = (Ok n, {| db := Some d'; tick := tick w |}))
  \/ (exists e, db_run stmt w = (Throw e, w)).
Proof.
  intros Hdb. unfold db_run. rewrite Hdb.
  destruct (is_open d); [|right; eauto].
  destruct (stmt d) as [[d' n]|e]; [left; eauto 10 | right; eauto].
Qed.

Lemma updateMemory_merge_throws (id content : string) (importance : Z)
      (updatedAt : string) (w : World) :
  exists e,
    updateMemory E id [("content", SqlText content);
                       ("importance", SqlInt importance);
                       ("updatedAt", SqlText updatedAt)] w = (Throw e, w).
Proof.
  unfold updateMemory.
  rewrite (bind_ok _ _ _ _ _ (CURRENT_TIMESTAMP_run w)).
  unfold bind, db_run.
  destruct (db w) as [d|]; [|eauto].
  destruct (is_open d); [|eauto].
  cbn. eauto.
Qed.

(** [addMemory] on a store with a handle either throws and leaves the
    database as it was, or appends one row. *)
Lemma addMemory_outcome (memoryData : MemoryData) (w : World) (d : Database) :
  db w = Some d ->
  exists outcome w',
    addMemory E config memoryData w = (outcome, w')
    /\ match outcome with
       | Throw _ => db w' = Some d
       | Ok m =>
           exists r,
             w' = {| db := Some {| memories := (memories d ++ [r])%list;
                                   todos := todos d;
                                   transaction := transaction d;
                                   is_open := true |};
                     tick := S (S (tick w)) |}
             /\ is_open d = true
             /\ sm_id m = idOracle E (tick w)
             /\ inserted_row memoryData (sm_id m) r
       end.
Proof.
  intros Hdb. unfold addMemory.
  rewrite (bind_ok _ _ _ _ _ (require_db_ready w d Hdb)).
  rewrite (bind_ok _ _ _ _ _ (generateId_run w)).
  cbv zeta.
  set (w1 := {| db := db w; tick := S (tick w) |}).
  assert (Hdb1 : db w1 = Some d) by exact Hdb.
  match goal with
  | |- context [if ?c then ?a else ?b] => set (insert_new := b)
  end.
  assert (Hins :
    exists outcome w',
      insert_new w1 = (outcome, w')
      /\ match outcome with
         | Throw _ => db w' = Some d
         | Ok m =>
             exists r,
               w' = {| db := Some {| memories := (memories d ++ [r])%list;
                                     todos := todos d;
                                     transaction := transaction d;
                                     is_open := true |};
                       tick := S (S (tick w)) |}
               /\ is_open d = true
               /\ sm_id m = idOracle E (tick w)
               /\ inserted_row memoryData (sm_id m) r
         end).
  { unfold insert_new.
    rewrite (bind_ok _ _ _ _ _ (newDateISO_run w1)).
    rewrite (bind_ok _ _ _ _ _ (CURRENT_TIMESTAMP_run _)).
    match goal with
    | |- context [bind (db_run ?stmt) _ ?w3] =>
        destruct (db_run_effect stmt w3 d Hdb1) as [[d' [k [Hs [Ho Hrun]]]]|[e Hrun]];
        [rewrite (bind_ok _ _ _ _ _ Hrun) | rewrite (bind_throw _ _ _ _ _ Hrun)]
    end.
    - unfold insert_memory_stmt in Hs. cbn [row_id] in Hs.
      destruct (existsb _ (memories d)); [discriminate Hs|].
      rewrite Ho in Hs. inversion Hs; subst d' k.
      do 2 eexists. split; [reflexivity|]. cbn.
      eexists. split; [reflexivity|]. split; [exact Ho|].
      split; [reflexivity|]. unfold inserted_row; cbn. auto 10.
    - do 2 eexists. split; [reflexivity|]. exact Hdb1. }
  destruct (negb _); [|exact Hins].
  unfold findSimilarMemory.
  unfold bind at 1. unfold bind at 1. unfold db_all. rewrite Hdb1.
  destruct (is_open d) eqn:Hopen.
  2:{ do 2 eexists. split; [reflexivity|]. exact Hdb1. }
  unfold ret at 1.
  destruct (find _ _) as [candidate|]; cbn [option_map]; [|exact Hins].
  rewrite (bind_ok _ _ _ _ _ (newDateISO_run w1)).
  match goal with
  | |- context [bind (updateMemory E ?id [(_, SqlText ?c); (_, SqlInt ?i);
                                           (_, SqlText ?u)]) _ ?w2] =>
      destruct (updateMemory_merge_throws id c i u w2) as [e Hupd]
  end.
  rewrite (bind_throw _ _ _ _ _ Hupd).
  do 2 eexists. split; [reflexivity|]. exact Hdb.
Qed.

End StoreEffects.

Section StoreRoundTrips.

Variable E : Env.
Variable config : StorageConfig.

Lemma find_app_fresh {A} (f : A -> bool) (l : list A) (a : A) :
  (forall x, In x l -> f x = false) -> f a = true -> find f (l ++ [a])%list = Some a.
Proof.
  intros Hl Ha. induction l as [|x l IH]; simpl.
  - now rewrite Ha.
  - rewrite (Hl x (or_introl eq_refl)). apply IH. intros y Hy. apply Hl. now right.
Qed.

Lemma find_filter_other {A} (f g : A -> bool) (l : list A) :
  (forall x, f x = true -> g x = true) ->
  find f (filter g l) = find f l.
Proof.
  intros H. induction l as [|x l IH]; simpl; [reflexivity|].
  destruct (g x) eqn:Hg; simpl.
  - destruct (f x); [reflexivity | exact IH].
  - destruct (f x) eqn:Hf; [|exact IH]. rewrite (H x Hf) in Hg. discriminate Hg.
Qed.

Lemma existsb_absent {A} (f : A -> bool) (l : list A) :
  (forall x, In x l -> f x = false) -> existsb f l = false.
Proof.
  induction l as [|x l IH]; intros H; simpl; [reflexivity|].
  rewrite (H x (or_introl eq_refl)). apply IH. intros y Hy. apply H. now right.
Qed.

Lemma getMemoryById_run (w : World) (d : Database) (id : string) :
  db w = Some d -> is_open d = true ->
  getMemoryById id w
  = (Ok (option_map storedOfRow
           (find (fun r => String.eqb (row_id r) id) (memories d))), w).
Proof.
  intros Hdb Hopen. unfold getMemoryById.
  step_ok (require_db_ready w d Hdb).
  step_ok (db_all_ready
             (fun d0 => find (fun r => String.eqb (row_id r) id) (memories d0))
             w d Hdb Hopen).
  reflexivity.
Qed.

(** What [addMemory] does when it takes the insert path. *)
Lemma addMemory_inserts (memoryData : MemoryData) (w : World) (d : Database) :
  db w = Some d -> is_open d = true ->
  no_duplicate_found config memoryData d ->
  (forall r, In r (memories d) -> row_id r <> idOracle E (tick w)) ->
  addMemory E config memoryData w
  = (Ok {| sm_id := idOracle E (tick w);
           sm_content := md_content memoryData;
           sm_originalContent := md_originalContent memoryData;
           sm_context := default "general" (md_context memoryData);
           sm_importance := default 5%Z (md_importance memoryData);
           sm_timestamp := md_timestamp memoryData;
           sm_source := default manual (md_source memoryData);
           sm_project := md_project memoryData;
           sm_category := md_category memoryData;
           sm_tags := option_map (fun l => JArr (map JStr l)) (md_tags memoryData);
           sm_createdAt := isoClock E (S (tick w));
           sm_updatedAt := isoClock E (S (tick w)) |},
     {| db := Some
          {| memories :=
               (memories d ++
                [ {| row_id := idOracle E (tick w);
                     row_content := md_content memoryData;
                     row_original_content := md_originalContent memoryData;
                     row_context := default "general" (md_context memoryData);
                     row_importance := default 5%Z (md_importance memoryData);
                     row_timestamp := md_timestamp memoryData;
                     row_source := default manual (md_source memoryData);
                     row_project := md_project memoryData;
                     row_category := md_category memoryData;
                     row_tags := option_map (JSON_stringify E) (md_tags memoryData);
                     row_embedding := None;
                     row_created_at := sqlClock E (S (S (tick w)));
                     row_updated_at := sqlClock E (S (S (tick w))) |} ])%list;
             todos := todos d;
             transaction := transaction d;
             is_open := true |};
        tick := S (S (tick w)) |}).
Proof.
  intros Hdb Hopen Hnodup Hfresh. unfold addMemory.
  step_ok (require_db_ready w d Hdb).
  step_ok (generateId_run E w).
  cbv zeta.
  set (w1 := {| db := db w; tick := S (tick w) |}).
  assert (Hdb1 : db w1 = Some d) by exact Hdb.
  match goal with
  | |- context [if ?c then ?a else ?b] => set (insert_new := b)
  end.
  match goal with
  | |- _ = ?rhs => assert (Hins : insert_new w1 = rhs)
  end.
  { unfold insert_new.
    step_ok (newDateISO_run E w1).
    step_ok (CURRENT_TIMESTAMP_run E {| db := db w1; tick := S (tick w1) |}).
    match goal with
    | |- context [bind (db_run (insert_memory_stmt ?row)) _ ?w3] =>
        assert (Hstmt : insert_memory_stmt row d
                        = Ok ({| memories := (memories d ++ [row])%list;
                                 todos := todos d;
                                 transaction := transaction d;
                                 is_open := true |}, 1));
        [|step_ok (db_run_ready _ w3 d _ _ Hdb1 Hopen Hstmt)]
    end.
    - unfold insert_memory_stmt. cbn [row_id].
      rewrite existsb_absent, Hopen; [reflexivity|].
      intros r Hr. apply eqb_absent. now apply Hfresh.
    - reflexivity. }
  destruct (negb _) eqn:Hflag; [|exact Hins].
  destruct Hnodup as [Hoff|Hnone]; [now rewrite Hoff in Hflag|].
  unfold findSimilarMemory.
  unfold bind at 1.
  rewrite (bind_ok _ _ _ _ _ (db_all_ready _ w1 d Hdb1 Hopen)).
  unfold ret at 1. rewrite Hnone. cbn [option_map]. exact Hins.
Qed.

End StoreRoundTrips.

Section StoreMemories.

Variable E : Env.
Variable config : StorageConfig.

(** X1. On a store with a database handle, [addMemory] either throws and
    leaves the database exactly as it was, or returns a memory and has
    appended exactly one row, the row of that memory: no other row of
    [memories] and no todo changes, and the transaction state stays. *)
Theorem X1_addMemory_appends_one_row_or_changes_nothing
        (memoryData : MemoryData) (w : World) (d : Database) :
  db w = Some d ->
  exists outcome w',
    addMemory E config memoryData w = (outcome, w')
    /\ match outcome with
       | Throw _ => db w' = Some d
       | Ok m =>
           exists r,
             db w' = Some {| memories := (memories d ++ [r])%list;
                             todos := todos d;
                             transaction := transaction d;
                             is_open := is_open d |}
             /\ inserted_row memoryData (sm_id m) r
       end.
Proof.
  intros Hdb.
  destruct (addMemory_outcome E config memoryData w d Hdb)
    as [outcome [w' [Hrun Hout]]].
  exists outcome, w'. split; [exact Hrun|].
  destruct outcome as [m|e]; [|exact Hout].
  destruct Hout as [r [-> [Hopen [_ Hrow]]]].
  exists r. rewrite Hopen. split; [reflexivity | exact Hrow].
Qed.

(** X2. On an open store, when the lookup for duplicates is switched off or
    finds nothing and no row carries the generated identifier, [addMemory]
    succeeds: it returns the memory under the generated identifier with the
    content given and the defaults [general], 5 and [manual] for what is
    missing, and appends one row.  [getMemoryById] then returns a memory
    with the same identifier, content, context, importance, source, project
    and category; its tags are the JSON text of the tags, not the list, its
    [createdAt] is the [timestamp] given, and it has no [originalContent]. *)
Theorem X2_addMemory_then_getMemoryById
        (memoryData : MemoryData) (w : World) (d : Database) :
  db w = Some d -> is_open d = true ->
  no_duplicate_found config memoryData d ->
  (forall r, In r (memories d) -> row_id r <> idOracle E (tick w)) ->
  exists m w' r stored,
    addMemory E config memoryData w = (Ok m, w')
    /\ sm_id m = idOracle E (tick w)
    /\ sm_content m = md_content memoryData
    /\ sm_context m = default "general" (md_context memoryData)
    /\ sm_importance m = default 5%Z (md_importance memoryData)
    /\ sm_source m = default manual (md_source memoryData)
    /\ db w' = Some {| memories := (memories d ++ [r])%list; todos := todos d;
                       transaction := transaction d; is_open := true |}
    /\ inserted_row memoryData (sm_id m) r
    /\ getMemoryById (sm_id m) w' = (Ok (Some stored), w')
    /\ sm_id stored = sm_id m
    /\ sm_content stored = sm_content m
    /\ sm_context stored = sm_context m
    /\ sm_importance stored = sm_importance m
    /\ sm_source stored = sm_source m
    /\ sm_project stored = sm_project m
    /\ sm_category stored = sm_category m
    /\ sm_tags stored
       = option_map (fun tags => JStr (JSON_stringify E tags)) (md_tags memoryData)
    /\ sm_createdAt stored = md_timestamp memoryData
    /\ sm_originalContent stored = None.
Proof.
  intros Hdb Hopen Hnodup Hfresh.
  pose proof (addMemory_inserts E config memoryData w d Hdb Hopen Hnodup Hfresh)
    as Hrun.
  do 4 eexists. split; [exact Hrun|].
  do 5 (split; [reflexivity|]).
  split; [reflexivity|].
  split; [unfold inserted_row; cbn; auto 10|].
  split.
  - match goal with
    | |- getMemoryById ?i {| db := Some ?d1; tick := ?n |} = _ =>
        rewrite (getMemoryById_run {| db := Some d1; tick := n |} d1 i
                   eq_refl eq_refl)
    end.
    cbn [memories sm_id].
    rewrite find_app_fresh; [reflexivity | |].
    + intros x Hx'. apply eqb_absent. now apply Hfresh.
    + apply String.eqb_refl.
  - cbn. do 7 (split; [reflexivity|]).
    split; [now destruct (md_tags memoryData)|]. split; reflexivity.
Qed.

Lemma filter_split_length {A} (f : A -> bool) (l : list A) :
  length (filter f l) + length (filter (fun x => negb (f x)) l) = length l.
Proof.
  induction l as [|x l IH]; simpl; [reflexivity|].
  destruct (f x); simpl; lia.
Qed.

Lemma filter_positive {A} (f : A -> bool) (l : list A) :
  (0 <? length (filter f l)) = existsb f l.
Proof.
  induction l as [|x l IH]; simpl; [reflexivity|].
  destruct (f x); simpl; [reflexivity | exact IH].
Qed.

Lemma find_filter_none {A} (f g : A -> bool) (l : list A) :
  (forall x, f x = true -> g x = false) -> find f (filter g l) = None.
Proof.
  intros H. apply find_absent. intros a Ha. apply filter_In in Ha.
  destruct Ha as [_ Hg]. destruct (f a) eqn:Hf; [|reflexivity].
  rewrite (H a Hf) in Hg. discriminate Hg.
Qed.

(** [deleteMemory] on an open store, in full. *)
Lemma deleteMemory_run (id : string) (w : World) (d : Database) :
  db w = Some d -> is_open d = true ->
  deleteMemory id w
  = (Ok (existsb (fun r => String.eqb (row_id r) id) (memories d)),
     {| db := Some {| memories := filter (fun r => negb (String.eqb (row_id r) id))
                                         (memories d);
                      todos := todos d;
                      transaction := transaction d;
                      is_open := true |};
        tick := tick w |}).
Proof.
  intros Hdb Hopen. unfold deleteMemory.
  step_ok (require_db_ready w d Hdb).
  step_ok (db_run_ready (delete_memory_stmt id) w d _ _ Hdb Hopen eq_refl).
  unfold ret. rewrite Hopen. f_equal. f_equal.
  rewrite <- (filter_positive (fun r => String.eqb (row_id r) id) (memories d)).
  pose proof (filter_split_length (fun r => String.eqb (row_id r) id) (memories d)).
  f_equal. lia.
Qed.

(** X3. On an open store [deleteMemory] returns whether a row carried the
    identifier.  Afterwards [getMemoryById] finds nothing under that
    identifier and what it finds under every other identifier is unchanged;
    the rows that stay keep their order, the todos and the transaction
    state are untouched. *)
Theorem X3_deleteMemory_removes_the_rows_of_the_id
        (id : string) (w : World) (d : Database) :
  db w = Some d -> is_open d = true ->
  exists w',
    deleteMemory id w
    = (Ok (existsb (fun r => String.eqb (row_id r) id) (memories d)), w')
    /\ db w' = Some {| memories := filter (fun r => negb (String.eqb (row_id r) id))
                                          (memories d);
                       todos := todos d;
                       transaction := transaction d;
                       is_open := true |}
    /\ getMemoryById id w' = (Ok None, w')
    /\ (forall id', id' <> id ->
          fst (getMemoryById id' w') = fst (getMemoryById id' w)).
Proof.
  intros Hdb Hopen. eexists. split; [apply (deleteMemory_run id w d Hdb Hopen)|].
  split; [reflexivity|]. split.
  - match goal with
    | |- getMemoryById _ {| db := Some ?d1; tick := ?n |} = _ =>
        rewrite (getMemoryById_run {| db := Some d1; tick := n |} d1 id
                   eq_refl eq_refl)
    end. cbn [memories].
    rewrite find_filter_none; [reflexivity|].
    intros x Hx. now rewrite Hx.
  - intros id' Hne.
    match goal with
    | |- context [getMemoryById _ {| db := Some ?d1; tick := ?n |}] =>
        rewrite (getMemoryById_run {| db := Some d1; tick := n |} d1 id'
                   eq_refl eq_refl)
    end.
    rewrite (getMemoryById_run w d id' Hdb Hopen). cbn [memories fst].
    rewrite find_filter_other; [reflexivity|].
    intros x Hx. apply String.eqb_eq in Hx.
    destruct (String.eqb_spec (row_id x) id) as [Heq|_]; [|reflexivity].
    exfalso. apply Hne. now rewrite <- Hx, Heq.
Qed.

(** X4. On an open store [getMemories] changes nothing and returns rows of
    the table that pass the context filter and the [since] filter, newest
    first by [created_at], at most [limit] of them (10 when no limit is
    given) and all of them when fewer rows pass. *)
Theorem X4_getMemories_filtered_newest_first_bounded
        (options : GetMemoriesOptions) (w : World) (d : Database) :
  db w = Some d -> is_open d = true ->
  exists rows,
    getMemories E options w = (Ok (map storedOfRow rows), w)
    /\ Sorted newest_first rows
    /\ (forall r, In r rows ->
          In r (memories d)
          /\ context_filter (go_context options) r = true
          /\ since_filter E (go_since options) r = true)
    /\ ((0 <= default 10%Z (go_limit options))%Z ->
        length rows <= Z.to_nat (default 10%Z (go_limit options)))
    /\ (length (filter (fun r => context_filter (go_context options) r
                                 && since_filter E (go_since options) r)
                       (memories d))
        <= Z.to_nat (default 10%Z (go_limit options)) ->
        forall r, In r (memories d) ->
                  context_filter (go_context options) r = true ->
                  since_filter E (go_since options) r = true ->
                  In r rows).
Proof.
  intros Hdb Hopen. unfold getMemories.
  step_ok (require_db_ready w d Hdb). cbv zeta.
  match goal with
  | |- context [db_all ?q] => step_ok (db_all_ready q w d Hdb Hopen)
  end.
  eexists. split; [reflexivity|].
  split; [apply limit_Sorted, created_desc_sorted|].
  split; [|split].
  - intros r Hr. apply In_limit in Hr. apply In_stable_sort in Hr.
    apply filter_In in Hr. destruct Hr as [Hin Hf].
    apply andb_true_iff in Hf. tauto.
  - intros Hpos. now apply limit_length.
  - intros Hfew r Hin Hc Hs.
    assert (Hall : In r (Sql.order_by created_desc
                           (filter (fun r => context_filter (go_context options) r
                                             && since_filter E (go_since options) r)
                                   (memories d)))).
    { apply In_stable_sort. apply filter_In. split; [exact Hin|].
      now rewrite Hc, Hs. }
    unfold Sql.limit. destruct (_ <? 0)%Z; [exact Hall|].
    rewrite firstn_all2; [exact Hall|].
    unfold Sql.order_by. now rewrite stable_sort_length.
Qed.

(** X5. On an open store [searchMemories] changes nothing and returns at
    most [limit] memories, 5 when no limit is given, and never more than
    the table holds. *)
Theorem X5_searchMemories_returns_at_most_limit
        (query : string) (options : SearchOptions) (w : World) (d : Database) :
  db w = Some d -> is_open d = true ->
  exists results,
    searchMemories query options w = (Ok results, w)
    /\ length results <= length (memories d)
    /\ ((0 <= default 5%Z (so_limit options))%Z ->
        length results <= Z.to_nat (default 5%Z (so_limit options))).
Proof.
  intros Hdb Hopen. unfold searchMemories.
  step_ok (require_db_ready w d Hdb). cbv zeta.
  match goal with
  | |- context [db_all ?q] => step_ok (db_all_ready q w d Hdb Hopen)
  end.
  eexists. split; [reflexivity|].
  rewrite stable_sort_length.
  match goal with
  | |- context [filter ?f (map ?g ?l)] =>
      pose proof (filter_length_le f (map g l)) as Hle
  end.
  rewrite length_map in Hle.
  split.
  - etransitivity; [exact Hle|]. unfold search_candidates.
    etransitivity; [apply limit_length_le|].
    unfold Sql.order_by. rewrite stable_sort_length. apply filter_length_le.
  - intros Hpos. etransitivity; [exact Hle|].
    unfold search_candidates. now apply limit_length.
Qed.

End StoreMemories.

Lemma X1_witness :
  exists outcome w',
    addMemory Demo.env Sample.plain_storage Sample.memoryData Sample.world
    = (outcome, w')
    /\ match outcome with
       | Throw _ => db w' = Some Sample.database
       | Ok m =>
           exists r,
             db w' = Some {| memories := (memories Sample.database ++ [r])%list;
                             todos := todos Sample.database;
                             transaction := transaction Sample.database;
                             is_open := is_open Sample.database |}
             /\ inserted_row Sample.memoryData (sm_id m) r
       end.
Proof.
  exact (X1_addMemory_appends_one_row_or_changes_nothing
           Demo.env Sample.plain_storage Sample.memoryData
           Sample.world Sample.database eq_refl).
Defined.

Lemma X2_witness :
  exists m w' stored,
    addMemory Demo.env Sample.plain_storage Sample.memoryData Sample.world
    = (Ok m, w')
    /\ sm_id m = idOracle Demo.env 7
    /\ getMemoryById (sm_id m) w' = (Ok (Some stored), w')
    /\ sm_content stored = "Use PostgreSQL"
    /\ sm_importance stored = 9%Z.
Proof.
  destruct (X2_addMemory_then_getMemoryById
              Demo.env Sample.plain_storage Sample.memoryData
              Sample.world Sample.database eq_refl eq_refl)
    as [m [w' [r [stored H]]]].
  - left. reflexivity.
  - intros r Hr. simpl in Hr.
    destruct Hr as [<-|[<-|[<-|[]]]]; vm_compute; discriminate.
  - destruct H as [Hrun [Hid [Hc [_ [Hi [_ [_ [_ [Hget [_ [Hsc [_ [Hsi _]]]]]]]]]]]]].
    exists m, w', stored. split; [exact Hrun|]. split; [exact Hid|].
    split; [exact Hget|]. split.
    + rewrite Hsc, Hc. reflexivity.
    + rewrite Hsi, Hi. reflexivity.
Defined.

Lemma X3_witness :
  exists w',
    deleteMemory "a2" Sample.world
    = (Ok (existsb (fun r => String.eqb (row_id r) "a2") (memories Sample.database)),
       w')
    /\ db w' = Some {| memories := filter (fun r => negb (String.eqb (row_id r) "a2"))
                                          (memories Sample.database);
                       todos := todos Sample.database;
                       transaction := transaction Sample.database;
                       is_open := true |}
    /\ getMemoryById "a2" w' = (Ok None, w')
    /\ (forall id', id' <> "a2" ->
          fst (getMemoryById id' w') = fst (getMemoryById id' Sample.world)).
Proof.
  exact (X3_deleteMemory_removes_the_rows_of_the_id
           "a2" Sample.world Sample.database eq_refl eq_refl).
Defined.

Lemma X4_witness :
  exists rows,
    getMemories Demo.env
      {| go_limit := Some 2%Z; go_context := Some "db"; go_since := None |}
      Sample.world
    = (Ok (map storedOfRow rows), Sample.world)
    /\ Sorted newest_first rows
    /\ length rows <= 2.
Proof.
  destruct (X4_getMemories_filtered_newest_first_bounded
              Demo.env
              {| go_limit := Some 2%Z; go_context := Some "db"; go_since := None |}
              Sample.world Sample.database eq_refl eq_refl)
    as [rows [Hrun [Hsorted [_ [Hbound _]]]]].
  exists rows. split; [exact Hrun|]. split; [exact Hsorted|].
  apply Hbound. simpl. lia.
Defined.

Lemma X5_witness :
  exists results,
    searchMemories "postgresql index"
      {| so_limit := Some 1%Z; so_context := None; so_threshold := None |}
      Sample.world
    = (Ok results, Sample.world)
    /\ length results <= 1.
Proof.
  destruct (X5_searchMemories_returns_at_most_limit
              "postgresql index"
              {| so_limit := Some 1%Z; so_context := None; so_threshold := None |}
              Sample.world Sample.database eq_refl eq_refl)
    as [results [Hrun [_ Hbound]]].
  exists results. split; [exact Hrun|]. apply Hbound. simpl. lia.
Defined.

Section StoreAggregates.

Lemma opt_eqb_eq (a : option string) (b : string) :
  Sql.opt_eqb a b = true <-> a = Some b.
Proof.
  destruct a as [x|]; simpl.
  - rewrite String.eqb_eq. split; [now intros -> | now intros [= ->]].
  - split; discriminate.
Qed.

Lemma Sorted_map {A B} (f : A -> B) (R : B -> B -> Prop) (l : list A) :
  Sorted (fun a b => R (f a) (f b)) l -> Sorted R (map f l).
Proof.
  induction 1 as [|a l Hs IH Hhd]; simpl; constructor; [exact IH|].
  destruct Hhd; simpl; constructor; assumption.
Qed.

Lemma text_asc_sorted (l : list string) :
  Sorted (fun a b => Sql.text_gt a b = false) (Sql.order_by text_asc l).
Proof.
  apply stable_sort_Sorted.
  - intros a b H. now apply text_gt_asym.
  - intros a b H. exact H.
Qed.

Lemma NoDup_order_by {A} (before : A -> A -> bool) (l : list A) :
  NoDup l -> NoDup (Sql.order_by before l).
Proof.
  intros H. eapply Permutation_NoDup; [apply stable_sort_perm | exact H].
Qed.

(** X6. On an open store [listProjectFiles] changes nothing and returns the
    categories of the rows of the project: each category once, in ascending
    order, and no category that no row of the project carries. *)
Theorem X6_listProjectFiles_each_category_once_ascending
        (project : string) (w : World) (d : Database) :
  db w = Some d -> is_open d = true ->
  exists files,
    listProjectFiles project w = (Ok files, w)
    /\ NoDup files
    /\ Sorted (fun a b => Sql.text_gt a b = false) files
    /\ (forall c, In c files <->
                  exists r, In r (memories d)
                            /\ row_project r = Some project
                            /\ row_category r = Some c).
Proof.
  intros Hdb Hopen. unfold listProjectFiles.
  step_ok (require_db_ready w d Hdb).
  match goal with
  | |- context [db_all ?q] => rewrite (db_all_ready q w d Hdb Hopen)
  end.
  eexists. split; [reflexivity|].
  split; [apply NoDup_order_by, NoDup_distinct|].
  split; [apply text_asc_sorted|].
  intros c. unfold Sql.order_by. rewrite In_stable_sort, In_distinct, In_somes.
  split.
  - intros [r [Hr Hc]]. apply filter_In in Hr. destruct Hr as [Hin Hp].
    exists r. rewrite <- opt_eqb_eq. auto.
  - intros [r [Hin [Hp Hc]]]. exists r. split; [|exact Hc].
    apply filter_In. split; [exact Hin|]. now apply opt_eqb_eq.
Qed.

Lemma map_project_group (rows : list MemoryRow) (names : list string) :
  map pg_project (map (project_group rows) names) = names.
Proof.
  induction names as [|p names IH]; simpl; [reflexivity|]. now rewrite IH.
Qed.

(** X7. On an open store [listProjects] changes nothing and lists the
    projects of the table: every project that some row carries and no
    other, each once, with the number of its rows (at least one) as
    [totalMemories], in descending order of [lastUpdated]. *)
Theorem X7_listProjects_each_project_once_with_its_count
        (w : World) (d : Database) :
  db w = Some d -> is_open d = true ->
  exists projects,
    listProjects w = (Ok projects, w)
    /\ NoDup (map ps_project projects)
    /\ (forall p, In p (map ps_project projects) <->
                  exists r, In r (memories d) /\ row_project r = Some p)
    /\ (forall s, In s projects ->
          ps_totalMemories s = rows_of_project (ps_project s) (memories d)
          /\ 1 <= ps_totalMemories s)
    /\ Sorted (fun a b => Sql.text_gt (ps_lastUpdated b) (ps_lastUpdated a) = false)
              projects.
Proof.
  intros Hdb Hopen. unfold listProjects.
  step_ok (require_db_ready w d Hdb).
  match goal with
  | |- context [db_all ?q] => step_ok (db_all_ready q w d Hdb Hopen)
  end.
  cbv beta zeta.
  set (names := Sql.order_by text_asc (distinct (somes (map row_project (memories d))))).
  set (groups := Sql.order_by _ (map (project_group (memories d)) names)).
  assert (Hnames : forall p, In p names <->
                             exists r, In r (memories d) /\ row_project r = Some p).
  { intros p. unfold names, Sql.order_by.
    rewrite In_stable_sort, In_distinct, In_somes. reflexivity. }
  assert (Hperm : Permutation names (map pg_project groups)).
  { rewrite <- (map_project_group (memories d) names) at 1.
    apply Permutation_map. apply stable_sort_perm. }
  eexists. split; [reflexivity|].
  rewrite map_map. cbn [ps_project].
  split; [|split; [|split]].
  - eapply Permutation_NoDup; [exact Hperm|].
    apply NoDup_order_by, NoDup_distinct.
  - intros p. rewrite <- Hnames. split; intros H.
    + eapply Permutation_in; [symmetry; exact Hperm | exact H].
    + eapply Permutation_in; [exact Hperm | exact H].
  - intros s Hs. apply in_map_iff in Hs. destruct Hs as [g [<- Hg]].
    cbn [ps_totalMemories ps_project].
    unfold groups, Sql.order_by in Hg. apply In_stable_sort in Hg.
    apply in_map_iff in Hg. destruct Hg as [p [<- Hp]].
    cbn [project_group pg_total_memories pg_project].
    split; [reflexivity|].
    apply Hnames in Hp. destruct Hp as [r [Hin Hr]].
    assert (Hf : In r (filter (fun r0 => Sql.opt_eqb (row_project r0) p) (memories d))).
    { apply filter_In. split; [exact Hin | now apply opt_eqb_eq]. }
    destruct (filter _ (memories d)); [destruct Hf | simpl; lia].
  - apply Sorted_map. cbn [ps_lastUpdated].
    unfold groups. apply stable_sort_Sorted.
    + intros a b H. now apply text_gt_asym.
    + intros a b H. exact H.
Qed.

Lemma sum_counts_perm (l l' : list (string * nat)) :
  Permutation l l' -> sum_counts l = sum_counts l'.
Proof.
  induction 1; simpl; try lia.
Qed.

Lemma sum_counts_map (f : string -> nat) (cs : list string) :
  sum_counts (map (fun c => (c, f c)) cs) = list_sum (map f cs).
Proof.
  induction cs as [|c cs IH]; [reflexivity|].
  unfold sum_counts, list_sum in *. simpl. now rewrite IH.
Qed.

Lemma list_sum_indicator (k : string) (cs : list string) :
  NoDup cs -> In k cs ->
  list_sum (map (fun c => if String.eqb k c then 1 else 0) cs) = 1.
Proof.
  induction cs as [|c cs IH]; intros Hnd Hin; [destruct Hin|].
  inversion Hnd as [|? ? Hc Hnd']; subst. simpl.
  destruct (String.eqb_spec k c) as [->|Hne].
  - assert (Hzero : list_sum (map (fun c0 => if String.eqb c c0 then 1 else 0) cs) = 0).
    { clear IH Hnd Hnd' Hin. induction cs as [|x cs IHcs]; [reflexivity|].
      simpl. destruct (String.eqb_spec c x) as [->|_].
      - exfalso. apply Hc. now left.
      - apply IHcs. intros H. apply Hc. now right. }
    rewrite Hzero. reflexivity.
  - destruct Hin as [Heq|Hin]; [now symmetry in Heq|].
    now rewrite (IH Hnd' Hin).
Qed.

Lemma list_sum_add (f g : string -> nat) (cs : list string) :
  list_sum (map (fun c => f c + g c) cs) = list_sum (map f cs) + list_sum (map g cs).
Proof.
  induction cs as [|c cs IH]; [reflexivity|]. simpl. rewrite IH. lia.
Qed.

Lemma sum_counts_total (key : MemoryRow -> string) (rows : list MemoryRow)
      (cs : list string) :
  NoDup cs -> (forall r, In r rows -> In (key r) cs) ->
  sum_counts (map (fun c => (c, length (filter (fun x => String.eqb (key x) c) rows))) cs)
  = length rows.
Proof.
  intros Hnd. rewrite sum_counts_map.
  induction rows as [|r rows IH]; intros Hall.
  - simpl. clear. induction cs as [|c cs IHc]; [reflexivity | exact IHc].
  - rewrite (map_ext _ (fun c => (if String.eqb (key r) c then 1 else 0)
                                 + length (filter (fun x => String.eqb (key x) c) rows))).
    + rewrite list_sum_add, list_sum_indicator; [|exact Hnd|apply Hall; now left].
      rewrite IH; [reflexivity|]. intros x Hx. apply Hall. now right.
    + intros c. simpl. now destruct (String.eqb (key r) c).
Qed.

(** X8. On an open store [getStats] changes nothing and its figures agree:
    [totalMemories] is the number of rows, the per-context list names every
    context of the table once, so its length is [uniqueContexts], each count
    is the number of rows of that context and at least one, the counts add
    up to [totalMemories], and the list is in descending order of count. *)
Theorem X8_getStats_figures_agree (w : World) (d : Database) :
  db w = Some d -> is_open d = true ->
  exists stats,
    getStats w = (Ok stats, w)
    /\ ms_totalMemories stats = length (memories d)
    /\ ms_uniqueContexts stats = length (ms_contexts stats)
    /\ NoDup (map fst (ms_contexts stats))
    /\ (forall c n, In (c, n) (ms_contexts stats) ->
          n = length (filter (fun r => String.eqb (row_context r) c) (memories d))
          /\ 1 <= n)
    /\ sum_counts (ms_contexts stats) = ms_totalMemories stats
    /\ Sorted (fun a b => snd b <= snd a) (ms_contexts stats).
Proof.
  intros Hdb Hopen. unfold getStats.
  step_ok (require_db_ready w d Hdb).
  match goal with
  | |- context [db_all ?q] => step_ok (db_all_ready q w d Hdb Hopen)
  end.
  eexists. split; [reflexivity|].
  cbn [stats_of ms_totalMemories ms_uniqueContexts ms_contexts].
  unfold context_counts.
  set (rows := memories d).
  set (cs := Sql.order_by text_asc (distinct (map row_context rows))).
  set (counted := map (fun c => (c, length (filter (fun r => String.eqb (row_context r) c)
                                                   rows))) cs).
  assert (Hcs : NoDup cs) by apply NoDup_order_by, NoDup_distinct.
  assert (Hin : forall c, In c cs <-> In c (map row_context rows)).
  { intros c. unfold cs, Sql.order_by. now rewrite In_stable_sort, In_distinct. }
  assert (Hfst : map fst counted = cs).
  { unfold counted. rewrite map_map. cbn [fst]. apply map_id. }
  assert (Hperm : Permutation counted (Sql.order_by (fun a b => snd b <? snd a) counted))
    by apply stable_sort_perm.
  split; [reflexivity|]. split; [|split; [|split; [|split]]].
  - unfold Sql.order_by. rewrite stable_sort_length. unfold counted.
    rewrite length_map. unfold cs, Sql.order_by. now rewrite stable_sort_length.
  - eapply Permutation_NoDup; [apply Permutation_map; exact Hperm|].
    now rewrite Hfst.
  - intros c n Hcn. unfold Sql.order_by in Hcn. apply In_stable_sort in Hcn.
    unfold counted in Hcn. apply in_map_iff in Hcn.
    destruct Hcn as [c' [[= -> <-] Hc']]. split; [reflexivity|].
    apply Hin in Hc'. apply in_map_iff in Hc'. destruct Hc' as [r [Hr Hrin]].
    assert (Hf : In r (filter (fun r0 => String.eqb (row_context r0) c) rows)).
    { apply filter_In. split; [exact Hrin|]. rewrite Hr. apply String.eqb_refl. }
    destruct (filter _ rows); [destruct Hf | simpl; lia].
  - rewrite <- (sum_counts_perm _ _ Hperm). unfold counted.
    apply sum_counts_total; [exact Hcs|].
    intros r Hr. apply Hin. now apply in_map.
  - apply stable_sort_Sorted.
    + intros a b H. apply Nat.ltb_lt in H. lia.
    + intros a b H. apply Nat.ltb_ge in H. exact H.
Qed.

End StoreAggregates.

Lemma X6_witness :
  exists files,
    listProjectFiles "alpha" Sample.world = (Ok files, Sample.world)
    /\ NoDup files
    /\ Sorted (fun a b => Sql.text_gt a b = false) files
    /\ (forall c, In c files <->
                  exists r, In r (memories Sample.database)
                            /\ row_project r = Some "alpha"
                            /\ row_category r = Some c).
Proof.
  exact (X6_listProjectFiles_each_category_once_ascending
           "alpha" Sample.world Sample.database eq_refl eq_refl).
Defined.

Lemma X7_witness :
  exists projects,
    listProjects Sample.world = (Ok projects, Sample.world)
    /\ NoDup (map ps_project projects)
    /\ (forall p, In p (map ps_project projects) <->
                  exists r, In r (memories Sample.database) /\ row_project r = Some p)
    /\ (forall s, In s projects ->
          ps_totalMemories s = rows_of_project (ps_project s) (memories Sample.database)
          /\ 1 <= ps_totalMemories s)
    /\ Sorted (fun a b => Sql.text_gt (ps_lastUpdated b) (ps_lastUpdated a) = false)
              projects.
Proof.
  exact (X7_listProjects_each_project_once_with_its_count
           Sample.world Sample.database eq_refl eq_refl).
Defined.

Lemma X8_witness :
  exists stats,
    getStats Sample.world = (Ok stats, Sample.world)
    /\ ms_totalMemories stats = length (memories Sample.database)
    /\ ms_uniqueContexts stats = length (ms_contexts stats)
    /\ NoDup (map fst (ms_contexts stats))
    /\ (forall c n, In (c, n) (ms_contexts stats) ->
          n = length (filter (fun r => String.eqb (row_context r) c)
                             (memories Sample.database))
          /\ 1 <= n)
    /\ sum_counts (ms_contexts stats) = ms_totalMemories stats
    /\ Sorted (fun a b => snd b <= snd a) (ms_contexts stats).
Proof.
  exact (X8_getStats_figures_agree Sample.world Sample.database eq_refl eq_refl).
Defined.

Section StoreTodos.

Variable E : Env.

Lemma getTodoById_run (w : World) (d : Database) (id : string) :
  db w = Some d -> is_open d = true ->
  getTodoById E id w
  = (Ok (option_map (todoOfRow E)
           (find (fun t => String.eqb (trow_id t) id) (todos d))), w).
Proof.
  intros Hdb Hopen. unfold getTodoById.
  step_ok (require_db_ready w d Hdb).
  step_ok (db_all_ready
             (fun d0 => find (fun t => String.eqb (trow_id t) id) (todos d0))
             w d Hdb Hopen).
  now destruct (find _ _).
Qed.

Lemma or_null_idempotent (x : option string) : or_null (or_null x) = or_null x.
Proof. destruct x as [[|c s]|]; reflexivity. Qed.

(** X9. On an open store where no todo carries the generated identifier,
    [addTodo] succeeds: it returns the todo under that identifier, stamped
    with one clock reading, appends one row to [todos] and nothing else, and
    [getTodoById] then returns the same identifier, content, status,
    priority and time stamps; an empty project or context is read back as
    absent. *)
Theorem X9_addTodo_then_getTodoById
        (todoData : TodoData) (w : World) (d : Database) :
  db w = Some d -> is_open d = true ->
  (forall t, In t (todos d) -> trow_id t <> idOracle E (tick w)) ->
  exists todo w' t stored,
    addTodo E todoData w = (Ok todo, w')
    /\ st_id todo = idOracle E (tick w)
    /\ st_content todo = td_content todoData
    /\ st_createdAt todo = isoClock E (S (tick w))
    /\ st_updatedAt todo = st_createdAt todo
    /\ db w' = Some {| memories := memories d; todos := (todos d ++ [t])%list;
                       transaction := transaction d; is_open := true |}
    /\ getTodoById E (st_id todo) w' = (Ok (Some stored), w')
    /\ st_id stored = st_id todo
    /\ st_content stored = st_content todo
    /\ st_status stored = td_status todoData
    /\ st_priority stored = td_priority todoData
    /\ st_project stored = or_null (td_project todoData)
    /\ st_context stored = or_null (td_context todoData)
    /\ st_createdAt stored = st_createdAt todo
    /\ st_updatedAt stored = st_updatedAt todo.
Proof.
  intros Hdb Hopen Hfresh. unfold addTodo.
  step_ok (require_db_ready w d Hdb).
  step_ok (generateId_run E w).
  step_ok (newDateISO_run E {| db := db w; tick := S (tick w) |}).
  match goal with
  | |- context [bind (db_run (insert_todo_stmt ?row)) _ ?w3] =>
      assert (Hstmt : insert_todo_stmt row d
                      = Ok ({| memories := memories d;
                               todos := (todos d ++ [row])%list;
                               transaction := transaction d;
                               is_open := true |}, 1));
      [|step_ok (db_run_ready _ w3 d _ _ Hdb Hopen Hstmt)]
  end.
  - unfold insert_todo_stmt. cbn [trow_id].
    rewrite existsb_absent, Hopen; [reflexivity|].
    intros t Ht. apply eqb_absent. now apply Hfresh.
  - do 4 eexists. split; [reflexivity|].
    do 5 (split; [reflexivity|]).
    split.
    + match goal with
      | |- getTodoById E ?i {| db := Some ?d1; tick := ?n |} = _ =>
          rewrite (getTodoById_run {| db := Some d1; tick := n |} d1 i
                     eq_refl eq_refl)
      end.
      cbn [todos]. rewrite find_app_fresh; [reflexivity| |].
      * intros t Ht. apply eqb_absent. now apply Hfresh.
      * apply String.eqb_refl.
    + cbn. rewrite !or_null_idempotent. repeat split; reflexivity.
Qed.





(** [deleteTodo] on an open store, in full. *)
Lemma deleteTodo_run (id : string) (w : World) (d : Database) :
  db w = Some d -> is_open d = true ->
  deleteTodo id w
  = (Ok (existsb (fun t => String.eqb (trow_id t) id) (todos d)),
     {| db := Some {| memories := memories d;
                      todos := filter (fun t => negb (String.eqb (trow_id t) id))
                                      (todos d);
                      transaction := transaction d;
                      is_open := true |};
        tick := tick w |}).
Proof.
  intros Hdb Hopen. unfold deleteTodo.
  step_ok (require_db_ready w d Hdb).
  step_ok (db_run_ready (delete_todo_stmt id) w d _ _ Hdb Hopen eq_refl).
  unfold ret. rewrite Hopen. f_equal. f_equal.
  rewrite <- (filter_positive (fun t => String.eqb (trow_id t) id) (todos d)).
  pose proof (filter_split_length (fun t => String.eqb (trow_id t) id) (todos d)).
  f_equal. lia.
Qed.

(** X11. On an open store [deleteTodo] returns whether a todo carried the
    identifier.  Afterwards [getTodoById] finds nothing under that
    identifier and what it finds under every other identifier is unchanged;
    the memories and the transaction state are untouched. *)
Theorem X11_deleteTodo_removes_the_todo_of_the_id
        (id : string) (w : World) (d : Database) :
  db w = Some d -> is_open d = true ->
  exists w',
    deleteTodo id w
    = (Ok (existsb (fun t => String.eqb (trow_id t) id) (todos d)), w')
    /\ db w' = Some {| memories := memories d;
                       todos := filter (fun t => negb (String.eqb (trow_id t) id))
                                       (todos d);
                       transaction := transaction d;
                       is_open := true |}
    /\ getTodoById E id w' = (Ok None, w')
    /\ (forall id', id' <> id ->
          fst (getTodoById E id' w') = fst (getTodoById E id' w)).
Proof.
  intros Hdb Hopen. eexists. split; [apply (deleteTodo_run id w d Hdb Hopen)|].
  split; [reflexivity|]. split.
  - match goal with
    | |- getTodoById E _ {| db := Some ?d1; tick := ?n |} = _ =>
        rewrite (getTodoById_run {| db := Some d1; tick := n |} d1 id
                   eq_refl eq_refl)
    end. cbn [todos].
    rewrite find_filter_none; [reflexivity|].
    intros x Hx. now rewrite Hx.
  - intros id' Hne.
    match goal with
    | |- context [getTodoById E _ {| db := Some ?d1; tick := ?n |}] =>
        rewrite (getTodoById_run {| db := Some d1; tick := n |} d1 id'
                   eq_refl eq_refl)
    end.
    rewrite (getTodoById_run w d id' Hdb Hopen). cbn [todos fst].
    rewrite find_filter_other; [reflexivity|].
    intros x Hx. apply String.eqb_eq in Hx.
    destruct (String.eqb_spec (trow_id x) id) as [Heq|_]; [|reflexivity].
    exfalso. apply Hne. now rewrite <- Hx, Heq.
Qed.

(** X12. On an open store [listTodos] changes nothing and returns todos of
    the table that pass the filters, newest first by [created_at].  A limit
    above zero bounds their number; with no limit, or with the limit 0, all
    the todos that pass are returned. *)
Theorem X12_listTodos_filtered_newest_first
        (options : ListTodosArgs) (w : World) (d : Database) :
  db w = Some d -> is_open d = true ->
  exists rows,
    listTodos E options w = (Ok (map (todoOfRow E) rows), w)
    /\ Sorted (fun a b => Sql.text_gt (trow_created_at b) (trow_created_at a) = false)
              rows
    /\ (forall t, In t rows -> In t (todos d) /\ todo_filter options t = true)
    /\ (forall n, lt_limit options = Some n -> (0 < n)%Z ->
                  length rows <= Z.to_nat n)
    /\ (lt_limit options = None \/ lt_limit options = Some 0%Z ->
        Permutation (filter (todo_filter options) (todos d)) rows).
Proof.
  intros Hdb Hopen. unfold listTodos.
  step_ok (require_db_ready w d Hdb).
  step_ok (db_all_ready (list_todos_rows options) w d Hdb Hopen).
  eexists. split; [reflexivity|].
  unfold list_todos_rows.
  set (sorted := Sql.order_by _ (filter (todo_filter options) (todos d))).
  assert (Hsorted : Sorted (fun a b => Sql.text_gt (trow_created_at b)
                                                   (trow_created_at a) = false)
                           sorted).
  { apply stable_sort_Sorted.
    - intros a b H. now apply text_gt_asym.
    - intros a b H. exact H. }
  assert (Hin : forall t, In t sorted -> In t (todos d) /\ todo_filter options t = true).
  { intros t Ht. apply In_stable_sort in Ht. now apply filter_In in Ht. }
  unfold optional_limit.
  destruct (lt_limit options) as [n|].
  - destruct (Z.eqb_spec n 0) as [->|Hn].
    + split; [exact Hsorted|]. split; [exact Hin|]. split.
      * intros n [= <-] Hpos. lia.
      * intros _. apply stable_sort_perm.
    + split; [apply limit_Sorted, Hsorted|]. split; [|split].
      * intros t Ht. apply Hin. now apply In_limit in Ht.
      * intros n' [= <-] Hpos. apply limit_length. lia.
      * intros [H|H]; [discriminate H|]. injection H as ->. now elim Hn.
  - split; [exact Hsorted|]. split; [exact Hin|]. split.
    + intros n H. discriminate H.
    + intros _. apply stable_sort_perm.
Qed.

End StoreTodos.

Lemma X9_witness :
  exists todo w',
    addTodo Demo.env Sample.todoData Sample.world = (Ok todo, w')
    /\ st_id todo = idOracle Demo.env 7
    /\ exists stored,
         getTodoById Demo.env (st_id todo) w' = (Ok (Some stored), w')
         /\ st_content stored = st_content todo.
Proof.
  destruct (X9_addTodo_then_getTodoById
              Demo.env Sample.todoData Sample.world Sample.database
              eq_refl eq_refl)
    as [todo [w' [t [stored H]]]].
  - intros t Ht. simpl in Ht.
    destruct Ht as [<-|[<-|[]]]; vm_compute; discriminate.
  - exists todo, w'. split; [apply H|]. split; [apply H|].
    exists stored. split; apply H.
Defined.


Lemma X11_witness :
  exists w',
    deleteTodo "t2" Sample.world
    = (Ok (existsb (fun t => String.eqb (trow_id t) "t2") (todos Sample.database)), w')
    /\ db w' = Some {| memories := memories Sample.database;
                       todos := filter (fun t => negb (String.eqb (trow_id t) "t2"))
                                       (todos Sample.database);
                       transaction := transaction Sample.database;
                       is_open := true |}
    /\ getTodoById Demo.env "t2" w' = (Ok None, w')
    /\ (forall id', id' <> "t2" ->
          fst (getTodoById Demo.env id' w') = fst (getTodoById Demo.env id' Sample.world)).
Proof.
  exact (X11_deleteTodo_removes_the_todo_of_the_id
           Demo.env "t2" Sample.world Sample.database eq_refl eq_refl).
Defined.

Lemma X12_witness :
  exists rows,
    listTodos Demo.env
      {| lt_status := Some pending; lt_priority := None; lt_project := None;
         lt_context := None; lt_limit := Some 0%Z |}
      Sample.world
    = (Ok (map (todoOfRow Demo.env) rows), Sample.world)
    /\ Permutation
         (filter (todo_filter
                    {| lt_status := Some pending; lt_priority := None;
                       lt_project := None; lt_context := None;
                       lt_limit := Some 0%Z |})
                 (todos Sample.database))
         rows.
Proof.
  destruct (X12_listTodos_filtered_newest_first
              Demo.env
              {| lt_status := Some pending; lt_priority := None; lt_project := None;
                 lt_context := None; lt_limit := Some 0%Z |}
              Sample.world Sample.database eq_refl eq_refl)
    as [rows [Hrun [_ [_ [_ Hall]]]]].
  exists rows. split; [exact Hrun|]. apply Hall. right. reflexivity.
Defined.

Section BankCommit.

Variable E : Env.
Variable project : string.
Variable category : option string.

(** With every content present and the generated identifiers new, the loop
    of [updateMemoryBank] appends one row per memory. *)
Lemma insert_bank_memories_fresh (batch : list BankMemory) :
  forall (w : World) (d : Database),
    db w = Some d -> is_open d = true ->
    Forall (fun m => bm_content m <> None) batch ->
    NoDup (bank_ids E (tick w) (length batch)) ->
    (forall r, In r (memories d) ->
               ~ In (row_id r) (bank_ids E (tick w) (length batch))) ->
    exists rows,
      insert_bank_memories E project category batch w
      = (Ok tt, {| db := Some {| memories := (memories d ++ rows)%list;
                                 todos := todos d;
                                 transaction := transaction d;
                                 is_open := true |};
                   tick := tick w + 2 * length batch |})
      /\ Forall2 (bank_row project category) batch rows
      /\ map row_id rows = bank_ids E (tick w) (length batch).
Proof.
  induction batch as [|m batch IH]; intros w d Hdb Hopen Hall Hnd Hfresh.
  - exists []. cbn [insert_bank_memories length bank_ids map]. split; [|split].
    + unfold ret. f_equal. rewrite app_nil_r, <- Hopen, database_eta.
      rewrite Nat.mul_0_r, Nat.add_0_r. destruct w; simpl in *. now subst.
    + constructor.
    + reflexivity.
  - cbn [insert_bank_memories length bank_ids] in *.
    inversion Hall as [|? ? Hc Hall']; subst.
    inversion Hnd as [|? ? Hhead Hnd']; subst.
    step_ok (generateId_run E w).
    step_ok (newDateISO_run E {| db := db w; tick := S (tick w) |}).
    destruct (bm_content m) as [c|] eqn:Hcontent; [|now elim Hc].
    match goal with
    | |- context [bind (db_run ?stmt) _ ?w3] =>
        assert (Hstmt : exists row,
                  stmt d = Ok ({| memories := (memories d ++ [row])%list;
                                  todos := todos d;
                                  transaction := transaction d;
                                  is_open := true |}, 1)
                  /\ bank_row project category m row
                  /\ row_id row = idOracle E (tick w))
    end.
    { unfold insert_bank_stmt, insert_memory_stmt. cbn [row_id].
      rewrite existsb_absent.
      - eexists. rewrite Hopen. split; [reflexivity|]. split; [|reflexivity].
        unfold bank_row; cbn. rewrite Hcontent. repeat split; reflexivity.
      - intros r Hr. apply eqb_absent. intros Heq.
        apply (Hfresh r Hr). left. now symmetry. }
    destruct Hstmt as [row [Hstmt [Hrow Hid]]].
    match goal with
    | |- context [bind (db_run ?stmt) _ ?w3] =>
        step_ok (db_run_ready stmt w3 d _ _ Hdb Hopen Hstmt)
    end.
    match goal with
    | |- context [insert_bank_memories E project category batch ?w4] =>
        destruct (IH w4 _ eq_refl eq_refl Hall' Hnd') as [rows [Hrun [Hrows Hids]]]
    end.
    { cbn [memories]. intros r Hr Hin. apply in_app_or in Hr.
      destruct Hr as [Hr|[<-|[]]].
      - apply (Hfresh r Hr). now right.
      - apply Hhead. now rewrite <- Hid. }
    exists (row :: rows). split; [|split].
    + rewrite Hrun. cbn [memories todos transaction tick]. f_equal. f_equal.
      * f_equal. f_equal. now rewrite <- app_assoc.
      * lia.
    + now constructor.
    + cbn [map]. now rewrite Hid, Hids.
Qed.

(** X13. On an open store with no transaction under way, when every memory
    of the batch has a content and the identifiers the loop generates are
    distinct and carried by no row, [updateMemoryBank] commits: it returns,
    the table is the old table followed by one row per memory, in order and
    under the generated identifiers, each with the project, the category and
    the importance of its memory ([5] when none is given), and no
    transaction stays open. *)
Theorem X13_updateMemoryBank_commits_a_complete_batch
        (batch : list BankMemory) (w : World) (d : Database) :
  db w = Some d -> is_open d = true -> transaction d = None ->
  Forall (fun m => bm_content m <> None) batch ->
  NoDup (bank_ids E (tick w) (length batch)) ->
  (forall r, In r (memories d) ->
             ~ In (row_id r) (bank_ids E (tick w) (length batch))) ->
  exists rows,
    updateMemoryBank E project category batch w
    = (Ok tt, {| db := Some {| memories := (memories d ++ rows)%list;
                               todos := todos d;
                               transaction := None;
                               is_open := true |};
                 tick := tick w + 2 * length batch |})
    /\ Forall2 (bank_row project category) batch rows
    /\ map row_id rows = bank_ids E (tick w) (length batch).
Proof.
  intros Hdb Hopen Htx Hall Hnd Hfresh. unfold updateMemoryBank.
  step_ok (require_db_ready w d Hdb).
  assert (Hbegin : begin_stmt d
                   = Ok ({| memories := memories d; todos := todos d;
                            transaction := Some (memories d, todos d);
                            is_open := is_open d |}, 0)).
  { unfold begin_stmt. now rewrite Htx. }
  step_ok (db_run_ready begin_stmt w d _ _ Hdb Hopen Hbegin).
  unfold try_catch.
  match goal with
  | |- context [bind (insert_bank_memories E project category batch) _ ?w1] =>
      destruct (insert_bank_memories_fresh batch w1 _ eq_refl Hopen Hall Hnd Hfresh)
        as [rows [Hrun [Hrows Hids]]]
  end.
  exists rows. split; [|split; assumption].
  step_ok Hrun.
  unfold bind, db_run, commit_stmt, ret. cbn. reflexivity.
Qed.

End BankCommit.

Lemma X13_witness :
  exists rows,
    updateMemoryBank Demo.env "alpha" (Some "decisions") Demo.good_batch Sample.world
    = (Ok tt, {| db := Some {| memories := (memories Sample.database ++ rows)%list;
                               todos := todos Sample.database;
                               transaction := None;
                               is_open := true |};
                 tick := tick Sample.world + 2 * length Demo.good_batch |})
    /\ Forall2 (bank_row "alpha" (Some "decisions")) Demo.good_batch rows
    /\ map row_id rows
       = bank_ids Demo.env (tick Sample.world) (length Demo.good_batch).
Proof.
  apply (X13_updateMemoryBank_commits_a_complete_batch
           Demo.env "alpha" (Some "decisions") Demo.good_batch
           Sample.world Sample.database eq_refl eq_refl eq_refl).
  - repeat constructor; discriminate.
  - vm_compute. repeat constructor; simpl; intuition discriminate.
  - intros r Hr. simpl in Hr.
    destruct Hr as [<-|[<-|[<-|[]]]]; vm_compute; intuition discriminate.
Defined.

Section ClosedStore.

Variable E : Env.
Variable config : StorageConfig.

Ltac closed_world w d Hdb Hopen :=
  destruct w as [dbw n]; cbn [db] in Hdb; subst dbw;
  destruct d as [ms ts tx op]; cbn [is_open] in Hopen; subst op.

(** X14. [close] on an open store returns and keeps the tables; from then
    on every operation of the store, [close] included, throws the error of
    a closed database and leaves the tables as they are. *)
Theorem X14_closed_store_refuses_every_operation (w : World) (d : Database) :
  db w = Some d -> is_open d = true ->
  exists w1,
    close w = (Ok tt, w1)
    /\ db w1 = Some {| memories := memories d; todos := todos d;
                       transaction := transaction d; is_open := false |}
    /\ refused close w1
    /\ (forall memoryData, refused (addMemory E config memoryData) w1)
    /\ (forall query options, refused (searchMemories query options) w1)
    /\ (forall options, refused (getMemories E options) w1)
    /\ (forall id, refused (getMemoryById id) w1)
    /\ (forall id, refused (deleteMemory id) w1)
    /\ refused getStats w1
    /\ refused listProjects w1
    /\ (forall project, refused (listProjectFiles project) w1)
    /\ (forall project category batch,
          refused (updateMemoryBank E project category batch) w1)
    /\ (forall project category format,
          refused (exportMemoryBank E project category format) w1)
    /\ (forall todoData, refused (addTodo E todoData) w1)
    /\ (forall options, refused (listTodos E options) w1)
    /\ (forall id, refused (getTodoById E id) w1)
    /\ (forall id updates, refused (updateTodo E id updates) w1)
    /\ (forall id, refused (deleteTodo id) w1).
Proof.
  intros Hdb Hopen. closed_world w d Hdb Hopen.
  eexists. split; [reflexivity|]. split; [reflexivity|].
  cbn [memories todos transaction].
  repeat split; intros; unfold refused; try (eexists; split; reflexivity);
    try (eexists; split; [cbn; reflexivity | reflexivity]).
  unfold addMemory.
  destruct (deduplication config) as [[|]|]; eexists; split; reflexivity.
Qed.

End ClosedStore.

Lemma X14_witness :
  exists w1,
    close Sample.world = (Ok tt, w1)
    /\ refused (getMemoryById "a1") w1
    /\ refused (addTodo Demo.env Sample.todoData) w1.
Proof.
  destruct (X14_closed_store_refuses_every_operation
              Demo.env Sample.plain_storage Sample.world Sample.database
              eq_refl eq_refl)
    as [w1 [Hclose [_ [_ [_ [_ [_ [Hget [_ [_ [_ [_ [_ [_ [Hadd _]]]]]]]]]]]]]]].
  exists w1. split; [exact Hclose|]. split; [apply Hget | apply Hadd].
Defined.

Section Jaccard.

Lemma In_set_add (x y : string) (s : list string) :
  In y (set_add x s) <-> y = x \/ In y s.
Proof.
  induction s as [|a s IH]; simpl; [intuition|].
  destruct (String.eqb_spec x a) as [->|Hne]; simpl.
  - intuition.
  - rewrite IH. intuition.
Qed.

Lemma NoDup_set_add (x : string) (s : list string) :
  NoDup s -> NoDup (set_add x s).
Proof.
  induction 1 as [|a s Ha Hs IH]; simpl.
  - constructor; [intros []|constructor].
  - destruct (String.eqb_spec x a) as [->|Hne].
    + now constructor.
    + constructor; [|exact IH].
      rewrite In_set_add. intros [Heq|Hin]; [now elim Hne | now elim Ha].
Qed.

Lemma fold_set_add_spec (l : list string) : forall s,
  NoDup s ->
  NoDup (fold_left (fun s x => set_add x s) l s)
  /\ (forall y, In y (fold_left (fun s x => set_add x s) l s) <-> In y l \/ In y s).
Proof.
  induction l as [|x l IH]; intros s Hs; simpl.
  - split; [exact Hs | intuition].
  - destruct (IH (set_add x s) (NoDup_set_add x s Hs)) as [Hnd Hin].
    split; [exact Hnd|]. intros y. rewrite Hin, In_set_add. intuition.
Qed.

Lemma NoDup_set_of (l : list string) : NoDup (set_of l).
Proof. apply (fold_set_add_spec l []). constructor. Qed.

Lemma In_set_of (l : list string) (y : string) : In y (set_of l) <-> In y l.
Proof.
  unfold set_of. destruct (fold_set_add_spec l [] (NoDup_nil _)) as [_ H].
  rewrite H. simpl. intuition.
Qed.

Lemma set_has_In (s : list string) (x : string) : set_has s x = true <-> In x s.
Proof.
  unfold set_has. rewrite existsb_exists. split.
  - intros [y [Hy Heq]]. apply String.eqb_eq in Heq. now subst.
  - intros H. exists x. split; [exact H | apply String.eqb_refl].
Qed.

Lemma set_of_same_length (l l' : list string) :
  (forall y, In y l <-> In y l') -> length (set_of l) = length (set_of l').
Proof.
  intros H. apply Permutation_length.
  apply NoDup_Permutation; [apply NoDup_set_of | apply NoDup_set_of|].
  intros y. rewrite !In_set_of. apply H.
Qed.

Lemma set_of_incl_length (l l' : list string) :
  (forall y, In y l -> In y l') -> length (set_of l) <= length (set_of l').
Proof.
  intros H. apply NoDup_incl_length; [apply NoDup_set_of|].
  intros y. rewrite !In_set_of. apply H.
Qed.

(** X15. The fallback score [simpleTextSimilarity] is a number on every
    pair of texts, lies between 0 and 1, does not depend on the order of
    the two texts, and is 1 when a text is compared with itself. *)
Theorem X15_simpleTextSimilarity_is_a_symmetric_score (text1 text2 : string) :
  exists score,
    simpleTextSimilarity text1 text2 = Some score
    /\ (0 <= score <= 1)%Q
    /\ simpleTextSimilarity text2 text1 = Some score
    /\ exists one, simpleTextSimilarity text1 text1 = Some one /\ (one == 1)%Q.
Proof.
  assert (Hunion : forall a b,
            1 <= length (set_of (set_of (words a) ++ set_of (words b)))).
  { intros a b. apply set_of_length. rewrite length_app.
    pose proof (set_of_length (words a) (words_length a)). lia. }
  assert (Hshape : forall a b,
            simpleTextSimilarity a b
            = Some (ratio
                      (length (set_of (filter (set_has (set_of (words b)))
                                              (set_of (words a)))))
                      (length (set_of (set_of (words a) ++ set_of (words b)))))).
  { intros a b. unfold simpleTextSimilarity. fold (words a). fold (words b).
    cbv zeta. specialize (Hunion a b).
    destruct (length (set_of (set_of (words a) ++ set_of (words b)))); [lia|].
    reflexivity. }
  eexists. split; [apply Hshape|]. split; [|split].
  - apply ratio_bounds; [apply Hunion|].
    apply set_of_incl_length. intros y Hy. apply filter_In in Hy.
    apply in_or_app. left. apply Hy.
  - rewrite Hshape. f_equal. f_equal.
    + apply set_of_same_length. intros y.
      rewrite !filter_In, !set_has_In. tauto.
    + apply set_of_same_length. intros y. rewrite !in_app_iff. tauto.
  - eexists. split; [apply Hshape|].
    assert (Hsame : length (set_of (filter (set_has (set_of (words text1)))
                                           (set_of (words text1))))
                    = length (set_of (set_of (words text1) ++ set_of (words text1)))).
    { apply set_of_same_length. intros y.
      rewrite filter_In, set_has_In, in_app_iff. tauto. }
    rewrite Hsame. apply ratio_full. apply Hunion.
Qed.

End Jaccard.

Section Ranking.

Lemma In_map_indexed {A B} (f : A -> nat -> B) (l : list A) : forall (index : nat) (b : B),
  In b (map_indexed f index l) -> exists a i, In a l /\ b = f a i.
Proof.
  induction l as [|a l IH]; intros index b H; simpl in H; [destruct H|].
  destruct H as [<-|H].
  - exists a, index. split; [now left | reflexivity].
  - destruct (IH _ _ H) as [a' [i [Ha Hb]]]. exists a', i. split; [now right | exact Hb].
Qed.

Lemma map_indexed_length {A B} (f : A -> nat -> B) (l : list A) : forall index,
  length (map_indexed f index l) = length l.
Proof. induction l as [|a l IH]; intros index; simpl; [reflexivity | now rewrite IH]. Qed.

Lemma somes_length {A} (l : list (option A)) : length (somes l) <= length l.
Proof.
  induction l as [|[a|] l IH]; simpl; lia.
Qed.

Lemma In_somes_list {A} (l : list (option A)) (a : A) :
  In a (somes l) <-> In (Some a) l.
Proof.
  induction l as [|[x|] l IH]; simpl.
  - tauto.
  - rewrite IH. split; [intros [->|H]; auto | intros [[= ->]|H]; auto].
  - rewrite IH. split; [auto | intros [H|H]; [discriminate H | exact H]].
Qed.

(** X16. Whatever the model answered, [findSimilarMemories] returns
    memories of the list it was given, each with a score at or above the
    threshold (0.7 when none is given), in descending order of score, and
    never more of them than it was given. *)
Theorem X16_findSimilarMemories_ranks_above_the_threshold
        (scores : option (list Q)) (query : string)
        (memories : list StoredMemory) (threshold : option Q) :
  StronglySorted score_desc (findSimilarMemories scores query memories threshold)
  /\ Forall (fun m => (default (7 # 10)%Q threshold <= similarity m)%Q)
            (findSimilarMemories scores query memories threshold)
  /\ (forall m, In m (findSimilarMemories scores query memories threshold) ->
                In (memory m) memories)
  /\ length (findSimilarMemories scores query memories threshold) <= length memories.
Proof.
  unfold findSimilarMemories. cbv zeta.
  destruct memories as [|m0 rest].
  { split; [constructor|]. split; [constructor|]. split; [intros m []|]. simpl. lia. }
  set (memories := m0 :: rest).
  set (scored := match scores with
                 | Some scores0 => map_indexed _ 0 memories
                 | None => map _ memories
                 end).
  assert (Hfrom : forall m, In (Some m) scored -> In (memory m) memories).
  { intros m Hm. unfold scored in Hm. destruct scores as [scores0|].
    - apply In_map_indexed in Hm. destruct Hm as [a [i [Ha [= ->]]]]. exact Ha.
    - apply in_map_iff in Hm. destruct Hm as [a [Hm Ha]].
      destruct (simpleTextSimilarity query (sm_content a)); [|discriminate Hm].
      injection Hm as <-. exact Ha. }
  assert (Hlen : length scored = length memories).
  { unfold scored. destruct scores; [apply map_indexed_length | apply length_map]. }
  split; [apply search_sort_sorted|]. split; [|split].
  - apply Forall_forall. intros m Hm. apply In_stable_sort in Hm.
    apply filter_In in Hm. destruct Hm as [_ Hm]. unfold Qgeb in Hm.
    now apply Qle_bool_iff.
  - intros m Hm. apply In_stable_sort in Hm. apply filter_In in Hm.
    apply Hfrom. apply In_somes_list. apply Hm.
  - rewrite stable_sort_length.
    etransitivity; [apply filter_length_le|].
    etransitivity; [apply somes_length|]. now rewrite Hlen.
Qed.

End Ranking.

Section Extraction.

Lemma slice0_length (n : nat) : forall s, String.length (Js.slice0 n s) = min n (String.length s).
Proof.
  induction n as [|n IH]; intros [|c s]; simpl; try reflexivity.
  now rewrite IH.
Qed.



Lemma append_length (a b : string) :
  String.length (a ++ b) = String.length a + String.length b.
Proof. induction a as [|c a IH]; simpl; [reflexivity | now rewrite IH]. Qed.






End Extraction.
Section ExtractPath.

Variable E : Env.
Variable config : Config.
Variable response : option (list ExtractedMemory).




End ExtractPath.


Section Utils.

Lemma slice0_prefix (n : nat) : forall s, String.prefix (Js.slice0 n s) s = true.
Proof.
  induction n as [|n IH]; intros [|c s]; simpl; try reflexivity.
  destruct (Ascii.ascii_dec c c) as [_|Hne]; [apply IH | now elim Hne].
Qed.

(** X19. [truncateText] with a maximum of at least 3 returns a text no
    longer than the maximum: the text itself when it fits, and otherwise a
    text of exactly the maximum length, made of the first characters of the
    text followed by three dots.  With no maximum given the maximum is
    100. *)
Theorem X19_truncateText_fits_the_maximum (text : string) (maxLength : Z) :
  (3 <= maxLength)%Z ->
  (Z.of_nat (String.length (truncateText text (Some maxLength))) <= maxLength)%Z
  /\ ((Z.of_nat (String.length text) <= maxLength)%Z ->
      truncateText text (Some maxLength) = text)
  /\ ((maxLength < Z.of_nat (String.length text))%Z ->
      exists kept,
        truncateText text (Some maxLength) = (kept ++ "...")%string
        /\ String.prefix kept text = true
        /\ Z.of_nat (String.length (truncateText text (Some maxLength))) = maxLength)
  /\ truncateText text None = truncateText text (Some 100%Z).
Proof.
  intros Hmax. unfold truncateText. cbn [default].
  destruct (Z.leb_spec (Z.of_nat (String.length text)) maxLength) as [Hfits|Hlong].
  - rewrite orb_true_r. split; [exact Hfits|]. split; [reflexivity|].
    split; [lia | reflexivity].
  - assert (Htruthy : Js.truthy text = true).
    { destruct text; [simpl in Hlong; lia | reflexivity]. }
    rewrite Htruthy. cbn [negb orb].
    assert (Hslice : JsText.slice_to (maxLength - 3) text
                     = Js.slice0 (Z.to_nat (maxLength - 3)) text).
    { unfold JsText.slice_to. destruct (Z.ltb_spec (maxLength - 3) 0); [lia | reflexivity]. }
    rewrite Hslice.
    assert (Hlen : Z.of_nat (String.length
                               (Js.slice0 (Z.to_nat (maxLength - 3)) text ++ "..."))
                   = maxLength).
    { rewrite append_length, slice0_length. simpl String.length. lia. }
    split; [lia|]. split; [lia|]. split; [|reflexivity].
    intros _. eexists. split; [reflexivity|]. split; [apply slice0_prefix | exact Hlen].
Qed.

Lemma context_char_not_backslash (c : ascii) :
  context_char c = true -> Ascii.eqb c (ascii_of_nat 92) = false.
Proof.
  intros H. destruct (Ascii.eqb_spec c (ascii_of_nat 92)) as [->|_]; [|reflexivity].
  vm_compute in H. discriminate H.
Qed.

Lemma strip_context_chars (s : string) (c : ascii) :
  In c (list_ascii_of_string (strip_context s)) -> context_char c = true.
Proof.
  induction s as [|a s IH]; simpl; [intros []|].
  destruct (context_char a) eqn:Ha; simpl; [|exact IH].
  intros [<-|H]; [exact Ha | now apply IH].
Qed.

Lemma replace_backslash_s_plain (s : string) :
  (forall c, In c (list_ascii_of_string s) -> context_char c = true) ->
  replace_backslash_s false s = s.
Proof.
  induction s as [|a s IH]; intros H; [reflexivity|].
  cbn [replace_backslash_s andb].
  rewrite (context_char_not_backslash a); [|apply H; now left].
  f_equal. apply IH. intros c Hc. apply H. now right.
Qed.

Lemma trimStart_chars (s : string) (c : ascii) :
  In c (list_ascii_of_string (JsText.trimStart s)) -> In c (list_ascii_of_string s).
Proof.
  induction s as [|a s IH]; simpl; [tauto|].
  destruct (Js.is_space a); simpl; [intros H; right; now apply IH | tauto].
Qed.

Lemma trimEnd_chars (s : string) (c : ascii) :
  In c (list_ascii_of_string (JsText.trimEnd s)) -> In c (list_ascii_of_string s).
Proof.
  induction s as [|a s IH]; simpl; [tauto|].
  destruct (JsText.trimEnd s) as [|b rest].
  - destruct (Js.is_space a); simpl; tauto.
  - simpl. simpl in IH. intros [H|H]; [now left | right; now apply IH].
Qed.

(** X20. [sanitizeContext] returns [general] for a missing or empty context.
    Otherwise the result is the lower-cased context without the characters
    other than lower-case letters, digits, white space, hyphen and
    underscore, trimmed at both ends: the replacement meant to turn white
    space into hyphens never applies, so white space inside the context
    stays.  Every character of the result is one of the characters
    named. *)
Theorem X20_sanitizeContext_keeps_plain_characters (context : option string) :
  (forall c, In c (list_ascii_of_string (sanitizeContext context)) ->
             context_char c = true)
  /\ match context with
     | None => sanitizeContext context = "general"
     | Some text =>
         sanitizeContext context
         = if Js.truthy text
           then JsText.trim (strip_context (Js.toLowerCase text))
           else "general"
     end.
Proof.
  assert (Hgeneral : forall c, In c (list_ascii_of_string "general") ->
                               context_char c = true).
  { intros c Hc. simpl in Hc. repeat (destruct Hc as [<-|Hc]; [reflexivity|]).
    destruct Hc. }
  destruct context as [text|]; [|split; [exact Hgeneral | reflexivity]].
  unfold sanitizeContext. destruct (Js.truthy text); cbn [negb];
    [|split; [exact Hgeneral | reflexivity]].
  rewrite replace_backslash_s_plain by apply strip_context_chars.
  split; [|reflexivity].
  intros c Hc. unfold JsText.trim in Hc.
  apply trimEnd_chars, trimStart_chars in Hc. now apply strip_context_chars in Hc.
Qed.


Lemma or_null_some (x : option string) (s : string) :
  or_null x = Some s -> x = Some s /\ Js.truthy s = true.
Proof.
  destruct x as [[|c t]|]; simpl; try discriminate.
  intros [= <-]. split; reflexivity.
Qed.

(** X22. [enhanceMemoryWithRepoInfo] never changes the content, the
    original content, the importance, the time stamp, the source or the
    category of a memory.  A project that is given and not empty stays, and
    so does a context that is given, not empty and not [general]; the tags
    given stay in front, followed by the tags of the repository or by
    nothing. *)
Theorem X22_enhanceMemoryWithRepoInfo_keeps_what_is_given
        (repoInfo : RepositoryInfo) (memoryData : MemoryData) :
  md_content (enhanceMemoryWithRepoInfo repoInfo memoryData) = md_content memoryData
  /\ md_originalContent (enhanceMemoryWithRepoInfo repoInfo memoryData)
     = md_originalContent memoryData
  /\ md_importance (enhanceMemoryWithRepoInfo repoInfo memoryData)
     = md_importance memoryData
  /\ md_timestamp (enhanceMemoryWithRepoInfo repoInfo memoryData)
     = md_timestamp memoryData
  /\ md_source (enhanceMemoryWithRepoInfo repoInfo memoryData) = md_source memoryData
  /\ md_category (enhanceMemoryWithRepoInfo repoInfo memoryData)
     = md_category memoryData
  /\ (forall p, md_project memoryData = Some p -> p <> "" ->
                md_project (enhanceMemoryWithRepoInfo repoInfo memoryData) = Some p)
  /\ (forall c, md_context memoryData = Some c -> c <> "" -> c <> "general" ->
                md_context (enhanceMemoryWithRepoInfo repoInfo memoryData) = Some c)
  /\ (exists added,
        default [] (md_tags (enhanceMemoryWithRepoInfo repoInfo memoryData))
        = (default [] (md_tags memoryData) ++ added)%list
        /\ (added = [] \/ added = repo_tags repoInfo))
  /\ (isGitRepo repoInfo = false ->
      md_tags (enhanceMemoryWithRepoInfo repoInfo memoryData) = md_tags memoryData).
Proof.
  unfold enhanceMemoryWithRepoInfo. cbv zeta.
  cbn [md_content md_originalContent md_importance md_timestamp md_source
       md_category md_project md_context md_tags].
  do 6 (split; [reflexivity|]).
  split; [|split; [|split]].
  - intros p Hp Hne. rewrite Hp. destruct p as [|a s]; [now elim Hne | reflexivity].
  - intros c Hc Hne Hgen. rewrite Hc.
    destruct c as [|a s]; [now elim Hne|]. cbn [or_null Js.truthy].
    rewrite (eqb_absent _ _ Hgen). cbn [andb]. now destruct (repoName repoInfo).
  - destruct (isGitRepo repoInfo && (0 <? length (repo_tags repoInfo))).
    + exists (repo_tags repoInfo). split; [reflexivity | now right].
    + exists []. split; [now rewrite app_nil_r | now left].
  - intros ->. reflexivity.
Qed.

End Utils.

Lemma X19_witness :
  (Z.of_nat (String.length (truncateText "Use PostgreSQL for the project" (Some 10%Z)))
   <= 10)%Z
  /\ truncateText "Use PostgreSQL for the project" (Some 10%Z) = "Use Pos...".
Proof.
  destruct (X19_truncateText_fits_the_maximum
              "Use PostgreSQL for the project" 10%Z ltac:(lia))
    as [Hbound _].
  split; [exact Hbound | reflexivity].
Defined.

Section Bridge.

Variable handlers : Tool.Handlers.

(** X23. Whatever the handlers do, a call through [callTool] either returns
    the result of a handler or throws an [McpError] with the code
    [InternalError] whose message names the tool and carries the message of
    the error that was thrown inside: no other error leaves the direct
    transport, not even the one for an unknown tool or a missing
    argument. *)
Theorem X23_callTool_throws_only_internal_errors
        (name : string) (args : option JArgs) (w : World) :
  match Index.callTool handlers name args w with
  | (Ok _, _) => True
  | (Throw e, _) =>
      exists inner,
        e = McpError InternalError
              ("Error executing tool " ++ name ++ ": " ++ message inner)
  end.
Proof.
  unfold Index.callTool, try_catch.
  match goal with
  | |- match (match ?body with _ => _ end) with _ => _ end =>
      destruct body as [[r|inner] w']
  end.
  - exact I.
  - unfold throw. exists inner. reflexivity.
Qed.

Ltac each_tool H :=
  repeat (destruct H as [<-|H]; [|]); [..|destruct H].

(** X24. For every tool of the catalogue whose input schema lists required
    arguments, [callTool] checks exactly those: when the arguments are
    missing altogether or lack one of them, no handler runs, the store is
    left as it is, and the error thrown is the internal error that wraps the
    invalid-parameters error (code -32602). *)
Theorem X24_callTool_checks_the_advertised_required_arguments
        (tool : JValue) (name : string) (args : option JArgs) (w : World) :
  In tool Index.tools -> tool_name tool = Some name ->
  required_of tool <> [] ->
  Index.missing args (required_of tool) = true ->
  exists msg,
    Index.callTool handlers name args w
    = (Throw (McpError InternalError
                ("Error executing tool " ++ name ++ ": MCP error -32602: " ++ msg)),
       w).
Proof.
  intros Hin Hname Hreq Hmissing. unfold Index.tools in Hin.
  cbn [In] in Hin.
  each_tool Hin;
    vm_compute in Hname; injection Hname as <-;
    first [ now elim Hreq
          | change (required_of _) with ["content"] in Hmissing
          | change (required_of _) with ["query"] in Hmissing
          | change (required_of _) with ["text"] in Hmissing
          | change (required_of _) with ["id"] in Hmissing
          | change (required_of _) with ["project"] in Hmissing
          | change (required_of _) with ["project"; "memories"] in Hmissing
          | change (required_of _) with ["format"] in Hmissing ];
    unfold Index.callTool, try_catch; rewrite Hmissing;
    eexists; reflexivity.
Qed.

(** X25. The endpoint [/mcp] of the HTTP bridge answers 200, 400, 404 or
    500.  [tools/list] returns the catalogue; a request it answers with 400
    or 404 leaves the store as it is; and every tool of the catalogue is
    routed to its handler with the arguments as they came, without a check
    for required arguments: the answer is 200 with the result of the
    handler, or 500 with the message of what it threw. *)
Theorem X25_post_mcp_answers_and_routes
        (mcpRequest : MCPRequest) (w : World) :
  In (status (fst (HttpServer.post_mcp handlers mcpRequest w))) [200; 400; 404; 500]%Z
  /\ (In (status (fst (HttpServer.post_mcp handlers mcpRequest w))) [400; 404]%Z ->
      snd (HttpServer.post_mcp handlers mcpRequest w) = w)
  /\ (method mcpRequest = "tools/list" ->
      HttpServer.post_mcp handlers mcpRequest w
      = ({| status := 200; body := Tools HttpServer.tools |}, w))
  /\ (forall tool name args,
        In tool HttpServer.tools -> tool_name tool = Some name ->
        exists handler,
          HttpServer.route handlers name args = Some handler
          /\ HttpServer.post_mcp handlers (tools_call name args) w
             = match handler w with
               | (Ok result, w') => ({| status := 200; body := Content result |}, w')
               | (Throw error, w') =>
                   ({| status := 500;
                       body := ErrorBody 500 ("Internal server error: "
                                              ++ message error) |}, w')
               end).
Proof.
  split; [|split; [|split]].
  - unfold HttpServer.post_mcp.
    destruct (String.eqb (method mcpRequest) "tools/list"); [simpl; auto|].
    destruct (String.eqb (method mcpRequest) "tools/call"); [|simpl; auto].
    cbv zeta. destruct (or_null _) as [name|]; [|simpl; auto].
    destruct (HttpServer.route handlers name _) as [handler|]; [|simpl; auto].
    destruct (handler w) as [[r|e] w']; simpl; auto.
  - unfold HttpServer.post_mcp.
    destruct (String.eqb (method mcpRequest) "tools/list"); [reflexivity|].
    destruct (String.eqb (method mcpRequest) "tools/call"); [|reflexivity].
    cbv zeta. destruct (or_null _) as [name|]; [|reflexivity].
    destruct (HttpServer.route handlers name _) as [handler|]; [|reflexivity].
    destruct (handler w) as [[r|e] w']; cbn [fst snd status];
      intros [H|[H|[]]]; discriminate H.
  - intros Hm. unfold HttpServer.post_mcp. now rewrite Hm.
  - intros tool name args Hin Hname. unfold HttpServer.tools in Hin.
    cbn [In] in Hin.
    each_tool Hin; vm_compute in Hname; injection Hname as <-;
      eexists; (split; [reflexivity|]); reflexivity.
Qed.

End Bridge.

Section Csv.



End Csv.

Section ExportBank.

Variable E : Env.

(** X27. On an open store [exportMemoryBank] changes no table and returns
    the rows of the project and of the category asked for, each once and
    newest first by [created_at], under the format asked for ([json] when
    none is) and stamped with the clock reading.  A project or a category
    that is missing or empty selects every row. *)
Theorem X27_exportMemoryBank_selects_newest_first
        (project category : option string) (format : option Format)
        (w : World) (d : Database) :
  db w = Some d -> is_open d = true ->
  exists rows,
    exportMemoryBank E project category format w
    = (Ok {| ex_project := project;
             ex_category := category;
             ex_format := default json format;
             ex_exportedAt := isoClock E (tick w);
             ex_memories := map (exportedOfRow E) rows |},
       {| db := db w; tick := S (tick w) |})
    /\ Sorted newest_first rows
    /\ Permutation
         (filter (fun r => optional_eq project (row_project r)
                           && optional_eq category (row_category r))
                 (memories d))
         rows
    /\ (forall r p, In r rows -> project = Some p -> p <> "" ->
                    row_project r = Some p)
    /\ (forall r c, In r rows -> category = Some c -> c <> "" ->
                    row_category r = Some c)
    /\ (Js.or_else project "" = "" -> Js.or_else category "" = "" ->
        Permutation (memories d) rows).
Proof.
  intros Hdb Hopen. unfold exportMemoryBank.
  step_ok (require_db_ready w d Hdb).
  step_ok (db_all_ready (export_rows project category) w d Hdb Hopen).
  cbv zeta. step_ok (newDateISO_run E w).
  exists (export_rows project category d). split; [reflexivity|].
  unfold export_rows.
  assert (Hin : forall r,
            In r (Sql.order_by created_desc
                    (filter (fun r => optional_eq project (row_project r)
                                      && optional_eq category (row_category r))
                            (memories d))) ->
            optional_eq project (row_project r) = true
            /\ optional_eq category (row_category r) = true).
  { intros r Hr. apply In_stable_sort in Hr. apply filter_In in Hr.
    destruct Hr as [_ Hr]. now apply andb_true_iff in Hr. }
  assert (Hsel : forall wanted v column,
            wanted = Some v -> v <> "" ->
            optional_eq wanted column = true -> column = Some v).
  { intros wanted v column -> Hv H. unfold optional_eq in H.
    destruct v as [|a s]; [now elim Hv|]. cbn [Js.truthy] in H.
    now apply opt_eqb_eq. }
  split; [apply created_desc_sorted|]. split; [apply stable_sort_perm|].
  split; [|split].
  - intros r p Hr Hp Hne. apply (Hsel project p); [exact Hp | exact Hne | apply Hin, Hr].
  - intros r c Hr Hc Hne. apply (Hsel category c); [exact Hc | exact Hne | apply Hin, Hr].
  - intros Hp Hc.
    assert (Hall : forall wanted column,
              Js.or_else wanted "" = "" -> optional_eq wanted column = true).
    { intros [[|a s]|] column H; try reflexivity. discriminate H. }
    rewrite (filter_ext _ (fun _ => true)).
    + rewrite filter_true. apply stable_sort_perm.
    + intros r. now rewrite (Hall project _ Hp), (Hall category _ Hc).
Qed.

End ExportBank.

Lemma X16_witness :
  length (findSimilarMemories (Some [(9 # 10)%Q; (1 # 10)%Q]) "database"
            (map storedOfRow Sample.rows) None)
  <= 3.
Proof.
  destruct (X16_findSimilarMemories_ranks_above_the_threshold
              (Some [(9 # 10)%Q; (1 # 10)%Q]) "database"
              (map storedOfRow Sample.rows) None)
    as [_ [_ [_ Hlen]]].
  exact Hlen.
Defined.


Lemma X20_witness :
  sanitizeContext (Some "My Project: API v2!") = "my project api v2".
Proof.
  destruct (X20_sanitizeContext_keeps_plain_characters (Some "My Project: API v2!"))
    as [_ H].
  rewrite H. reflexivity.
Defined.


Lemma X22_witness :
  md_project (enhanceMemoryWithRepoInfo Sample.repository
                {| md_content := "Use PostgreSQL"; md_originalContent := None;
                   md_context := Some "db"; md_importance := Some 9%Z;
                   md_timestamp := "2026-01-02T00:00:00.000Z";
                   md_source := Some manual; md_project := Some "alpha";
                   md_category := None; md_tags := None |})
  = Some "alpha"
  /\ md_context (enhanceMemoryWithRepoInfo Sample.repository
                   {| md_content := "Use PostgreSQL"; md_originalContent := None;
                      md_context := Some "db"; md_importance := Some 9%Z;
                      md_timestamp := "2026-01-02T00:00:00.000Z";
                      md_source := Some manual; md_project := Some "alpha";
                      md_category := None; md_tags := None |})
     = Some "db".
Proof.
  destruct (X22_enhanceMemoryWithRepoInfo_keeps_what_is_given
              Sample.repository
              {| md_content := "Use PostgreSQL"; md_originalContent := None;
                 md_context := Some "db"; md_importance := Some 9%Z;
                 md_timestamp := "2026-01-02T00:00:00.000Z";
                 md_source := Some manual; md_project := Some "alpha";
                 md_category := None; md_tags := None |})
    as [_ [_ [_ [_ [_ [_ [Hp [Hc _]]]]]]]].
  split.
  - apply Hp; [reflexivity | discriminate].
  - apply Hc; [reflexivity | discriminate | discriminate].
Defined.

Lemma X24_witness :
  exists msg,
    Index.callTool Demo.others "delete_memory" (Some [("name", JStr "x")])
      Sample.world
    = (Throw (McpError InternalError
                ("Error executing tool delete_memory: MCP error -32602: " ++ msg)),
       Sample.world).
Proof.
  apply (X24_callTool_checks_the_advertised_required_arguments
           Demo.others
           (nth 4 Index.tools JNull) "delete_memory" (Some [("name", JStr "x")])
           Sample.world).
  - do 4 right. left. reflexivity.
  - reflexivity.
  - discriminate.
  - reflexivity.
Defined.

Lemma X25_witness :
  HttpServer.post_mcp Demo.others {| method := "tools/list"; params := None |}
    Sample.world
  = ({| status := 200; body := Tools HttpServer.tools |}, Sample.world).
Proof.
  apply (X25_post_mcp_answers_and_routes
           Demo.others {| method := "tools/list"; params := None |} Sample.world).
  reflexivity.
Defined.


Lemma X27_witness :
  exists rows,
    exportMemoryBank Demo.env (Some "alpha") None (Some markdown) Sample.world
    = (Ok {| ex_project := Some "alpha";
             ex_category := None;
             ex_format := markdown;
             ex_exportedAt := isoClock Demo.env 7;
             ex_memories := map (exportedOfRow Demo.env) rows |},
       {| db := db Sample.world; tick := 8 |})
    /\ Sorted newest_first rows
    /\ (forall r, In r rows -> row_project r = Some "alpha").
Proof.
  destruct (X27_exportMemoryBank_selects_newest_first
              Demo.env (Some "alpha") None (Some markdown)
              Sample.world Sample.database eq_refl eq_refl)
    as [rows [Hrun [Hsorted [_ [Hp _]]]]].
  exists rows. split; [exact Hrun|]. split; [exact Hsorted|].
  intros r Hr. apply (Hp r "alpha" Hr); [reflexivity | discriminate].
Defined.

Section Coverage.

Lemma lower_char_idempotent (c : ascii) :
  Js.lower_char (Js.lower_char c) = Js.lower_char c.
Proof. destruct c as [[] [] [] [] [] [] [] []]; reflexivity. Qed.

Lemma toLowerCase_idempotent (s : string) :
  Js.toLowerCase (Js.toLowerCase s) = Js.toLowerCase s.
Proof.
  induction s as [|c s IH]; simpl; [reflexivity|].
  now rewrite lower_char_idempotent, IH.
Qed.

Lemma ratio_none (d : nat) : (ratio 0 d == 0)%Q.
Proof. unfold ratio, Qeq. simpl. reflexivity. Qed.

Lemma filter_none {A} (f : A -> bool) (l : list A) :
  (forall a, In a l -> f a = false) -> filter f l = [].
Proof.
  induction l as [|a l IH]; intros H; simpl; [reflexivity|].
  rewrite (H a (or_introl eq_refl)). apply IH. intros b Hb. apply H. now right.
Qed.

(** X28. The score of [calculateTextSimilarity] does not depend on the case
    of the letters of the query or of the content.  It is 1 as soon as every
    word of the query is a word of the content, whatever else the content
    holds, and 0 when no word of the query is covered. *)
Theorem X28_calculateTextSimilarity_ignores_case_and_rewards_coverage
        (query content : string) :
  calculateTextSimilarity (Js.toLowerCase query) content
  = calculateTextSimilarity query content
  /\ calculateTextSimilarity query (Js.toLowerCase content)
     = calculateTextSimilarity query content
  /\ ((forall word, In word (words query) -> In word (words content)) ->
      (calculateTextSimilarity query content == 1)%Q)
  /\ ((forall word, In word (words query) -> covered (words content) word = false) ->
      (calculateTextSimilarity query content == 0)%Q).
Proof.
  split; [|split; [|split]].
  - unfold calculateTextSimilarity. now rewrite toLowerCase_idempotent.
  - unfold calculateTextSimilarity. now rewrite toLowerCase_idempotent.
  - intros Hall. rewrite similarity_is_coverage. unfold coverage_score.
    rewrite filter_all.
    + apply ratio_full, words_length.
    + intros word Hw. apply covered_self. now apply Hall.
  - intros Hnone. rewrite similarity_is_coverage. unfold coverage_score.
    rewrite filter_none by exact Hnone. apply ratio_none.
Qed.

End Coverage.

Section DeleteTools.

Variable E : Env.
Variable config : Config.
Variable others : Tool.Handlers.

(** X29. On an open store, for an identifier that a memory carries, the
    tool [delete_memory] answers on both transports that the memory was
    deleted (each transport in its own words) and leaves the same store, in
    which [getMemoryById] finds nothing under the identifier; the same call
    made again answers that the memory was not found. *)
Theorem X29_delete_memory_tool_deletes_once
        (w : World) (d : Database) (id : string) (args : JArgs) :
  db w = Some d -> is_open d = true ->
  str_field "id" args = Some id ->
  (exists r, In r (memories d) /\ row_id r = id) ->
  exists w',
    Index.callTool (Index.createToolHandlers E config others)
      "delete_memory" (Some args) w
    = (Ok (text_result ("Memory with ID " ++ dquote ++ id ++ dquote
                        ++ " deleted successfully")), w')
    /\ HttpServer.post_mcp (HttpServer.createToolHandlers E config others)
         (tools_call "delete_memory" (Some args)) w
       = ({| status := 200;
             body := Content (text_result ("Memory with ID " ++ id
                                           ++ " deleted successfully.")) |}, w')
    /\ getMemoryById id w' = (Ok None, w')
    /\ Index.callTool (Index.createToolHandlers E config others)
         "delete_memory" (Some args) w'
       = (Ok (text_result ("Memory with ID " ++ dquote ++ id ++ dquote
                           ++ " not found")), w').
Proof.
  intros Hdb Hopen Hid [r [Hin Hr]].
  pose proof (deleteMemory_run id w d Hdb Hopen) as Hdel.
  assert (Hsome : existsb (fun r0 => String.eqb (row_id r0) id) (memories d) = true).
  { apply existsb_exists. exists r. split; [exact Hin|]. rewrite Hr. apply String.eqb_refl. }
  rewrite Hsome in Hdel.
  pose proof (has_key_of_str_field _ _ _ Hid) as Hkey.
  set (d' := {| memories := filter (fun r0 => negb (String.eqb (row_id r0) id))
                                   (memories d);
                todos := todos d; transaction := transaction d; is_open := true |}) in *.
  set (w' := {| db := Some d'; tick := tick w |}) in *.
  assert (Hgone : forall r0, In r0 (memories d') -> row_id r0 <> id).
  { intros r0 Hr0. cbn [d' memories] in Hr0. apply filter_In in Hr0.
    destruct Hr0 as [_ Hne]. intros Heq. rewrite Heq, String.eqb_refl in Hne.
    discriminate Hne. }
  pose proof (deleteMemory_absent w' d' id eq_refl eq_refl Hgone) as Hagain.
  exists w'. split; [|split; [|split]].
  - unfold Index.callTool, try_catch, Index.missing; simpl.
    rewrite Hkey; simpl.
    unfold Index.handleDeleteMemory. rewrite Hid.
    step_ok Hdel. reflexivity.
  - unfold HttpServer.post_mcp; simpl.
    unfold HttpServer.handleDeleteMemory. rewrite Hid.
    step_ok Hdel. reflexivity.
  - rewrite (getMemoryById_run w' d' id eq_refl eq_refl).
    rewrite find_absent; [reflexivity|].
    intros r0 Hr0. apply eqb_absent. now apply Hgone.
  - unfold Index.callTool, try_catch, Index.missing; simpl.
    rewrite Hkey; simpl.
    unfold Index.handleDeleteMemory. rewrite Hid.
    step_ok Hagain. reflexivity.
Qed.

End DeleteTools.

Lemma X28_witness :
  (calculateTextSimilarity "use postgresql" "We USE PostgreSQL here" == 1)%Q.
Proof.
  destruct (X28_calculateTextSimilarity_ignores_case_and_rewards_coverage
              "use postgresql" "We USE PostgreSQL here") as [_ [_ [Hall _]]].
  apply Hall. intros word Hword. vm_compute in Hword. vm_compute.
  destruct Hword as [<-|[<-|[]]]; auto.
Defined.

Lemma X29_witness :
  exists w',
    Index.callTool (Index.createToolHandlers Demo.env Demo.config Demo.others)
      "delete_memory" (Some [("id", JStr "a2")]) Sample.world
    = (Ok (text_result ("Memory with ID " ++ dquote ++ "a2" ++ dquote
                        ++ " deleted successfully")), w')
    /\ HttpServer.post_mcp
         (HttpServer.createToolHandlers Demo.env Demo.config Demo.others)
         (tools_call "delete_memory" (Some [("id", JStr "a2")])) Sample.world
       = ({| status := 200;
             body := Content (text_result ("Memory with ID " ++ "a2"
                                           ++ " deleted successfully.")) |}, w')
    /\ getMemoryById "a2" w' = (Ok None, w')
    /\ Index.callTool (Index.createToolHandlers Demo.env Demo.config Demo.others)
         "delete_memory" (Some [("id", JStr "a2")]) w'
       = (Ok (text_result ("Memory with ID " ++ dquote ++ "a2" ++ dquote
                           ++ " not found")), w').
Proof.
  apply (X29_delete_memory_tool_deletes_once
           Demo.env Demo.config Demo.others Sample.world Sample.database
           "a2" [("id", JStr "a2")] eq_refl eq_refl eq_refl).
  exists (Sample.memory_row "a2" "Deploy on ECS" "ops" 7 (Some "alpha") (Some "infra")
            "2026-01-01 00:00:02").
  split; [right; left; reflexivity | reflexivity].
Defined.
